(** * Gateway chat handlers: chat.history, chat.abort, chat.send

    A shallow embedding of [src/gateway/server-methods/chat.ts].  The three
    handlers are written as programs in a small state-and-output monad over
    the gateway context; the two suspension points of [chat.send]
    ([await saveSessionStore], [await agentCommand]) split that handler
    into three segments that are scheduled by a labelled step function, so
    that requests interleave exactly where the event loop lets them. *)

From Stdlib Require Import ZArith List Lia Ascii DecimalString.
From Stdlib.Strings Require Import Byte.
From stdpp Require Import gmap strings list fin_maps.

Local Open Scope Z_scope.

(** ** JavaScript primitives used by the handlers

    Numbers are integers here ([Z]): timestamps, sequence numbers, limits
    and timeouts are, and none comes near 2^53. *)

(** Truthiness of an optional string: [undefined] and the empty string are
    falsy. *)
Definition truthy (o : option string) : bool :=
  match o with
  | Some s => negb (String.eqb s "")
  | None => false
  end.

(** Optional chaining: [o?.f] is [undefined] when [o] is. *)
Definition optChain {A B} (o : option A) (f : A -> option B) : option B :=
  match o with
  | Some a => f a
  | None => None
  end.

Notation "o ?. f" := (optChain o f) (at level 9, f at level 9, format "o ?. f").

(** [Array.prototype.slice(start)] with one argument: a negative [start]
    counts from the end, and the result runs to the end of the array. *)
Definition js_slice {A} (start : Z) (l : list A) : list A :=
  let len := Z.of_nat (length l) in
  let k := if start <? 0 then Z.max (len + start) 0 else Z.min start len in
  drop (Z.to_nat k) l.

(** [Math.ceil(a / b)] on integers, [b > 0]. *)
Definition ceil_div (a b : Z) : Z := - ((- a) / b).

(** [Number.prototype.toString] on an integer. *)
Definition number_toString (z : Z) : string :=
  NilZero.string_of_int (Z.to_int z).

(** [Buffer.toString("base64")]. *)
Definition b64_alphabet : list ascii :=
  String.list_ascii_of_string
    "ABCDEFGHIJKLMNOPQRSTUVWXYZabcdefghijklmnopqrstuvwxyz0123456789+/".

Definition b64_digit (n : N) : ascii :=
  nth (N.to_nat n) b64_alphabet "="%char.

Fixpoint base64_chars (bs : list Byte.byte) : list ascii :=
  match bs with
  | [] => []
  | [a] =>
      let n := N.shiftl (Byte.to_N a) 16 in
      [b64_digit (N.shiftr n 18); b64_digit (N.land (N.shiftr n 12) 63);
       "="%char; "="%char]
  | [a; b] =>
      let n := N.lor (N.shiftl (Byte.to_N a) 16) (N.shiftl (Byte.to_N b) 8) in
      [b64_digit (N.shiftr n 18); b64_digit (N.land (N.shiftr n 12) 63);
       b64_digit (N.land (N.shiftr n 6) 63); "="%char]
  | a :: b :: c :: rest =>
      let n := N.lor (N.lor (N.shiftl (Byte.to_N a) 16)
                            (N.shiftl (Byte.to_N b) 8)) (Byte.to_N c) in
      b64_digit (N.shiftr n 18) :: b64_digit (N.land (N.shiftr n 12) 63) ::
      b64_digit (N.land (N.shiftr n 6) 63) :: b64_digit (N.land n 63) ::
      base64_chars rest
  end.

Definition base64 (bs : list Byte.byte) : string :=
  String.string_of_list_ascii (base64_chars bs).

(** ** Data model *)

Inductive SendPolicyDecision := allow | deny.

(** One entry of the session store (config/sessions). *)
Record SessionEntry := {
  sessionId : string;
  updatedAt : Z;
  thinkingLevel : option string;
  verboseLevel : option string;
  reasoningLevel : option string;
  systemSent : option bool;
  sendPolicy : option SendPolicyDecision;
  lastProvider : option string;
  lastTo : option string;
  provider : option string;
  chatType : option string;
}.

(** The session store document: sessionKey -> SessionEntry. *)
Abbreviation SessionStore := (gmap string SessionEntry).

(** What [loadSessionEntry] hands back, without the configuration. *)
Record Loaded := {
  l_storePath : option string;
  l_store : option SessionStore;
  l_entry : option SessionEntry;
}.

Inductive ErrorCode := INVALID_REQUEST | UNAVAILABLE.

Record ErrorShape := { code : ErrorCode; message : string }.

Inductive RunStatus := status_ok | status_error.

(** Request parameters, as typed by the handlers after validation. *)
Record ChatHistoryParams := {
  h_sessionKey : string;
  h_limit : option Z;
}.

Record ChatAbortParams := {
  a_sessionKey : string;
  a_runId : string;
}.

(** The [content] of an attachment is [unknown] to the handler: a string,
    a typed-array view over some bytes, or anything else. *)
Inductive AttachmentContent :=
| ContentString (s : string)
| ContentView (bytes : list Byte.byte)
| ContentOther.

(** A field is [None] when it is absent or not a string. *)
Record RawAttachment := {
  ra_type : option string;
  ra_mimeType : option string;
  ra_fileName : option string;
  ra_content : AttachmentContent;
}.

Record Attachment := {
  at_type : option string;
  at_mimeType : option string;
  at_fileName : option string;
  at_content : option string;
}.

Record ChatSendParams := {
  s_sessionKey : string;
  s_message : string;
  s_thinking : option string;
  s_deliver : option bool;
  s_attachments : option (list RawAttachment);
  s_timeoutMs : option Z;
  s_idempotencyKey : string;
}.

(** Options handed to the executor ([agentCommand]); [abortSignal] is the
    identity of the AbortController whose signal the executor observes. *)
Record AgentOpts := {
  o_message : string;
  o_sessionId : string;
  o_sessionKey : string;
  o_runId : string;
  o_thinking : option string;
  o_deliver : option bool;
  o_timeout : string;
  o_messageProvider : string;
  o_abortSignal : nat;
}.

(** An entry of the chat-run queue ([context.addChatRun]). *)
Record ChatRunEntry := {
  cr_sessionKey : string;
  cr_clientRunId : string;
}.

(** The session files on disk: storePath -> store document. *)
Abbreviation Disk := (gmap string SessionStore).

(** ** External collaborators

    Everything the handlers import that is not part of chat.ts: schema
    validation (returning the typed parameters or the formatted errors),
    configuration, the session loader, the transcript reader, the model
    catalog, the send-policy engine, the attachment transform and the
    chat-run queue kept by the server context. *)
Class Externals := {
  Raw : Type;
  Cfg : Type;
  Catalog : Type;
  Exn : Type;
  Msg : Type;
  validateChatHistoryParams : Raw -> ChatHistoryParams + string;
  validateChatAbortParams : Raw -> ChatAbortParams + string;
  validateChatSendParams : Raw -> ChatSendParams + string;
  String_ : Exn -> string;
  formatForLog : Exn -> string;
  loadConfig : Cfg;
  loadSessionEntry : Disk -> string -> Loaded;
  readSessionMessages : string -> string -> list Msg;
  jsonUtf8Bytes : Msg -> Z;
  thinkingDefault : Cfg -> option string;
  resolveSessionModelRef : Cfg -> option SessionEntry -> string * string;
  loadGatewayModelCatalog : Catalog;
  resolveThinkingDefault : Cfg -> string -> string -> Catalog -> string;
  resolveAgentTimeoutMs : Cfg -> option Z -> Z;
  resolveSendPolicy :
    Cfg -> option SessionEntry -> string -> option string -> option string ->
    SendPolicyDecision;
  buildMessageWithAttachments :
    string -> list Attachment -> Z -> string + Exn;
  ChatRuns : Type;
  addChatRun : string -> ChatRunEntry -> ChatRuns -> ChatRuns;
  removeChatRun : string -> string -> string -> ChatRuns -> ChatRuns;
}.

Section Gateway.
Context `{X : Externals}.

(** ** Responses, events and observable effects *)

Inductive Payload :=
| AbortResult (ok aborted : bool)
| RunResult (runId : string) (status : RunStatus) (summary : option string)
| HistoryResult (sessionKey : string) (sessionId : option string)
    (messages : list Msg) (thinkingLevel : option string).

(** The fourth argument of [respond]. *)
Inductive Meta :=
| NoMeta
| MetaCached
| MetaRun (runId : string) (error : option string).

(** chat.ts only ever emits the "aborted" chat state; the other states are
    the event relay's. *)
Inductive ChatState := aborted.

Record ChatEvent := {
  e_runId : string;
  e_sessionKey : string;
  e_seq : Z;
  e_state : ChatState;
}.

(** What a handler does to the outside world, in program order.  [rid]
    names the request whose [respond] callback is called. *)
Inductive Effect :=
| Respond (rid : nat) (ok : bool) (payload : option Payload)
    (error : option ErrorShape) (meta : Meta)
| Broadcast (event : string) (payload : ChatEvent)
| BridgeSendToSession (sessionKey event : string) (payload : ChatEvent)
| LoadSessionEntry (sessionKey : string)
| SaveSessionStore (storePath : string) (store : SessionStore)
| AgentCommand (opts : AgentOpts).

(** ** The gateway context *)

Record DedupeEntry := {
  ts : Z;
  d_ok : bool;
  d_payload : option Payload;
  d_error : option ErrorShape;
}.

Record AbortEntry := {
  controller : nat;
  ab_sessionId : string;
  ab_sessionKey : string;
}.

(** A [chat.send] call suspended at one of its two [await]s: the request
    it answers, the executor options it has built (among them the run id),
    and the [await] it is parked at. *)
Inductive Phase :=
| Saving (storePath : string) (store : SessionStore)
| Running.

Record Task := {
  t_rid : nat;
  t_opts : AgentOpts;
  t_phase : Phase;
}.

Definition t_runId (t : Task) : string := o_runId (t_opts t).

Record Gateway := {
  disk : Disk;
  runContexts : gmap string string;
  dedupe : gmap string DedupeEntry;
  chatAbortControllers : gmap string AbortEntry;
  chatRunBuffers : gmap string string;
  chatDeltaSentAt : gmap string Z;
  chatRunSessions : ChatRuns;
  agentRunSeq : gmap string Z;
  abortedSignals : gset nat;
  nextController : nat;
  inflight : gmap nat Task;
  nextTask : nat;
}.

Definition set_disk (f : Disk -> Disk) (g : Gateway) : Gateway :=
  {| disk := f (disk g); runContexts := runContexts g; dedupe := dedupe g;
     chatAbortControllers := chatAbortControllers g;
     chatRunBuffers := chatRunBuffers g;
     chatDeltaSentAt := chatDeltaSentAt g;
     chatRunSessions := chatRunSessions g; agentRunSeq := agentRunSeq g;
     abortedSignals := abortedSignals g; nextController := nextController g;
     inflight := inflight g; nextTask := nextTask g |}.

Definition set_runContexts (f : gmap string string -> gmap string string)
    (g : Gateway) : Gateway :=
  {| disk := disk g; runContexts := f (runContexts g); dedupe := dedupe g;
     chatAbortControllers := chatAbortControllers g;
     chatRunBuffers := chatRunBuffers g;
     chatDeltaSentAt := chatDeltaSentAt g;
     chatRunSessions := chatRunSessions g; agentRunSeq := agentRunSeq g;
     abortedSignals := abortedSignals g; nextController := nextController g;
     inflight := inflight g; nextTask := nextTask g |}.

Definition set_dedupe
    (f : gmap string DedupeEntry -> gmap string DedupeEntry)
    (g : Gateway) : Gateway :=
  {| disk := disk g; runContexts := runContexts g; dedupe := f (dedupe g);
     chatAbortControllers := chatAbortControllers g;
     chatRunBuffers := chatRunBuffers g;
     chatDeltaSentAt := chatDeltaSentAt g;
     chatRunSessions := chatRunSessions g; agentRunSeq := agentRunSeq g;
     abortedSignals := abortedSignals g; nextController := nextController g;
     inflight := inflight g; nextTask := nextTask g |}.

Definition set_chatAbortControllers
    (f : gmap string AbortEntry -> gmap string AbortEntry)
    (g : Gateway) : Gateway :=
  {| disk := disk g; runContexts := runContexts g; dedupe := dedupe g;
     chatAbortControllers := f (chatAbortControllers g);
     chatRunBuffers := chatRunBuffers g;
     chatDeltaSentAt := chatDeltaSentAt g;
     chatRunSessions := chatRunSessions g; agentRunSeq := agentRunSeq g;
     abortedSignals := abortedSignals g; nextController := nextController g;
     inflight := inflight g; nextTask := nextTask g |}.

Definition set_chatRunBuffers
    (f : gmap string string -> gmap string string) (g : Gateway) : Gateway :=
  {| disk := disk g; runContexts := runContexts g; dedupe := dedupe g;
     chatAbortControllers := chatAbortControllers g;
     chatRunBuffers := f (chatRunBuffers g);
     chatDeltaSentAt := chatDeltaSentAt g;
     chatRunSessions := chatRunSessions g; agentRunSeq := agentRunSeq g;
     abortedSignals := abortedSignals g; nextController := nextController g;
     inflight := inflight g; nextTask := nextTask g |}.

Definition set_chatDeltaSentAt
    (f : gmap string Z -> gmap string Z) (g : Gateway) : Gateway :=
  {| disk := disk g; runContexts := runContexts g; dedupe := dedupe g;
     chatAbortControllers := chatAbortControllers g;
     chatRunBuffers := chatRunBuffers g;
     chatDeltaSentAt := f (chatDeltaSentAt g);
     chatRunSessions := chatRunSessions g; agentRunSeq := agentRunSeq g;
     abortedSignals := abortedSignals g; nextController := nextController g;
     inflight := inflight g; nextTask := nextTask g |}.

Definition set_chatRunSessions
    (f : ChatRuns -> ChatRuns) (g : Gateway) : Gateway :=
  {| disk := disk g; runContexts := runContexts g; dedupe := dedupe g;
     chatAbortControllers := chatAbortControllers g;
     chatRunBuffers := chatRunBuffers g;
     chatDeltaSentAt := chatDeltaSentAt g;
     chatRunSessions := f (chatRunSessions g); agentRunSeq := agentRunSeq g;
     abortedSignals := abortedSignals g; nextController := nextController g;
     inflight := inflight g; nextTask := nextTask g |}.

Definition set_abortedSignals (f : gset nat -> gset nat)
    (g : Gateway) : Gateway :=
  {| disk := disk g; runContexts := runContexts g; dedupe := dedupe g;
     chatAbortControllers := chatAbortControllers g;
     chatRunBuffers := chatRunBuffers g;
     chatDeltaSentAt := chatDeltaSentAt g;
     chatRunSessions := chatRunSessions g; agentRunSeq := agentRunSeq g;
     abortedSignals := f (abortedSignals g);
     nextController := nextController g;
     inflight := inflight g; nextTask := nextTask g |}.

Definition set_nextController (f : nat -> nat) (g : Gateway) : Gateway :=
  {| disk := disk g; runContexts := runContexts g; dedupe := dedupe g;
     chatAbortControllers := chatAbortControllers g;
     chatRunBuffers := chatRunBuffers g;
     chatDeltaSentAt := chatDeltaSentAt g;
     chatRunSessions := chatRunSessions g; agentRunSeq := agentRunSeq g;
     abortedSignals := abortedSignals g;
     nextController := f (nextController g);
     inflight := inflight g; nextTask := nextTask g |}.

Definition set_inflight (f : gmap nat Task -> gmap nat Task)
    (g : Gateway) : Gateway :=
  {| disk := disk g; runContexts := runContexts g; dedupe := dedupe g;
     chatAbortControllers := chatAbortControllers g;
     chatRunBuffers := chatRunBuffers g;
     chatDeltaSentAt := chatDeltaSentAt g;
     chatRunSessions := chatRunSessions g; agentRunSeq := agentRunSeq g;
     abortedSignals := abortedSignals g; nextController := nextController g;
     inflight := f (inflight g); nextTask := nextTask g |}.

Definition set_nextTask (f : nat -> nat) (g : Gateway) : Gateway :=
  {| disk := disk g; runContexts := runContexts g; dedupe := dedupe g;
     chatAbortControllers := chatAbortControllers g;
     chatRunBuffers := chatRunBuffers g;
     chatDeltaSentAt := chatDeltaSentAt g;
     chatRunSessions := chatRunSessions g; agentRunSeq := agentRunSeq g;
     abortedSignals := abortedSignals g; nextController := nextController g;
     inflight := inflight g; nextTask := f (nextTask g) |}.

(** ** The handler monad: gateway state in, result, state and effects out *)

Definition M (A : Type) : Type := Gateway -> A * Gateway * list Effect.

#[global] Instance M_ret : MRet M := fun A a g => (a, g, []).

#[global] Instance M_bind : MBind M := fun A B f m g =>
  let '(a, g1, out1) := m g in
  let '(b, g2, out2) := f a g1 in
  (b, g2, out1 ++ out2).

Definition gets {A} (f : Gateway -> A) : M A := fun g => (f g, g, []).
Definition modify (f : Gateway -> Gateway) : M unit := fun g => (tt, f g, []).
Definition emit (e : Effect) : M unit := fun g => (tt, g, [e]).

(** Running a handler: the state it leaves and the effects it produced. *)
Definition exec (m : M unit) (g : Gateway) : Gateway * list Effect :=
  let '(_, g', out) := m g in (g', out).

Definition respond (rid : nat) (ok : bool) (payload : option Payload)
    (error : option ErrorShape) (meta : Meta) : M unit :=
  emit (Respond rid ok payload error meta).

(** Modelled from the spec: [errorShape] (protocol/index, not under src/)
    builds the error shape [{code, message}] of section 6. *)
Definition errorShape (c : ErrorCode) (msg : string) : ErrorShape :=
  {| code := c; message := msg |}.

(** [loadSessionEntry(sessionKey)]: a read of the session file. *)
Definition doLoadSessionEntry (sessionKey : string) : M Loaded :=
  emit (LoadSessionEntry sessionKey) ;;
  gets (fun g => loadSessionEntry (disk g) sessionKey).

(** ** chat.history *)

Definition hardMax : Z := 1000.
Definition defaultLimit : Z := 200.

(** The count cap (lines 50-55): [sliced] from [limit] and [rawMessages]. *)
Definition historySliced {A} (limit : option Z) (rawMessages : list A)
    : list A :=
  let requested := match limit with Some n => n | None => defaultLimit end in
  let max := Z.min hardMax requested in
  if Z.of_nat (length rawMessages) >? max
  then js_slice (- max) rawMessages
  else rawMessages.

(** Modelled from the spec: [MAX_CHAT_HISTORY_MESSAGES_BYTES]
    (server-constants, not under src/) is the 6 MiB bound of section 4.4. *)
Definition MAX_CHAT_HISTORY_MESSAGES_BYTES : Z := 6 * 1024 * 1024.

(** Size in bytes of the JSON text of an array: the two brackets, the
    items and the commas between them. *)
Definition jsonArrayBytes (l : list Msg) : Z :=
  2 + foldr (fun m acc => jsonUtf8Bytes m + acc) 0 l
    + Z.max 0 (Z.of_nat (length l) - 1).

Record Capped := { items : list Msg; bytes : Z }.

(** Modelled from the spec: [capArrayByJsonBytes] (session-utils, not under
    src/) drops the oldest entries until the serialized size of the
    remaining set is at most [maxBytes], preserving order. *)
Fixpoint capArrayByJsonBytes (l : list Msg) (maxBytes : Z) : Capped :=
  match l with
  | [] => {| items := []; bytes := jsonArrayBytes [] |}
  | _ :: rest =>
      if jsonArrayBytes l <=? maxBytes
      then {| items := l; bytes := jsonArrayBytes l |}
      else capArrayByJsonBytes rest maxBytes
  end.

(** The messages read for a request: nothing without a session id or a
    store path. *)
Definition historyRawMessages (ld : Loaded) : list Msg :=
  match sessionId <$> l_entry ld, l_storePath ld with
  | Some sid, Some path =>
      if truthy (Some sid) && truthy (Some path)
      then readSessionMessages sid path
      else []
  | _, _ => []
  end.

Definition historyThinkingLevel (entry : option SessionEntry)
    : option string :=
  let cfg := loadConfig in
  let level := entry?.thinkingLevel in
  if truthy level then level
  else
    let configured := thinkingDefault cfg in
    if truthy configured then configured
    else
      let '(provider, model) := resolveSessionModelRef cfg entry in
      Some (resolveThinkingDefault cfg provider model loadGatewayModelCatalog).

(** The handler reads the session and the transcript before its one
    [await] (the model catalog, line 67, reached only when neither the entry
    nor the configuration gives a thinking level) and mutates nothing, so
    what it answers and the state it leaves do not depend on what runs
    during that [await]; this definition gives that answer and that state.
    It does not render when the answer is sent: in the code a request on
    the catalog path is answered in a later turn, once the catalog promise
    has resolved, and not by this handler if that promise rejects.  No
    property below is about the turn in which a chat.history request is
    answered. *)
Definition chat_history (rid : nat) (raw : Raw) : M unit :=
  match validateChatHistoryParams raw with
  | inr errors =>
      respond rid false None
        (Some (errorShape INVALID_REQUEST
                 ("invalid chat.history params: " +:+ errors))) NoMeta
  | inl p =>
      ld ← doLoadSessionEntry (h_sessionKey p);
      let entry := l_entry ld in
      let rawMessages := historyRawMessages ld in
      let sliced := historySliced (h_limit p) rawMessages in
      let capped :=
        items (capArrayByJsonBytes sliced MAX_CHAT_HISTORY_MESSAGES_BYTES) in
      respond rid true
        (Some (HistoryResult (h_sessionKey p) (sessionId <$> entry) capped
                 (historyThinkingLevel entry)))
        None NoMeta
  end.

(** ** chat.abort *)

Definition chat_abort (rid : nat) (raw : Raw) : M unit :=
  match validateChatAbortParams raw with
  | inr errors =>
      respond rid false None
        (Some (errorShape INVALID_REQUEST
                 ("invalid chat.abort params: " +:+ errors))) NoMeta
  | inl p =>
      let sessionKey := a_sessionKey p in
      let runId := a_runId p in
      active ← gets (fun g => chatAbortControllers g !! runId);
      match active with
      | None => respond rid true (Some (AbortResult true false)) None NoMeta
      | Some active =>
          if bool_decide (ab_sessionKey active ≠ sessionKey) then
            respond rid false None
              (Some (errorShape INVALID_REQUEST
                       "runId does not match sessionKey")) NoMeta
          else
            modify (set_abortedSignals (union {[controller active]})) ;;
            modify (set_chatAbortControllers (delete runId)) ;;
            modify (set_chatRunBuffers (delete runId)) ;;
            modify (set_chatDeltaSentAt (delete runId)) ;;
            modify (set_chatRunSessions (removeChatRun runId runId sessionKey)) ;;
            seq ← gets (fun g => default 0 (agentRunSeq g !! runId) + 1);
            let payload :=
              {| e_runId := runId; e_sessionKey := sessionKey;
                 e_seq := seq; e_state := aborted |} in
            emit (Broadcast "chat" payload) ;;
            emit (BridgeSendToSession sessionKey "chat" payload) ;;
            respond rid true (Some (AbortResult true true)) None NoMeta
      end
  end.

(** ** chat.send *)

Definition normalizeAttachment (a : RawAttachment) : Attachment :=
  {| at_type := ra_type a;
     at_mimeType := ra_mimeType a;
     at_fileName := ra_fileName a;
     at_content :=
       match ra_content a with
       | ContentString s => Some s
       | ContentView bytes => Some (base64 bytes)
       | ContentOther => None
       end |}.

Definition normalizedAttachments (p : ChatSendParams) : list Attachment :=
  match s_attachments p with
  | Some l => map normalizeAttachment l
  | None => []
  end.

Definition attachmentMaxBytes : Z := 5000000.

(** Lines 174-190: the message handed to the executor, or the thrown value
    of the attachment transform. *)
Definition messageWithAttachments (p : ChatSendParams) : string + Exn :=
  match normalizedAttachments p with
  | [] => inl (s_message p)
  | atts => buildMessageWithAttachments (s_message p) atts attachmentMaxBytes
  end.

(** Lines 198-208: the entry written for the session. *)
Definition sessionEntryFor (entry : option SessionEntry) (sid : string)
    (now : Z) : SessionEntry :=
  {| sessionId := sid;
     updatedAt := now;
     thinkingLevel := entry?.thinkingLevel;
     verboseLevel := entry?.verboseLevel;
     reasoningLevel := entry?.reasoningLevel;
     systemSent := entry?.systemSent;
     sendPolicy := entry?.sendPolicy;
     lastProvider := entry?.lastProvider;
     lastTo := entry?.lastTo;
     provider := None;
     chatType := None |}.

(** Modelled from the spec: [registerAgentRunContext] (infra/agent-events,
    not under src/) records runId -> sessionKey in the run context
    registry. *)
Definition registerAgentRunContext (runId sessionKey : string)
    (reg : gmap string string) : gmap string string :=
  <[runId := sessionKey]> reg.

Definition dedupeKey (clientRunId : string) : string :=
  "chat:" +:+ clientRunId.

(** [new AbortController()]: a fresh controller, not aborted. *)
Definition newAbortController : M nat :=
  c ← gets nextController;
  modify (set_nextController S) ;;
  mret c.

(** The call is parked at an [await]. *)
Definition suspend (rid : nat) (opts : AgentOpts) (ph : Phase) : M unit :=
  tid ← gets nextTask;
  modify (set_inflight
            <[tid := {| t_rid := rid; t_opts := opts; t_phase := ph |}]>) ;;
  modify (set_nextTask S).

(** Modelled from the spec: [saveSessionStore] (config/sessions, not under
    src/) replaces the whole store document at [storePath]. *)
Definition saveSessionStore (storePath : string) (store : SessionStore)
    (d : Disk) : Disk :=
  <[storePath := store]> d.

(** Lines 258-272: the executor is called. *)
Definition invokeAgent (rid : nat) (opts : AgentOpts) : M unit :=
  emit (AgentCommand opts) ;;
  suspend rid opts Running.

(** Lines 258-269: the options of the executor call. *)
Definition agentOptsFor (p : ChatSendParams) (message sid : string)
    (abortController : nat) : AgentOpts :=
  let timeoutMs := resolveAgentTimeoutMs loadConfig (s_timeoutMs p) in
  {| o_message := message;
     o_sessionId := sid;
     o_sessionKey := s_sessionKey p;
     o_runId := s_idempotencyKey p;
     o_thinking := s_thinking p;
     o_deliver := s_deliver p;
     o_timeout := number_toString (ceil_div timeoutMs 1000);
     o_messageProvider := "webchat";
     o_abortSignal := abortController |}.

(** First segment: from the request to the first [await]. *)
Definition chat_send (rid : nat) (raw : Raw) (now : Z) (uuid : string)
    : M unit :=
  match validateChatSendParams raw with
  | inr errors =>
      respond rid false None
        (Some (errorShape INVALID_REQUEST
                 ("invalid chat.send params: " +:+ errors))) NoMeta
  | inl p =>
      match messageWithAttachments p with
      | inr err =>
          respond rid false None
            (Some (errorShape INVALID_REQUEST (String_ err))) NoMeta
      | inl message =>
          ld ← doLoadSessionEntry (s_sessionKey p);
          let cfg := loadConfig in
          let entry := l_entry ld in
          let sid :=
            match entry with Some e => sessionId e | None => uuid end in
          let sessionEntry := sessionEntryFor entry sid now in
          let clientRunId := s_idempotencyKey p in
          modify (set_runContexts
                    (registerAgentRunContext clientRunId (s_sessionKey p))) ;;
          match resolveSendPolicy cfg entry (s_sessionKey p)
                  (entry?.provider) (entry?.chatType) with
          | deny =>
              respond rid false None
                (Some (errorShape INVALID_REQUEST
                         "send blocked by session policy")) NoMeta
          | allow =>
              cached ← gets (fun g => dedupe g !! dedupeKey clientRunId);
              match cached with
              | Some c =>
                  respond rid (d_ok c) (d_payload c) (d_error c) MetaCached
              | None =>
                  abortController ← newAbortController;
                  modify (set_chatAbortControllers
                            <[clientRunId :=
                                {| controller := abortController;
                                   ab_sessionId := sid;
                                   ab_sessionKey := s_sessionKey p |}]>) ;;
                  modify (set_chatRunSessions
                            (addChatRun clientRunId
                               {| cr_sessionKey := s_sessionKey p;
                                  cr_clientRunId := clientRunId |})) ;;
                  let opts := agentOptsFor p message sid abortController in
                  match l_store ld with
                  | Some store =>
                      let store' := <[s_sessionKey p := sessionEntry]> store in
                      if truthy (l_storePath ld) then
                        let path := default "" (l_storePath ld) in
                        emit (SaveSessionStore path store') ;;
                        suspend rid opts (Saving path store')
                      else invokeAgent rid opts
                  | None => invokeAgent rid opts
                  end
              end
          end
      end
  end.

(** The gateway after [chat.send] has accepted a request and parked the
    call: run context, cancellation entry and queue entry registered, a
    fresh controller allocated, the call in flight. *)
Definition acceptedGateway (g : Gateway) (rid : nat) (p : ChatSendParams)
    (sid : string) (opts : AgentOpts) (ph : Phase) : Gateway :=
  {| disk := disk g;
     runContexts :=
       registerAgentRunContext (s_idempotencyKey p) (s_sessionKey p)
         (runContexts g);
     dedupe := dedupe g;
     chatAbortControllers :=
       <[s_idempotencyKey p :=
           {| controller := nextController g; ab_sessionId := sid;
              ab_sessionKey := s_sessionKey p |}]> (chatAbortControllers g);
     chatRunBuffers := chatRunBuffers g;
     chatDeltaSentAt := chatDeltaSentAt g;
     chatRunSessions :=
       addChatRun (s_idempotencyKey p)
         {| cr_sessionKey := s_sessionKey p;
            cr_clientRunId := s_idempotencyKey p |} (chatRunSessions g);
     agentRunSeq := agentRunSeq g;
     abortedSignals := abortedSignals g;
     nextController := S (nextController g);
     inflight :=
       <[nextTask g := {| t_rid := rid; t_opts := opts; t_phase := ph |}]>
         (inflight g);
     nextTask := S (nextTask g) |}.

(** How an awaited promise settles. *)
Inductive Outcome :=
| Resolved
| Rejected (err : Exn).

(** Lines 273-282: after the executor returns. *)
Definition chat_send_ok (rid : nat) (clientRunId : string) (now : Z)
    : M unit :=
  let payload := RunResult clientRunId status_ok None in
  modify (set_dedupe
            <[dedupeKey clientRunId :=
                {| ts := now; d_ok := true; d_payload := Some payload;
                   d_error := None |}]>) ;;
  respond rid true (Some payload) None (MetaRun clientRunId None).

(** Lines 283-299: the [catch] block. *)
Definition chat_send_catch (rid : nat) (clientRunId : string) (err : Exn)
    (now : Z) : M unit :=
  let error := errorShape UNAVAILABLE (String_ err) in
  let payload := RunResult clientRunId status_error (Some (String_ err)) in
  modify (set_dedupe
            <[dedupeKey clientRunId :=
                {| ts := now; d_ok := false; d_payload := Some payload;
                   d_error := Some error |}]>) ;;
  respond rid false (Some payload) (Some error)
    (MetaRun clientRunId (Some (formatForLog err))).

(** Lines 300-302: the [finally] block. *)
Definition chat_send_finally (clientRunId : string) : M unit :=
  modify (set_chatAbortControllers (delete clientRunId)).

(** Second segment: [await saveSessionStore] settles. *)
Definition chat_send_saved (tid : nat) (t : Task) (storePath : string)
    (store : SessionStore) (o : Outcome) (now : Z) : M unit :=
  match o with
  | Resolved =>
      modify (set_disk (saveSessionStore storePath store)) ;;
      emit (AgentCommand (t_opts t)) ;;
      modify (set_inflight
                <[tid := {| t_rid := t_rid t; t_opts := t_opts t;
                            t_phase := Running |}]>)
  | Rejected err =>
      modify (set_inflight (delete tid)) ;;
      chat_send_catch (t_rid t) (t_runId t) err now ;;
      chat_send_finally (t_runId t)
  end.

(** Third segment: [await agentCommand] settles. *)
Definition chat_send_settled (tid : nat) (t : Task) (o : Outcome) (now : Z)
    : M unit :=
  modify (set_inflight (delete tid)) ;;
  match o with
  | Resolved => chat_send_ok (t_rid t) (t_runId t) now
  | Rejected err => chat_send_catch (t_rid t) (t_runId t) err now
  end ;;
  chat_send_finally (t_runId t).

(** ** Scheduling *)

(** What the event loop can deliver to the handlers: a request frame, or
    the settling of a promise some [chat.send] call is waiting on. *)
Inductive Event :=
| ChatHistory (rid : nat) (raw : Raw)
| ChatAbort (rid : nat) (raw : Raw)
| ChatSend (rid : nat) (raw : Raw) (now : Z) (uuid : string)
| SaveSettled (tid : nat) (o : Outcome) (now : Z)
| AgentSettled (tid : nat) (o : Outcome) (now : Z).

(** One turn of the event loop; [None] when the event is not enabled (no
    call is waiting on that promise). *)
Definition step (g : Gateway) (ev : Event) : option (Gateway * list Effect) :=
  match ev with
  | ChatHistory rid raw => Some (exec (chat_history rid raw) g)
  | ChatAbort rid raw => Some (exec (chat_abort rid raw) g)
  | ChatSend rid raw now uuid => Some (exec (chat_send rid raw now uuid) g)
  | SaveSettled tid o now =>
      match inflight g !! tid with
      | Some t =>
          match t_phase t with
          | Saving path store =>
              Some (exec (chat_send_saved tid t path store o now) g)
          | Running => None
          end
      | None => None
      end
  | AgentSettled tid o now =>
      match inflight g !! tid with
      | Some t =>
          match t_phase t with
          | Running => Some (exec (chat_send_settled tid t o now) g)
          | Saving _ _ => None
          end
      | None => None
      end
  end.

(** A schedule: the events in the order the loop delivers them. *)
Fixpoint run (g : Gateway) (evs : list Event)
    : option (Gateway * list Effect) :=
  match evs with
  | [] => Some (g, [])
  | ev :: evs' =>
      match step g ev with
      | Some (g1, out1) =>
          match run g1 evs' with
          | Some (g2, out2) => Some (g2, out1 ++ out2)
          | None => None
          end
      | None => None
      end
  end.

(** ** Terminal results

    The shapes the run's terminal state is cached and answered in, and the
    gateway a settled call leaves behind; the segments above are compared
    with these in the properties below. *)

Definition terminalEntry (runId : string) (o : Outcome) (now : Z)
    : DedupeEntry :=
  match o with
  | Resolved =>
      {| ts := now; d_ok := true;
         d_payload := Some (RunResult runId status_ok None);
         d_error := None |}
  | Rejected err =>
      {| ts := now; d_ok := false;
         d_payload := Some (RunResult runId status_error (Some (String_ err)));
         d_error := Some {| code := UNAVAILABLE; message := String_ err |} |}
  end.

Definition terminalMeta (runId : string) (o : Outcome) : Meta :=
  match o with
  | Resolved => MetaRun runId None
  | Rejected err => MetaRun runId (Some (formatForLog err))
  end.

Definition terminalResponse (rid : nat) (runId : string) (o : Outcome)
    (now : Z) : Effect :=
  let e := terminalEntry runId o now in
  Respond rid (d_ok e) (d_payload e) (d_error e) (terminalMeta runId o).

Definition settledGateway (g : Gateway) (tid : nat) (runId : string)
    (o : Outcome) (now : Z) : Gateway :=
  {| disk := disk g; runContexts := runContexts g;
     dedupe := <[dedupeKey runId := terminalEntry runId o now]> (dedupe g);
     chatAbortControllers := delete runId (chatAbortControllers g);
     chatRunBuffers := chatRunBuffers g;
     chatDeltaSentAt := chatDeltaSentAt g;
     chatRunSessions := chatRunSessions g; agentRunSeq := agentRunSeq g;
     abortedSignals := abortedSignals g; nextController := nextController g;
     inflight := delete tid (inflight g); nextTask := nextTask g |}.

Definition savedGateway (g : Gateway) (tid : nat) (t : Task)
    (storePath : string) (store : SessionStore) : Gateway :=
  {| disk := <[storePath := store]> (disk g); runContexts := runContexts g;
     dedupe := dedupe g;
     chatAbortControllers := chatAbortControllers g;
     chatRunBuffers := chatRunBuffers g;
     chatDeltaSentAt := chatDeltaSentAt g;
     chatRunSessions := chatRunSessions g; agentRunSeq := agentRunSeq g;
     abortedSignals := abortedSignals g; nextController := nextController g;
     inflight :=
       <[tid := {| t_rid := t_rid t; t_opts := t_opts t;
                   t_phase := Running |}]> (inflight g);
     nextTask := nextTask g |}.

(** The events that end a run: the executor settling, or the store write
    failing. *)
Definition terminal_of (ev : Event) : option (nat * Outcome * Z) :=
  match ev with
  | AgentSettled tid o now => Some (tid, o, now)
  | SaveSettled tid (Rejected err) now => Some (tid, Rejected err, now)
  | _ => None
  end.

Definition ends_run (tid : nat) (ev : Event) : bool :=
  match terminal_of ev with
  | Some (tid', _, _) => Nat.eqb tid' tid
  | None => false
  end.

(** How often a schedule ends the run of call [tid]. *)
Fixpoint runs_ended (tid : nat) (evs : list Event) : nat :=
  match evs with
  | [] => 0
  | ev :: rest => (if ends_run tid ev then 1 else 0) + runs_ended tid rest
  end.

(** How often the executor was invoked for run id [k]. *)
Definition is_invocation (k : string) (e : Effect) : bool :=
  match e with
  | AgentCommand opts => String.eqb (o_runId opts) k
  | _ => false
  end.

Fixpoint invocations (k : string) (out : list Effect) : nat :=
  match out with
  | [] => 0
  | e :: rest => (if is_invocation k e then 1 else 0) + invocations k rest
  end.

(** How often the "aborted" chat event was broadcast for run id [r]. *)
Definition is_aborted_event (r : string) (e : Effect) : bool :=
  match e with
  | Broadcast _ ev => String.eqb (e_runId ev) r
  | _ => false
  end.

Fixpoint aborted_events (r : string) (out : list Effect) : nat :=
  match out with
  | [] => 0
  | e :: rest => (if is_aborted_event r e then 1 else 0) + aborted_events r rest
  end.



(** No call in flight runs under the idempotency key [k]. *)
Definition no_run_in_flight (k : string) (g : Gateway) : Prop :=
  forall tid t, inflight g !! tid = Some t -> t_runId t <> k.

(** Every call in flight was given its task number before [nextTask]. *)
Definition tasks_numbered (g : Gateway) : Prop :=
  forall tid t, inflight g !! tid = Some t -> (tid < nextTask g)%nat.

(** The four kinds of turn the loop can take, by what they do to the
    calls in flight and to the dedup cache: a turn that parks and ends no
    call, an accepted [chat.send], a store write that completed, and the
    end of a run. *)
Inductive Turn (g : Gateway) : Event -> Gateway -> list Effect -> Prop :=
| turn_quiet ev g' out :
    terminal_of ev = None ->
    dedupe g' = dedupe g ->
    inflight g' = inflight g ->
    nextTask g' = nextTask g ->
    (forall opts, ~ In (AgentCommand opts) out) ->
    Turn g ev g' out
| turn_accepted rid raw now uuid p opts ph g' out :
    validateChatSendParams raw = inl p ->
    o_runId opts = s_idempotencyKey p ->
    dedupe g !! dedupeKey (s_idempotencyKey p) = None ->
    dedupe g' = dedupe g ->
    inflight g' =
      <[nextTask g := {| t_rid := rid; t_opts := opts; t_phase := ph |}]>
        (inflight g) ->
    nextTask g' = S (nextTask g) ->
    (forall o, In (AgentCommand o) out -> o = opts) ->
    Turn g (ChatSend rid raw now uuid) g' out
| turn_saved tid t path store now :
    inflight g !! tid = Some t ->
    t_phase t = Saving path store ->
    Turn g (SaveSettled tid Resolved now)
      (savedGateway g tid t path store) [AgentCommand (t_opts t)]
| turn_ended ev tid o now t :
    terminal_of ev = Some (tid, o, now) ->
    inflight g !! tid = Some t ->
    Turn g ev (settledGateway g tid (t_runId t) o now)
      [terminalResponse (t_rid t) (t_runId t) o now].

End Gateway.

(** ** Counting what a schedule does *)

Section Observations.
Context `{X : Externals}.



Definition is_response (e : Effect) : bool :=
  match e with
  | Respond _ _ _ _ _ => true
  | _ => false
  end.

Fixpoint answers (out : list Effect) : nat :=
  match out with
  | [] => 0
  | e :: rest => (if is_response e then 1 else 0) + answers rest
  end.

(** The method a request frame names, its request id, and what the
    method's validator reports for its parameters. *)
Definition method_of (ev : Event) : option string :=
  match ev with
  | ChatHistory _ _ => Some "chat.history"
  | ChatAbort _ _ => Some "chat.abort"
  | ChatSend _ _ _ _ => Some "chat.send"
  | _ => None
  end.

Definition request_id (ev : Event) : option nat :=
  match ev with
  | ChatHistory rid _ | ChatAbort rid _ | ChatSend rid _ _ _ => Some rid
  | _ => None
  end.

Definition validation_errors (ev : Event) : option string :=
  match ev with
  | ChatHistory _ raw =>
      match validateChatHistoryParams raw with
      | inr errors => Some errors
      | inl _ => None
      end
  | ChatAbort _ raw =>
      match validateChatAbortParams raw with
      | inr errors => Some errors
      | inl _ => None
      end
  | ChatSend _ raw _ _ =>
      match validateChatSendParams raw with
      | inr errors => Some errors
      | inl _ => None
      end
  | _ => None
  end.

(** The five ways the first segment of [chat.send] can go, with the state
    and the effects each leaves. *)
Inductive SendOutcome (g : Gateway) (rid : nat) (raw : Raw) (now : Z)
    (uuid : string) : Gateway -> list Effect -> Prop :=
| send_invalid errors :
    validateChatSendParams raw = inr errors ->
    SendOutcome g rid raw now uuid g
      [Respond rid false None
         (Some (errorShape INVALID_REQUEST
                  ("invalid chat.send params: " +:+ errors))) NoMeta]
| send_merge_failed p err :
    validateChatSendParams raw = inl p ->
    messageWithAttachments p = inr err ->
    SendOutcome g rid raw now uuid g
      [Respond rid false None
         (Some (errorShape INVALID_REQUEST (String_ err))) NoMeta]
| send_denied p message :
    validateChatSendParams raw = inl p ->
    messageWithAttachments p = inl message ->
    (let entry := l_entry (loadSessionEntry (disk g) (s_sessionKey p)) in
     resolveSendPolicy loadConfig entry (s_sessionKey p)
       entry?.provider entry?.chatType = deny) ->
    SendOutcome g rid raw now uuid
      (set_runContexts
         (registerAgentRunContext (s_idempotencyKey p) (s_sessionKey p)) g)
      [LoadSessionEntry (s_sessionKey p);
       Respond rid false None
         (Some (errorShape INVALID_REQUEST "send blocked by session policy"))
         NoMeta]
| send_replayed p message c :
    validateChatSendParams raw = inl p ->
    messageWithAttachments p = inl message ->
    (let entry := l_entry (loadSessionEntry (disk g) (s_sessionKey p)) in
     resolveSendPolicy loadConfig entry (s_sessionKey p)
       entry?.provider entry?.chatType = allow) ->
    dedupe g !! dedupeKey (s_idempotencyKey p) = Some c ->
    SendOutcome g rid raw now uuid
      (set_runContexts
         (registerAgentRunContext (s_idempotencyKey p) (s_sessionKey p)) g)
      [LoadSessionEntry (s_sessionKey p);
       Respond rid (d_ok c) (d_payload c) (d_error c) MetaCached]
| send_accepted p message ph out :
    validateChatSendParams raw = inl p ->
    messageWithAttachments p = inl message ->
    (let entry := l_entry (loadSessionEntry (disk g) (s_sessionKey p)) in
     resolveSendPolicy loadConfig entry (s_sessionKey p)
       entry?.provider entry?.chatType = allow) ->
    dedupe g !! dedupeKey (s_idempotencyKey p) = None ->
    let ld := loadSessionEntry (disk g) (s_sessionKey p) in
    let sid := match l_entry ld with Some e => sessionId e | None => uuid end in
    let opts := agentOptsFor p message sid (nextController g) in
    ((exists store path,
        l_store ld = Some store /\ l_storePath ld = Some path /\
        path <> "" /\
        ph = Saving path
               (<[s_sessionKey p := sessionEntryFor (l_entry ld) sid now]>
                  store) /\
        out = [LoadSessionEntry (s_sessionKey p);
               SaveSessionStore path
                 (<[s_sessionKey p := sessionEntryFor (l_entry ld) sid now]>
                    store)])
     \/
     ((l_store ld = None \/ truthy (l_storePath ld) = false) /\
      ph = Running /\
      out = [LoadSessionEntry (s_sessionKey p); AgentCommand opts])) ->
    SendOutcome g rid raw now uuid (acceptedGateway g rid p sid opts ph) out.

(** The gateway after [chat.abort] has cancelled the run [active]. *)
Definition abortedGateway (g : Gateway) (p : ChatAbortParams)
    (active : AbortEntry) : Gateway :=
  {| disk := disk g; runContexts := runContexts g; dedupe := dedupe g;
     chatAbortControllers := delete (a_runId p) (chatAbortControllers g);
     chatRunBuffers := delete (a_runId p) (chatRunBuffers g);
     chatDeltaSentAt := delete (a_runId p) (chatDeltaSentAt g);
     chatRunSessions :=
       removeChatRun (a_runId p) (a_runId p) (a_sessionKey p)
         (chatRunSessions g);
     agentRunSeq := agentRunSeq g;
     abortedSignals := {[controller active]} ∪ abortedSignals g;
     nextController := nextController g;
     inflight := inflight g; nextTask := nextTask g |}.

(** Every turn of the loop, with the state and the effects it leaves. *)
Inductive Step (g : Gateway) : Event -> Gateway -> list Effect -> Prop :=
| step_history rid raw out :
    exec (chat_history rid raw) g = (g, out) ->
    Step g (ChatHistory rid raw) g out
| step_abort_refused rid raw ok payload error :
    exec (chat_abort rid raw) g = (g, [Respond rid ok payload error NoMeta]) ->
    Step g (ChatAbort rid raw) g [Respond rid ok payload error NoMeta]
| step_abort_owner rid raw p active :
    validateChatAbortParams raw = inl p ->
    chatAbortControllers g !! a_runId p = Some active ->
    ab_sessionKey active = a_sessionKey p ->
    Step g (ChatAbort rid raw) (abortedGateway g p active)
      (let ev := {| e_runId := a_runId p; e_sessionKey := a_sessionKey p;
                    e_seq := default 0 (agentRunSeq g !! a_runId p) + 1;
                    e_state := aborted |} in
       [Broadcast "chat" ev; BridgeSendToSession (a_sessionKey p) "chat" ev;
        Respond rid true (Some (AbortResult true true)) None NoMeta])
| step_send rid raw now uuid g' out :
    SendOutcome g rid raw now uuid g' out ->
    Step g (ChatSend rid raw now uuid) g' out
| step_saved tid t path store now :
    inflight g !! tid = Some t ->
    t_phase t = Saving path store ->
    Step g (SaveSettled tid Resolved now)
      (savedGateway g tid t path store) [AgentCommand (t_opts t)]
| step_ended ev tid o now t :
    terminal_of ev = Some (tid, o, now) ->
    inflight g !! tid = Some t ->
    Step g ev (settledGateway g tid (t_runId t) o now)
      [terminalResponse (t_rid t) (t_runId t) o now].

(** Every call in flight runs under a registered run context. *)
Definition contexts_cover (g : Gateway) : Prop :=
  forall tid t, inflight g !! tid = Some t ->
    is_Some (runContexts g !! t_runId t).

(** Every controller in use (aborted, registered, or held by a call in
    flight) was allocated before [nextController], and no two calls in
    flight share one. *)
Definition controllers_allocated (g : Gateway) : Prop :=
  (forall c, c ∈ abortedSignals g -> (c < nextController g)%nat) /\
  (forall r a, chatAbortControllers g !! r = Some a ->
     (controller a < nextController g)%nat) /\
  (forall tid t, inflight g !! tid = Some t ->
     (o_abortSignal (t_opts t) < nextController g)%nat) /\
  (forall tid1 tid2 t1 t2,
     inflight g !! tid1 = Some t1 -> inflight g !! tid2 = Some t2 ->
     o_abortSignal (t_opts t1) = o_abortSignal (t_opts t2) -> tid1 = tid2).

(** How often the executor was handed the abort signal [c], that is, how
    often it was invoked for the call that holds controller [c]. *)
Definition is_invocation_with (c : nat) (e : Effect) : bool :=
  match e with
  | AgentCommand opts => Nat.eqb (o_abortSignal opts) c
  | _ => false
  end.

Fixpoint invocations_with (c : nat) (out : list Effect) : nat :=
  match out with
  | [] => 0
  | e :: rest =>
      (if is_invocation_with c e then 1 else 0) + invocations_with c rest
  end.

(** Every call in flight that holds controller [c] is past its store write
    and waits for the executor. *)
Definition awaits_executor (c : nat) (g : Gateway) : Prop :=
  forall tid t, inflight g !! tid = Some t ->
    o_abortSignal (t_opts t) = c -> t_phase t = Running.

End Observations.

(** ** Local media roots

    [resolveMediaLocalRoots] collects, in a [Set] (insertion order, no
    repeats), the media directory under the configuration directory and,
    for every agent, its workspace and its sandbox root when one is
    configured. *)

Class MediaEnv := {
  MediaCfg : Type;
  path_join : string -> string -> string;
  resolveConfigDir : string;
  listAgentIds : MediaCfg -> list string;
  resolveAgentWorkspaceDir : MediaCfg -> string -> string;
  sandboxWorkspaceRoot : MediaCfg -> string -> option string;
  resolveUserPath : string -> string;
}.

(** [Set.prototype.add] on a set kept in insertion order. *)
Definition set_add (x : string) (s : list string) : list string :=
  if bool_decide (x ∈ s) then s else s ++ [x].

Section MediaRoots.
Context `{ME : MediaEnv}.

(** One iteration of the loop over the agent ids. *)
Definition addAgentRoots (cfg : MediaCfg) (roots : list string)
    (agentId : string) : list string :=
  let roots := set_add (resolveAgentWorkspaceDir cfg agentId) roots in
  let sandboxRoot := sandboxWorkspaceRoot cfg agentId in
  if truthy sandboxRoot
  then set_add (resolveUserPath (default "" sandboxRoot)) roots
  else roots.

Definition resolveMediaLocalRoots (cfg : MediaCfg) : list string :=
  foldl (addAgentRoots cfg)
    (set_add (path_join resolveConfigDir "media") [])
    (listAgentIds cfg).

(** The root an agent's sandbox contributes, when it has one. *)
Definition sandbox_root_of (cfg : MediaCfg) (agentId x : string) : Prop :=
  exists root, sandboxWorkspaceRoot cfg agentId = Some root /\
    root <> "" /\ x = resolveUserPath root.

End MediaRoots.

(** ** A concrete gateway

    An instance of the collaborators, used to run the handlers on concrete
    requests.  Parameters arrive already shaped ([TestRaw]); thrown values
    and transcript messages are strings. *)

Inductive TestRaw :=
| RawHistory (p : ChatHistoryParams)
| RawAbort (p : ChatAbortParams)
| RawSend (p : ChatSendParams)
| RawMalformed.

(** Modelled from the spec: a send-policy rule [{action, match}] and a
    policy [{default, rules}] (sessions/send-policy, not under src/); the
    first matching rule wins, else the default applies. *)
Record SendPolicyRule := {
  r_action : SendPolicyDecision;
  r_provider : option string;
  r_chatType : option string;
  r_keyPrefix : option string;
}.

Record SendPolicy := {
  p_default : SendPolicyDecision;
  p_rules : list SendPolicyRule;
}.

Record TestCfg := {
  cfg_store : string;
  cfg_thinkingDefault : option string;
  cfg_timeoutSeconds : Z;
  cfg_sendPolicy : SendPolicy;
  cfg_model : string * string;
  cfg_transcript : string -> list string;
}.

Definition field_matches (want have : option string) : bool :=
  match want with
  | None => true
  | Some w => match have with Some h => String.eqb w h | None => false end
  end.

Definition rule_matches (r : SendPolicyRule) (sessionKey : string)
    (prov ctype : option string) : bool :=
  field_matches (r_provider r) prov && field_matches (r_chatType r) ctype
  && match r_keyPrefix r with
     | None => true
     | Some pre => String.prefix pre sessionKey
     end.

Fixpoint first_rule (rules : list SendPolicyRule) (sessionKey : string)
    (prov ctype : option string) : option SendPolicyDecision :=
  match rules with
  | [] => None
  | r :: rest =>
      if rule_matches r sessionKey prov ctype then Some (r_action r)
      else first_rule rest sessionKey prov ctype
  end.

Definition test_resolveSendPolicy (cfg : TestCfg)
    (entry : option SessionEntry) (sessionKey : string)
    (prov ctype : option string) : SendPolicyDecision :=
  match entry?.sendPolicy with
  | Some d => d
  | None =>
      default (p_default (cfg_sendPolicy cfg))
        (first_rule (p_rules (cfg_sendPolicy cfg)) sessionKey prov ctype)
  end.

(** Modelled from the spec: [loadSessionEntry] (session-utils, not under
    src/) reads the store document at the configured path and looks the
    session key up in it. *)
Definition test_loadSessionEntry (cfg : TestCfg) (d : Disk)
    (sessionKey : string) : Loaded :=
  let store := default ∅ (d !! cfg_store cfg) in
  {| l_storePath := Some (cfg_store cfg);
     l_store := Some store;
     l_entry := store !! sessionKey |}.

Definition content_bytes (a : Attachment) : Z :=
  match at_content a with
  | Some s => Z.of_nat (String.length s)
  | None => 0
  end.

(** Modelled from the spec: [buildMessageWithAttachments]
    (chat-attachments, not under src/) is a size-bounded transform; content
    beyond [maxBytes] fails the merge. *)
Definition test_buildMessageWithAttachments (msg : string)
    (atts : list Attachment) (maxBytes : Z) : string + string :=
  if foldr (fun a acc => content_bytes a + acc) 0 atts >? maxBytes
  then inr "Error: attachments exceed size limit"
  else inl (foldl (fun acc a => acc +:+ default "" (at_content a)) msg atts).

Fixpoint remove_first {A} (f : A -> bool) (l : list A) : list A :=
  match l with
  | [] => []
  | x :: rest => if f x then rest else x :: remove_first f rest
  end.

(** Modelled from the spec: the chat-run queue ([context.addChatRun] and
    [context.removeChatRun], not under src/) keeps, per session id, the
    runs queued on it. *)
Definition test_addChatRun (sid : string) (e : ChatRunEntry)
    (q : gmap string (list ChatRunEntry)) : gmap string (list ChatRunEntry) :=
  <[sid := default [] (q !! sid) ++ [e]]> q.

Definition test_removeChatRun (sid clientRunId sessionKey : string)
    (q : gmap string (list ChatRunEntry)) : gmap string (list ChatRunEntry) :=
  alter (remove_first (fun e =>
           String.eqb (cr_clientRunId e) clientRunId
           && String.eqb (cr_sessionKey e) sessionKey)) sid q.

Definition testExternals (cfg : TestCfg) : Externals :=
  {| Raw := TestRaw;
     Cfg := TestCfg;
     Catalog := list (string * string * bool);
     Exn := string;
     Msg := string;
     validateChatHistoryParams := fun r =>
       match r with RawHistory p => inl p | _ => inr "must be object" end;
     validateChatAbortParams := fun r =>
       match r with RawAbort p => inl p | _ => inr "must be object" end;
     validateChatSendParams := fun r =>
       match r with RawSend p => inl p | _ => inr "must be object" end;
     String_ := fun e => e;
     formatForLog := fun e => e;
     loadConfig := cfg;
     loadSessionEntry := test_loadSessionEntry cfg;
     readSessionMessages := fun sid _ => cfg_transcript cfg sid;
     jsonUtf8Bytes := fun m => Z.of_nat (String.length m);
     thinkingDefault := cfg_thinkingDefault;
     resolveSessionModelRef := fun c _ => cfg_model c;
     loadGatewayModelCatalog := [];
     resolveThinkingDefault := fun _ prov model catalog =>
       if existsb (fun '(p, m, reasoning) =>
                     String.eqb p prov && String.eqb m model && reasoning)
            catalog
       then "low" else "off";
     resolveAgentTimeoutMs := fun c o =>
       match o with Some ms => ms | None => cfg_timeoutSeconds c * 1000 end;
     resolveSendPolicy := test_resolveSendPolicy;
     buildMessageWithAttachments := test_buildMessageWithAttachments;
     ChatRuns := gmap string (list ChatRunEntry);
     addChatRun := test_addChatRun;
     removeChatRun := test_removeChatRun |}.

(** The configuration of the send-policy test: everything is allowed
    except discord groups. *)
Definition testCfg : TestCfg :=
  {| cfg_store := "sessions.json";
     cfg_thinkingDefault := None;
     cfg_timeoutSeconds := 600;
     cfg_sendPolicy :=
       {| p_default := allow;
          p_rules := [ {| r_action := deny; r_provider := Some "discord";
                          r_chatType := Some "group";
                          r_keyPrefix := None |} ] |};
     cfg_model := ("anthropic", "claude-opus-4-5");
     cfg_transcript := fun sid =>
       if String.eqb sid "sess-main"
       then map (fun i => "m" +:+ number_toString (Z.of_nat i)) (seq 0 300)
       else [] |}.

Definition testEntry (sid : string) : SessionEntry :=
  {| sessionId := sid; updatedAt := 0; thinkingLevel := None;
     verboseLevel := None; reasoningLevel := None; systemSent := None;
     sendPolicy := None; lastProvider := None; lastTo := None;
     provider := None; chatType := None |}.

Definition discordEntry : SessionEntry :=
  {| sessionId := "sess-discord"; updatedAt := 0; thinkingLevel := None;
     verboseLevel := None; reasoningLevel := None; systemSent := None;
     sendPolicy := None; lastProvider := None; lastTo := None;
     provider := Some "discord"; chatType := Some "group" |}.

Definition routedEntry : SessionEntry :=
  {| sessionId := "sess-routed"; updatedAt := 0; thinkingLevel := None;
     verboseLevel := None; reasoningLevel := None; systemSent := None;
     sendPolicy := None; lastProvider := Some "whatsapp";
     lastTo := Some "+1555"; provider := None; chatType := None |}.

(** The session file of the tests: [main], a discord group the policy
    denies, and a session with a delivery route. *)
Definition testStore : SessionStore :=
  {[ "main" := testEntry "sess-main";
     "discord:group:dev" := discordEntry;
     "routed" := routedEntry ]}.

Definition testDisk : Disk := {[ "sessions.json" := testStore ]}.

Definition emptyGateway `{X : Externals} (runs : ChatRuns) (d : Disk)
    : Gateway :=
  {| disk := d; runContexts := ∅; dedupe := ∅; chatAbortControllers := ∅;
     chatRunBuffers := ∅; chatDeltaSentAt := ∅; chatRunSessions := runs;
     agentRunSeq := ∅; abortedSignals := ∅; nextController := 0%nat;
     inflight := ∅; nextTask := 0%nat |}.

Definition testX : Externals := testExternals testCfg.

Definition testGateway : @Gateway testX :=
  emptyGateway (X := testX) ∅ testDisk.

Definition sendParams (sessionKey message idempotencyKey : string)
    : ChatSendParams :=
  {| s_sessionKey := sessionKey; s_message := message; s_thinking := None;
     s_deliver := None; s_attachments := None; s_timeoutMs := None;
     s_idempotencyKey := idempotencyKey |}.

Definition testSend (rid : nat) (p : ChatSendParams) (now : Z)
    (uuid : string) : @Event testX :=
  @ChatSend testX rid (RawSend p) now uuid.

Definition testAbort (rid : nat) (sessionKey runId : string)
    : @Event testX :=
  @ChatAbort testX rid
    (RawAbort {| a_sessionKey := sessionKey; a_runId := runId |}).

Definition testHistory (sessionKey : string) (limit : option Z) : TestRaw :=
  RawHistory {| h_sessionKey := sessionKey; h_limit := limit |}.

(** Whether every event of a schedule is enabled when its turn comes, the
    state the schedule then leaves and the effects it produces. *)
Definition enabled `{X : Externals} (g : Gateway) (evs : list Event)
    : bool :=
  match run g evs with
  | Some _ => true
  | None => false
  end.

Definition after `{X : Externals} (g : Gateway) (evs : list Event)
    : Gateway :=
  match run g evs with
  | Some (g', _) => g'
  | None => g
  end.

Definition outputs `{X : Externals} (g : Gateway) (evs : list Event)
    : list Effect :=
  match run g evs with
  | Some (_, out) => out
  | None => []
  end.

(** A run of [idem-1] on [main] with the executor still working. *)
Definition liveGateway : @Gateway testX :=
  after testGateway
    [testSend 1 (sendParams "main" "hello" "idem-1") 10 "u1";
     SaveSettled 0 Resolved 11].

(** The same run after the executor has returned. *)
Definition cachedGateway : @Gateway testX :=
  after liveGateway [AgentSettled 0 Resolved 12].

(** Two requests under one idempotency key, the second arriving while the
    first is still in flight; the first run fails, the second succeeds. *)
Definition duplicateSchedule : list (@Event testX) :=
  [testSend 1 (sendParams "main" "hello" "idem-1") 10 "u1";
   testSend 2 (sendParams "main" "hello" "idem-1") 11 "u2";
   SaveSettled 0 Resolved 12;
   SaveSettled 1 Resolved 13;
   @AgentSettled testX 0 (@Rejected testX "boom") 20;
   AgentSettled 1 Resolved 21].

Definition responses `{X : Externals} (out : list Effect) : list Effect :=
  List.filter (fun e => match e with Respond _ _ _ _ _ => true | _ => false end)
    out.

Fixpoint doubled (n : nat) (s : string) : string :=
  match n with
  | O => s
  | S k => doubled k (s +:+ s)
  end.

(** An attachment of 8 MiB, beyond the 5,000,000-byte cap. *)
Definition bigAttachment : RawAttachment :=
  {| ra_type := Some "image"; ra_mimeType := Some "image/png";
     ra_fileName := Some "big.png";
     ra_content := ContentString (doubled 23 "x") |}.

Definition sendBig : ChatSendParams :=
  {| s_sessionKey := "main"; s_message := "look"; s_thinking := None;
     s_deliver := None; s_attachments := Some [bigAttachment];
     s_timeoutMs := None; s_idempotencyKey := "idem-big" |}.

(** The same attachment sent to the session the policy denies. *)
Definition sendBigDenied : ChatSendParams :=
  {| s_sessionKey := "discord:group:dev"; s_message := "look";
     s_thinking := None; s_deliver := None;
     s_attachments := Some [bigAttachment]; s_timeoutMs := None;
     s_idempotencyKey := "idem-big" |}.

(** A gateway whose configuration names no session store: the loader
    returns an empty store path. *)
Definition detachedCfg : TestCfg :=
  {| cfg_store := "";
     cfg_thinkingDefault := cfg_thinkingDefault testCfg;
     cfg_timeoutSeconds := cfg_timeoutSeconds testCfg;
     cfg_sendPolicy := cfg_sendPolicy testCfg;
     cfg_model := cfg_model testCfg;
     cfg_transcript := cfg_transcript testCfg |}.

Definition detachedX : Externals := testExternals detachedCfg.

Definition detachedGateway : @Gateway detachedX :=
  emptyGateway (X := detachedX) ∅ ∅.

(** The call parked for [idem-1] on [main], while the store write is
    pending and once the executor is running. *)
Definition savingTask (rid : nat) (now : Z) (controller : nat) : Task :=
  {| t_rid := rid;
     t_opts := agentOptsFor (X := testX) (sendParams "main" "hello" "idem-1")
                 "hello" "sess-main" controller;
     t_phase :=
       Saving "sessions.json"
         (<["main" := sessionEntryFor (Some (testEntry "sess-main"))
                        "sess-main" now]> testStore) |}.

Definition runningTask (rid : nat) (controller : nat) : Task :=
  {| t_rid := rid;
     t_opts := agentOptsFor (X := testX) (sendParams "main" "hello" "idem-1")
                 "hello" "sess-main" controller;
     t_phase := Running |}.

(** Two agents sharing one workspace, one of them sandboxed. *)
Definition testMediaEnv : MediaEnv :=
  {| MediaCfg := unit;
     path_join := fun a b => a +:+ "/" +:+ b;
     resolveConfigDir := "/home/u/.openclaw";
     listAgentIds := fun _ => ["main"; "work"];
     resolveAgentWorkspaceDir := fun _ _ => "/home/u/workspace";
     sandboxWorkspaceRoot := fun _ agentId =>
       if String.eqb agentId "work" then Some "~/sandboxes" else None;
     resolveUserPath := fun p =>
       "/home/u" +:+ String.substring 1 (String.length p - 1) p |}.

(** * Properties *)

Section Properties.
Context `{X : Externals}.

(** ** chat.history: the count cap *)

Lemma js_slice_last {A} (n : Z) (l : list A) :
  0 < n <= Z.of_nat (length l) ->
  js_slice (- n) l = drop (length l - Z.to_nat n) l.
Proof.
  intros Hn. unfold js_slice.
  destruct (Z.ltb_spec (- n) 0) as [_|Hge]; [|lia].
  f_equal. lia.
Qed.

Lemma historySliced_window {A} (limit : option Z) (raw : list A) :
  (forall L, limit = Some L -> 1 <= L) ->
  historySliced limit raw =
  drop (length raw
        - Z.to_nat (Z.min (Z.of_nat (length raw))
                      (Z.min 1000 (default 200 limit)))) raw.
Proof.
  intros Hlim. unfold historySliced, hardMax, defaultLimit.
  assert (Hreq : 1 <= default 200 limit).
  { destruct limit as [L|]; simpl; [apply Hlim; reflexivity | lia]. }
  replace (match limit with Some n => n | None => 200 end)
    with (default 200 limit) by (destruct limit; reflexivity).
  set (max := Z.min 1000 (default 200 limit)).
  assert (Hmax : 1 <= max) by (unfold max; lia).
  destruct (Z.gtb_spec (Z.of_nat (length raw)) max) as [Hgt|Hle].
  - rewrite js_slice_last by lia. f_equal. lia.
  - replace (length raw - _)%nat with 0%nat by lia. reflexivity.
Qed.

(** What [chat.history] answers to a request that passes validation. *)
Lemma chat_history_valid (g : Gateway) (rid : nat) (raw : Raw)
    (p : ChatHistoryParams) :
  validateChatHistoryParams raw = inl p ->
  let ld := loadSessionEntry (disk g) (h_sessionKey p) in
  exec (chat_history rid raw) g =
  (g, [LoadSessionEntry (h_sessionKey p);
       Respond rid true
         (Some (HistoryResult (h_sessionKey p) (sessionId <$> l_entry ld)
                  (items (capArrayByJsonBytes
                            (historySliced (h_limit p) (historyRawMessages ld))
                            MAX_CHAT_HISTORY_MESSAGES_BYTES))
                  (historyThinkingLevel (l_entry ld))))
         None NoMeta]).
Proof.
  intros Hv. unfold chat_history. rewrite Hv. reflexivity.
Qed.

(** C4: for a chat.history request that has passed validation with a
    limit L that is absent or at least 1, the count-capped window (before
    any byte-cap trimming) holds exactly min(N, min(1000, L ?? 200))
    messages, namely the most recent ones in their stored order, and the
    response carries that window after the byte cap.  With 300 stored messages and no limit the
    window has 200 messages starting at index 100; with limit 5 it has the
    last 5, starting at index 295. *)
Theorem chat_history_count_cap (g : Gateway) (rid : nat) (raw : Raw)
    (p : ChatHistoryParams) :
  validateChatHistoryParams raw = inl p ->
  (forall L, h_limit p = Some L -> 1 <= L) ->
  let ld := loadSessionEntry (disk g) (h_sessionKey p) in
  let stored := historyRawMessages ld in
  let N := length stored in
  let n := Z.to_nat (Z.min (Z.of_nat N)
                       (Z.min 1000 (default 200 (h_limit p)))) in
  let window := historySliced (h_limit p) stored in
  length window = n /\
  window = drop (N - n) stored /\
  (forall i : nat, window !! i = stored !! (N - n + i)%nat) /\
  exec (chat_history rid raw) g =
    (g, [LoadSessionEntry (h_sessionKey p);
         Respond rid true
           (Some (HistoryResult (h_sessionKey p) (sessionId <$> l_entry ld)
                    (items (capArrayByJsonBytes window
                              MAX_CHAT_HISTORY_MESSAGES_BYTES))
                    (historyThinkingLevel (l_entry ld))))
           None NoMeta]) /\
  (N = 300%nat -> h_limit p = None ->
   n = 200%nat /\ window !! 0%nat = stored !! 100%nat) /\
  (N = 300%nat -> h_limit p = Some 5 ->
   n = 5%nat /\ window !! 0%nat = stored !! 295%nat).
Proof.
  intros Hv Hlim ld stored N n window.
  assert (Hw : window = drop (N - n) stored).
  { unfold window. rewrite historySliced_window by exact Hlim. reflexivity. }
  assert (Hn : (n <= N)%nat) by (unfold n; lia).
  assert (Hlookup : forall i : nat, window !! i = stored !! (N - n + i)%nat).
  { intros i. rewrite Hw. apply lookup_drop. }
  split; [rewrite Hw, length_drop; fold N; lia|].
  split; [exact Hw|].
  split; [exact Hlookup|].
  split; [apply (chat_history_valid g rid raw p Hv)|].
  split; intros HN HL.
  - assert (n = 200%nat) as Hn200 by (unfold n; rewrite HN, HL; reflexivity).
    split; [exact Hn200|]. rewrite Hlookup, HN, Hn200. reflexivity.
  - assert (n = 5%nat) as Hn5 by (unfold n; rewrite HN, HL; reflexivity).
    split; [exact Hn5|]. rewrite Hlookup, HN, Hn5. reflexivity.
Qed.

(** ** chat.abort *)

Ltac unfold_handler :=
  unfold exec, mbind, M_bind, mret, M_ret, gets, modify, emit, respond.

Lemma chat_abort_missing (g : Gateway) (rid : nat) (raw : Raw)
    (p : ChatAbortParams) :
  validateChatAbortParams raw = inl p ->
  chatAbortControllers g !! a_runId p = None ->
  exec (chat_abort rid raw) g =
  (g, [Respond rid true (Some (AbortResult true false)) None NoMeta]).
Proof.
  intros Hv Hnone. unfold chat_abort. rewrite Hv. unfold_handler.
  rewrite Hnone. reflexivity.
Qed.

Lemma chat_abort_owner (g : Gateway) (rid : nat) (raw : Raw)
    (p : ChatAbortParams) (active : AbortEntry) :
  validateChatAbortParams raw = inl p ->
  chatAbortControllers g !! a_runId p = Some active ->
  ab_sessionKey active = a_sessionKey p ->
  exec (chat_abort rid raw) g =
  (let ev := {| e_runId := a_runId p; e_sessionKey := a_sessionKey p;
                e_seq := default 0 (agentRunSeq g !! a_runId p) + 1;
                e_state := aborted |} in
   ({| disk := disk g; runContexts := runContexts g; dedupe := dedupe g;
       chatAbortControllers := delete (a_runId p) (chatAbortControllers g);
       chatRunBuffers := delete (a_runId p) (chatRunBuffers g);
       chatDeltaSentAt := delete (a_runId p) (chatDeltaSentAt g);
       chatRunSessions :=
         removeChatRun (a_runId p) (a_runId p) (a_sessionKey p)
           (chatRunSessions g);
       agentRunSeq := agentRunSeq g;
       abortedSignals := {[controller active]} ∪ abortedSignals g;
       nextController := nextController g;
       inflight := inflight g; nextTask := nextTask g |},
    [Broadcast "chat" ev; BridgeSendToSession (a_sessionKey p) "chat" ev;
     Respond rid true (Some (AbortResult true true)) None NoMeta])).
Proof.
  intros Hv Hact Hkey. unfold chat_abort. rewrite Hv. unfold_handler.
  rewrite Hact. rewrite bool_decide_eq_false_2 by (intros Hne; exact (Hne Hkey)).
  reflexivity.
Qed.

Lemma chat_abort_mismatch (g : Gateway) (rid : nat) (raw : Raw)
    (p : ChatAbortParams) (active : AbortEntry) :
  validateChatAbortParams raw = inl p ->
  chatAbortControllers g !! a_runId p = Some active ->
  ab_sessionKey active ≠ a_sessionKey p ->
  exec (chat_abort rid raw) g =
  (g, [Respond rid false None
         (Some (errorShape INVALID_REQUEST "runId does not match sessionKey"))
         NoMeta]).
Proof.
  intros Hv Hact Hkey. unfold chat_abort. rewrite Hv. unfold_handler.
  rewrite Hact. rewrite bool_decide_eq_true_2 by exact Hkey.
  reflexivity.
Qed.

(** C2: chat.abort on an active run recorded under the request's
    sessionKey triggers the run's cancellation token, removes the run's
    cancellation entry, buffered deltas, delta timestamp and queue
    membership, broadcasts [{runId, sessionKey, seq, state:"aborted"}]
    globally and to the session's observers with [seq] one more than the
    last sequence number seen for the run, and responds ok
    [{aborted:true}]; nothing else changes. *)
Theorem chat_abort_active_run (g : Gateway) (rid : nat) (raw : Raw)
    (p : ChatAbortParams) (active : AbortEntry) :
  validateChatAbortParams raw = inl p ->
  chatAbortControllers g !! a_runId p = Some active ->
  ab_sessionKey active = a_sessionKey p ->
  let runId := a_runId p in
  let sessionKey := a_sessionKey p in
  let ev := {| e_runId := runId; e_sessionKey := sessionKey;
               e_seq := default 0 (agentRunSeq g !! runId) + 1;
               e_state := aborted |} in
  exists g' : Gateway,
    exec (chat_abort rid raw) g =
      (g', [Broadcast "chat" ev; BridgeSendToSession sessionKey "chat" ev;
            Respond rid true (Some (AbortResult true true)) None NoMeta]) /\
    controller active ∈ abortedSignals g' /\
    abortedSignals g' = {[controller active]} ∪ abortedSignals g /\
    chatAbortControllers g' = delete runId (chatAbortControllers g) /\
    chatRunBuffers g' = delete runId (chatRunBuffers g) /\
    chatDeltaSentAt g' = delete runId (chatDeltaSentAt g) /\
    chatRunSessions g' =
      removeChatRun runId runId sessionKey (chatRunSessions g) /\
    chatAbortControllers g' !! runId = None /\
    chatRunBuffers g' !! runId = None /\
    chatDeltaSentAt g' !! runId = None /\
    disk g' = disk g /\ runContexts g' = runContexts g /\
    dedupe g' = dedupe g /\ agentRunSeq g' = agentRunSeq g /\
    nextController g' = nextController g /\
    inflight g' = inflight g /\ nextTask g' = nextTask g.
Proof.
  intros Hv Hact Hkey runId sessionKey ev.
  eexists. split; [apply (chat_abort_owner g rid raw p active Hv Hact Hkey)|].
  cbn [abortedSignals chatAbortControllers chatRunBuffers chatDeltaSentAt
       chatRunSessions disk runContexts dedupe agentRunSeq nextController
       inflight nextTask].
  split; [set_solver|].
  repeat split; apply lookup_delete_eq.
Qed.

(** C3: chat.abort on an active run recorded under another sessionKey
    responds INVALID_REQUEST "runId does not match sessionKey" and does
    nothing else: the gateway state (cancellation token, registries) is
    unchanged and no event is broadcast. *)
Theorem chat_abort_session_mismatch (g : Gateway) (rid : nat) (raw : Raw)
    (p : ChatAbortParams) (active : AbortEntry) :
  validateChatAbortParams raw = inl p ->
  chatAbortControllers g !! a_runId p = Some active ->
  ab_sessionKey active ≠ a_sessionKey p ->
  exec (chat_abort rid raw) g =
  (g, [Respond rid false None
         (Some {| code := INVALID_REQUEST;
                  message := "runId does not match sessionKey" |}) NoMeta]).
Proof.
  intros Hv Hact Hkey.
  exact (chat_abort_mismatch g rid raw p active Hv Hact Hkey).
Qed.

(** ** chat.send: the first segment, branch by branch *)

Lemma chat_send_invalid (g : Gateway) (rid : nat) (raw : Raw) (now : Z)
    (uuid errors : string) :
  validateChatSendParams raw = inr errors ->
  exec (chat_send rid raw now uuid) g =
  (g, [Respond rid false None
         (Some {| code := INVALID_REQUEST;
                  message := "invalid chat.send params: " +:+ errors |})
         NoMeta]).
Proof. intros Hv. unfold chat_send. rewrite Hv. reflexivity. Qed.

Lemma chat_send_merge_failed (g : Gateway) (rid : nat) (raw : Raw) (now : Z)
    (uuid : string) (p : ChatSendParams) (err : Exn) :
  validateChatSendParams raw = inl p ->
  messageWithAttachments p = inr err ->
  exec (chat_send rid raw now uuid) g =
  (g, [Respond rid false None
         (Some {| code := INVALID_REQUEST; message := String_ err |})
         NoMeta]).
Proof. intros Hv Hm. unfold chat_send. rewrite Hv, Hm. reflexivity. Qed.

Lemma chat_send_denied (g : Gateway) (rid : nat) (raw : Raw) (now : Z)
    (uuid : string) (p : ChatSendParams) (message : string) :
  validateChatSendParams raw = inl p ->
  messageWithAttachments p = inl message ->
  (let entry := l_entry (loadSessionEntry (disk g) (s_sessionKey p)) in
   resolveSendPolicy loadConfig entry (s_sessionKey p)
     (entry?.provider) (entry?.chatType) = deny) ->
  exec (chat_send rid raw now uuid) g =
  (set_runContexts
     (registerAgentRunContext (s_idempotencyKey p) (s_sessionKey p)) g,
   [LoadSessionEntry (s_sessionKey p);
    Respond rid false None
      (Some {| code := INVALID_REQUEST;
               message := "send blocked by session policy" |}) NoMeta]).
Proof.
  intros Hv Hm Hpol. unfold chat_send. rewrite Hv, Hm.
  unfold doLoadSessionEntry. unfold_handler. cbn zeta in Hpol |- *.
  rewrite Hpol. reflexivity.
Qed.

Lemma chat_send_cached (g : Gateway) (rid : nat) (raw : Raw) (now : Z)
    (uuid : string) (p : ChatSendParams) (message : string)
    (c : DedupeEntry) :
  validateChatSendParams raw = inl p ->
  messageWithAttachments p = inl message ->
  (let entry := l_entry (loadSessionEntry (disk g) (s_sessionKey p)) in
   resolveSendPolicy loadConfig entry (s_sessionKey p)
     (entry?.provider) (entry?.chatType) = allow) ->
  dedupe g !! dedupeKey (s_idempotencyKey p) = Some c ->
  exec (chat_send rid raw now uuid) g =
  (set_runContexts
     (registerAgentRunContext (s_idempotencyKey p) (s_sessionKey p)) g,
   [LoadSessionEntry (s_sessionKey p);
    Respond rid (d_ok c) (d_payload c) (d_error c) MetaCached]).
Proof.
  intros Hv Hm Hpol Hc. unfold chat_send. rewrite Hv, Hm.
  unfold doLoadSessionEntry. unfold_handler. cbn zeta in Hpol |- *.
  rewrite Hpol. cbn [dedupe set_runContexts]. rewrite Hc. reflexivity.
Qed.

Lemma chat_send_accepted (g : Gateway) (rid : nat) (raw : Raw) (now : Z)
    (uuid : string) (p : ChatSendParams) (message : string) :
  validateChatSendParams raw = inl p ->
  messageWithAttachments p = inl message ->
  (let entry := l_entry (loadSessionEntry (disk g) (s_sessionKey p)) in
   resolveSendPolicy loadConfig entry (s_sessionKey p)
     (entry?.provider) (entry?.chatType) = allow) ->
  dedupe g !! dedupeKey (s_idempotencyKey p) = None ->
  let ld := loadSessionEntry (disk g) (s_sessionKey p) in
  let sid := match l_entry ld with Some e => sessionId e | None => uuid end in
  let opts := agentOptsFor p message sid (nextController g) in
  exec (chat_send rid raw now uuid) g =
  match l_store ld with
  | Some store =>
      let store' :=
        <[s_sessionKey p := sessionEntryFor (l_entry ld) sid now]> store in
      if truthy (l_storePath ld) then
        let path := default "" (l_storePath ld) in
        (acceptedGateway g rid p sid opts (Saving path store'),
         [LoadSessionEntry (s_sessionKey p); SaveSessionStore path store'])
      else
        (acceptedGateway g rid p sid opts Running,
         [LoadSessionEntry (s_sessionKey p); AgentCommand opts])
  | None =>
      (acceptedGateway g rid p sid opts Running,
       [LoadSessionEntry (s_sessionKey p); AgentCommand opts])
  end.
Proof.
  intros Hv Hm Hpol Hc ld sid opts. unfold chat_send. rewrite Hv, Hm.
  unfold doLoadSessionEntry, newAbortController, invokeAgent, suspend.
  unfold_handler. cbn zeta in Hpol |- *.
  rewrite Hpol. cbn [dedupe set_runContexts]. rewrite Hc.
  fold ld. destruct (l_store ld) as [store|]; [|reflexivity].
  destruct (truthy (l_storePath ld)); reflexivity.
Qed.

(** The controller registered for an accepted run is the one whose signal
    the executor is handed. *)
Lemma accepted_signal_shared (g : Gateway) (rid : nat) (p : ChatSendParams)
    (message sid : string) (ph : Phase) :
  let opts := agentOptsFor p message sid (nextController g) in
  let g1 := acceptedGateway g rid p sid opts ph in
  exists a t,
    chatAbortControllers g1 !! s_idempotencyKey p = Some a /\
    inflight g1 !! nextTask g = Some t /\
    o_abortSignal (t_opts t) = controller a.
Proof.
  intros opts g1. eexists _, _.
  split; [apply lookup_insert_eq|]. split; [apply lookup_insert_eq|].
  reflexivity.
Qed.

(** C7: the attachment merge is called with the 5,000,000-byte cap, and
    when it fails the request is answered INVALID_REQUEST before anything
    else happens: the gateway state is untouched (no run context, no run
    record, no cancellation token), no session entry is loaded or written
    and the executor is not invoked. *)
Theorem chat_send_attachment_cap (g : Gateway) (rid : nat) (raw : Raw)
    (now : Z) (uuid : string) (p : ChatSendParams) (err : Exn) :
  validateChatSendParams raw = inl p ->
  normalizedAttachments p <> [] ->
  buildMessageWithAttachments (s_message p) (normalizedAttachments p)
    5000000 = inr err ->
  messageWithAttachments p =
    buildMessageWithAttachments (s_message p) (normalizedAttachments p)
      5000000 /\
  exec (chat_send rid raw now uuid) g =
    (g, [Respond rid false None
           (Some {| code := INVALID_REQUEST; message := String_ err |})
           NoMeta]).
Proof.
  intros Hv Hne Hb.
  assert (Hm : messageWithAttachments p =
               buildMessageWithAttachments (s_message p)
                 (normalizedAttachments p) 5000000).
  { unfold messageWithAttachments, attachmentMaxBytes.
    destruct (normalizedAttachments p); [congruence | reflexivity]. }
  split; [exact Hm|].
  apply (chat_send_merge_failed g rid raw now uuid p err Hv).
  rewrite Hm. exact Hb.
Qed.

(** C5 (as amended): every chat.send request on a session whose send
    policy evaluates to deny is answered with exactly one response, an
    INVALID_REQUEST error; the executor is not invoked, the session store
    is not written, no call is left in flight and the cache, the
    cancellation registry and the run queue are as they were.  The error
    message is "send blocked by session policy" whenever the request's
    attachments, if any, were merged within the cap (then the session has
    been loaded and the run context registered); when the merge fails, it
    fails first, the message is the merge failure's text and nothing at
    all has changed. *)
Theorem chat_send_policy_deny (g : Gateway) (rid : nat) (raw : Raw)
    (now : Z) (uuid : string) (p : ChatSendParams) :
  validateChatSendParams raw = inl p ->
  (let entry := l_entry (loadSessionEntry (disk g) (s_sessionKey p)) in
   resolveSendPolicy loadConfig entry (s_sessionKey p)
     entry?.provider entry?.chatType = deny) ->
  exists (g' : Gateway) (out : list Effect) (msg : string),
    exec (chat_send rid raw now uuid) g = (g', out) /\
    In (Respond rid false None
          (Some {| code := INVALID_REQUEST; message := msg |}) NoMeta) out /\
    answers out = 1%nat /\
    (forall opts, ~ In (AgentCommand opts) out) /\
    (forall path store, ~ In (SaveSessionStore path store) out) /\
    disk g' = disk g /\ dedupe g' = dedupe g /\
    inflight g' = inflight g /\
    chatAbortControllers g' = chatAbortControllers g /\
    chatRunSessions g' = chatRunSessions g /\
    match messageWithAttachments p with
    | inl _ =>
        msg = "send blocked by session policy" /\
        out = [LoadSessionEntry (s_sessionKey p);
               Respond rid false None
                 (Some {| code := INVALID_REQUEST;
                          message := "send blocked by session policy" |})
                 NoMeta]
    | inr err =>
        msg = String_ err /\ g' = g /\
        out = [Respond rid false None
                 (Some {| code := INVALID_REQUEST; message := String_ err |})
                 NoMeta]
    end.
Proof.
  intros Hv Hpol.
  destruct (messageWithAttachments p) as [message|err] eqn:Hm.
  - eexists _, _, _.
    split; [apply (chat_send_denied g rid raw now uuid p message Hv Hm Hpol)|].
    split; [right; left; reflexivity|].
    split; [reflexivity|].
    split; [intros opts [H|[H|[]]]; discriminate H|].
    split; [intros path store [H|[H|[]]]; discriminate H|].
    repeat split.
  - eexists _, _, _.
    split; [apply (chat_send_merge_failed g rid raw now uuid p err Hv Hm)|].
    split; [left; reflexivity|].
    split; [reflexivity|].
    split; [intros opts [H|[]]; discriminate H|].
    split; [intros path store [H|[]]; discriminate H|].
    repeat split.
Qed.

(** ** chat.send: the later segments *)

Lemma chat_send_settled_exec (g : Gateway) (tid : nat) (t : Task)
    (o : Outcome) (now : Z) :
  exec (chat_send_settled tid t o now) g =
  (settledGateway g tid (t_runId t) o now,
   [terminalResponse (t_rid t) (t_runId t) o now]).
Proof. destruct o; reflexivity. Qed.

Lemma chat_send_saved_rejected (g : Gateway) (tid : nat) (t : Task)
    (path : string) (store : SessionStore) (err : Exn) (now : Z) :
  exec (chat_send_saved tid t path store (Rejected err) now) g =
  (settledGateway g tid (t_runId t) (Rejected err) now,
   [terminalResponse (t_rid t) (t_runId t) (Rejected err) now]).
Proof. reflexivity. Qed.

Lemma chat_send_saved_resolved (g : Gateway) (tid : nat) (t : Task)
    (path : string) (store : SessionStore) (now : Z) :
  exec (chat_send_saved tid t path store Resolved now) g =
  (savedGateway g tid t path store, [AgentCommand (t_opts t)]).
Proof. reflexivity. Qed.

(** A terminal event is enabled exactly for a call parked at the matching
    [await], and leaves the settled gateway. *)
Lemma step_terminal (g : Gateway) (ev : Event) (tid : nat) (o : Outcome)
    (now : Z) (g' : Gateway) (out : list Effect) :
  terminal_of ev = Some (tid, o, now) ->
  step g ev = Some (g', out) ->
  exists t, inflight g !! tid = Some t /\
    g' = settledGateway g tid (t_runId t) o now /\
    out = [terminalResponse (t_rid t) (t_runId t) o now].
Proof.
  intros Hterm Hstep. destruct ev as [| | |tid' o' now'|tid' o' now'];
    try discriminate Hterm.
  - destruct o' as [|err]; [discriminate Hterm|].
    injection Hterm as <- <- <-. unfold step in Hstep.
    destruct (inflight g !! tid') as [t|] eqn:Ht; [|discriminate Hstep].
    destruct (t_phase t) as [path store|]; [|discriminate Hstep].
    rewrite chat_send_saved_rejected in Hstep. injection Hstep as <- <-.
    exists t. auto.
  - injection Hterm as <- <- <-. simpl in Hstep.
    destruct (inflight g !! tid') as [t|] eqn:Ht; [|discriminate Hstep].
    destruct (t_phase t) as [path store|]; [discriminate Hstep|].
    rewrite chat_send_settled_exec in Hstep. injection Hstep as <- <-.
    exists t. auto.
Qed.

Lemma step_agent_settled (g : Gateway) (tid : nat) (t : Task) (o : Outcome)
    (now : Z) :
  inflight g !! tid = Some t -> t_phase t = Running ->
  step g (AgentSettled tid o now) =
  Some (settledGateway g tid (t_runId t) o now,
        [terminalResponse (t_rid t) (t_runId t) o now]).
Proof.
  intros Ht Hph. unfold step. rewrite Ht, Hph, chat_send_settled_exec.
  reflexivity.
Qed.







(** ** What each turn of the loop leaves alone *)

Lemma dedupeKey_inj (a b : string) : dedupeKey a = dedupeKey b -> a = b.
Proof. unfold dedupeKey. simpl. intros H. injection H as H. exact H. Qed.

Lemma invocations_app (k : string) (a b : list Effect) :
  invocations k (a ++ b) = (invocations k a + invocations k b)%nat.
Proof. induction a as [|e a IH]; simpl; [reflexivity | rewrite IH; lia]. Qed.

Lemma invocations_none (k : string) (out : list Effect) :
  (forall opts, In (AgentCommand opts) out -> o_runId opts <> k) ->
  invocations k out = 0%nat.
Proof.
  induction out as [|e out IH]; intros H; simpl; [reflexivity|].
  rewrite IH by (intros opts Hin; apply H; right; exact Hin).
  destruct e as [| | | | |opts]; simpl; try reflexivity.
  destruct (String.eqb_spec (o_runId opts) k) as [Heq|Hne]; [|reflexivity].
  exfalso. apply (H opts); [left; reflexivity | exact Heq].
Qed.

Lemma chat_history_frame (g : Gateway) (rid : nat) (raw : Raw)
    (g' : Gateway) (out : list Effect) :
  exec (chat_history rid raw) g = (g', out) ->
  g' = g /\ forall opts, ~ In (AgentCommand opts) out.
Proof.
  unfold chat_history. destruct (validateChatHistoryParams raw) as [p|errors];
    intros H; injection H as <- <-; (split; [reflexivity|]);
    intros opts Hin; simpl in Hin; intuition discriminate.
Qed.

Lemma chat_abort_frame (g : Gateway) (rid : nat) (raw : Raw)
    (g' : Gateway) (out : list Effect) :
  exec (chat_abort rid raw) g = (g', out) ->
  dedupe g' = dedupe g /\ disk g' = disk g /\
  inflight g' = inflight g /\ nextTask g' = nextTask g /\
  forall opts, ~ In (AgentCommand opts) out.
Proof.
  unfold chat_abort. destruct (validateChatAbortParams raw) as [p|errors].
  - unfold_handler.
    destruct (chatAbortControllers g !! a_runId p) as [active|].
    + destruct (bool_decide (ab_sessionKey active ≠ a_sessionKey p));
        intros H; injection H as <- <-; repeat split;
        intros opts Hin; simpl in Hin; intuition discriminate.
    + intros H; injection H as <- <-; repeat split;
        intros opts Hin; simpl in Hin; intuition discriminate.
  - intros H; injection H as <- <-; repeat split;
      intros opts Hin; simpl in Hin; intuition discriminate.
Qed.

(** The first segment of [chat.send] either leaves no call behind, or has
    accepted the request: its key was not cached, and one call is parked
    under the next task number. *)
Lemma chat_send_frame (g : Gateway) (rid : nat) (raw : Raw) (now : Z)
    (uuid : string) (g' : Gateway) (out : list Effect) :
  exec (chat_send rid raw now uuid) g = (g', out) ->
  dedupe g' = dedupe g /\ disk g' = disk g /\
  ((inflight g' = inflight g /\ nextTask g' = nextTask g /\
    forall opts, ~ In (AgentCommand opts) out)
   \/
   (exists p opts ph,
      validateChatSendParams raw = inl p /\
      o_runId opts = s_idempotencyKey p /\
      dedupe g !! dedupeKey (s_idempotencyKey p) = None /\
      inflight g' =
        <[nextTask g := {| t_rid := rid; t_opts := opts; t_phase := ph |}]>
          (inflight g) /\
      nextTask g' = S (nextTask g) /\
      forall o, In (AgentCommand o) out -> o = opts)).
Proof.
  destruct (validateChatSendParams raw) as [p|errors] eqn:Hv.
  2:{ rewrite (chat_send_invalid g rid raw now uuid errors Hv).
      intros H; injection H as <- <-. repeat split. left. repeat split.
      intros opts Hin; simpl in Hin; intuition discriminate. }
  destruct (messageWithAttachments p) as [message|err] eqn:Hm.
  2:{ rewrite (chat_send_merge_failed g rid raw now uuid p err Hv Hm).
      intros H; injection H as <- <-. repeat split. left. repeat split.
      intros opts Hin; simpl in Hin; intuition discriminate. }
  destruct (resolveSendPolicy loadConfig
              (l_entry (loadSessionEntry (disk g) (s_sessionKey p)))
              (s_sessionKey p)
              (l_entry (loadSessionEntry (disk g) (s_sessionKey p)))?.provider
              (l_entry (loadSessionEntry (disk g) (s_sessionKey p)))?.chatType)
    eqn:Hpol.
  2:{ rewrite (chat_send_denied g rid raw now uuid p message Hv Hm Hpol).
      intros H; injection H as <- <-. repeat split. left. repeat split.
      intros opts Hin; simpl in Hin; intuition discriminate. }
  destruct (dedupe g !! dedupeKey (s_idempotencyKey p)) as [c|] eqn:Hc.
  { rewrite (chat_send_cached g rid raw now uuid p message c Hv Hm Hpol Hc).
    intros H; injection H as <- <-. repeat split. left. repeat split.
    intros opts Hin; simpl in Hin; intuition discriminate. }
  rewrite (chat_send_accepted g rid raw now uuid p message Hv Hm Hpol Hc).
  cbn zeta.
  destruct (l_store (loadSessionEntry (disk g) (s_sessionKey p)))
    as [store|];
    [destruct (truthy (l_storePath (loadSessionEntry (disk g) (s_sessionKey p))))|];
    intros H; injection H as <- <-; (split; [reflexivity|]);
    (split; [reflexivity|]); right;
    eexists p, (agentOptsFor p message _ (nextController g)), _;
    (split; [reflexivity|]); (split; [reflexivity|]);
    (split; [exact Hc|]); (split; [reflexivity|]); (split; [reflexivity|]);
    intros o Hin; simpl in Hin;
    repeat (destruct Hin as [Hin|Hin]; try discriminate Hin);
    try (injection Hin as <-; reflexivity); destruct Hin.
Qed.

Lemma step_turn (g : Gateway) (ev : Event) (g' : Gateway)
    (out : list Effect) :
  step g ev = Some (g', out) -> Turn g ev g' out.
Proof.
  intros Hstep.
  destruct ev as [rid raw|rid raw|rid raw now uuid|tid o now|tid o now].
  - injection Hstep as Hstep.
    destruct (chat_history_frame g rid raw g' out Hstep) as [-> Hno].
    apply turn_quiet; auto.
  - injection Hstep as Hstep.
    destruct (chat_abort_frame g rid raw g' out Hstep)
      as (Hd & _ & Hi & Hn & Hno).
    apply turn_quiet; auto.
  - injection Hstep as Hstep.
    destruct (chat_send_frame g rid raw now uuid g' out Hstep)
      as (Hd & _ & [(Hi & Hn & Hno)|(p & opts & ph & Hv & Hid & Hc & Hi & Hn & Ho)]).
    + apply turn_quiet; auto.
    + eapply turn_accepted; eauto.
  - destruct o as [|err].
    + unfold step in Hstep.
      destruct (inflight g !! tid) as [t|] eqn:Ht; [|discriminate Hstep].
      destruct (t_phase t) as [path store|] eqn:Hph; [|discriminate Hstep].
      rewrite chat_send_saved_resolved in Hstep. injection Hstep as <- <-.
      eapply turn_saved; eauto.
    + destruct (step_terminal g (SaveSettled tid (Rejected err) now) tid
                  (Rejected err) now g' out eq_refl Hstep)
        as (t & Ht & -> & ->).
      eapply turn_ended; [reflexivity | exact Ht].
  - destruct (step_terminal g (AgentSettled tid o now) tid o now g' out
                eq_refl Hstep)
      as (t & Ht & -> & ->).
    eapply turn_ended; [reflexivity | exact Ht].
Qed.

(** ** Invariants of schedules *)

(** Once a terminal result is cached under [k] and no call runs under [k],
    every turn keeps it so and invokes no executor for [k]. *)
Lemma turn_cached (k : string) (c : DedupeEntry) (g : Gateway) (ev : Event)
    (g' : Gateway) (out : list Effect) :
  Turn g ev g' out ->
  dedupe g !! dedupeKey k = Some c -> no_run_in_flight k g ->
  dedupe g' !! dedupeKey k = Some c /\ no_run_in_flight k g' /\
  invocations k out = 0%nat.
Proof.
  intros Hturn Hc Hfree.
  destruct Hturn as [ev g' out _ Hd Hi _ Hno
                    |rid raw now uuid p opts ph g' out _ Hid Hnc Hd Hi _ Ho
                    |tid t path store now Ht Hph
                    |ev tid o now t _ Ht].
  - split; [rewrite Hd; exact Hc|]. split.
    + intros tid t Ht. rewrite Hi in Ht. exact (Hfree tid t Ht).
    + apply invocations_none. intros opts Hin. destruct (Hno opts Hin).
  - assert (Hk : s_idempotencyKey p <> k).
    { intros Heq. rewrite Heq in Hnc. congruence. }
    split; [rewrite Hd; exact Hc|]. split.
    + intros tid t Ht. rewrite Hi in Ht.
      destruct (decide (tid = nextTask g)) as [->|Hne].
      * rewrite lookup_insert_eq in Ht. injection Ht as <-.
        unfold t_runId. cbn [t_opts]. rewrite Hid. exact Hk.
      * rewrite lookup_insert_ne in Ht by congruence. exact (Hfree tid t Ht).
    + apply invocations_none. intros o Hin. rewrite (Ho o Hin), Hid. exact Hk.
  - split; [exact Hc|]. split.
    + intros tid' t' Ht'. cbn [inflight savedGateway] in Ht'.
      destruct (decide (tid' = tid)) as [->|Hne].
      * rewrite lookup_insert_eq in Ht'. injection Ht' as <-.
        exact (Hfree tid t Ht).
      * rewrite lookup_insert_ne in Ht' by congruence.
        exact (Hfree tid' t' Ht').
    + apply invocations_none. intros o [Heq|[]]. injection Heq as <-.
      exact (Hfree tid t Ht).
  - split.
    + cbn [dedupe settledGateway]. rewrite lookup_insert_ne; [exact Hc|].
      intros Heq. apply dedupeKey_inj in Heq. exact (Hfree tid t Ht Heq).
    + split.
      * intros tid' t' Ht'. cbn [inflight settledGateway] in Ht'.
        apply lookup_delete_Some in Ht' as [_ Ht'].
        exact (Hfree tid' t' Ht').
      * reflexivity.
Qed.

Lemma run_cached (k : string) (c : DedupeEntry) (evs : list Event) :
  forall (g g' : Gateway) (out : list Effect),
  run g evs = Some (g', out) ->
  dedupe g !! dedupeKey k = Some c -> no_run_in_flight k g ->
  dedupe g' !! dedupeKey k = Some c /\ no_run_in_flight k g' /\
  invocations k out = 0%nat.
Proof.
  induction evs as [|ev evs IH]; intros g g' out Hrun Hc Hfree.
  - injection Hrun as <- <-. auto.
  - cbn [run] in Hrun.
    destruct (step g ev) as [[g1 out1]|] eqn:Hstep; [|discriminate Hrun].
    destruct (run g1 evs) as [[g2 out2]|] eqn:Hrest; [|discriminate Hrun].
    injection Hrun as <- <-.
    destruct (turn_cached k c g ev g1 out1 (step_turn _ _ _ _ Hstep) Hc Hfree)
      as (Hc1 & Hfree1 & Hinv1).
    destruct (IH g1 g2 out2 Hrest Hc1 Hfree1) as (Hc2 & Hfree2 & Hinv2).
    rewrite invocations_app, Hinv1, Hinv2. auto.
Qed.

(** A task number that has been given out and is no longer in flight never
    comes back. *)
Lemma turn_retired (tid : nat) (g : Gateway) (ev : Event) (g' : Gateway)
    (out : list Effect) :
  Turn g ev g' out ->
  (tid < nextTask g)%nat -> inflight g !! tid = None ->
  (tid < nextTask g')%nat /\ inflight g' !! tid = None /\
  ends_run tid ev = false.
Proof.
  intros Hturn Hlt Hnone.
  destruct Hturn as [ev g' out Hterm _ Hi Hn _
                    |rid raw now uuid p opts ph g' out _ _ _ _ Hi Hn _
                    |tid' t path store now Ht Hph
                    |ev tid' o now t Hterm Ht].
  - rewrite Hi, Hn. unfold ends_run. rewrite Hterm. auto.
  - rewrite Hi, Hn. split; [lia|]. split; [|reflexivity].
    rewrite lookup_insert_ne by lia. exact Hnone.
  - cbn [inflight nextTask savedGateway]. split; [exact Hlt|].
    split; [|reflexivity].
    rewrite lookup_insert_ne; [exact Hnone|]. intros ->. congruence.
  - cbn [inflight nextTask settledGateway]. split; [exact Hlt|]. split.
    + apply lookup_delete_None. right. exact Hnone.
    + unfold ends_run. rewrite Hterm.
      apply Nat.eqb_neq. intros ->. congruence.
Qed.

Lemma run_retired (tid : nat) (evs : list Event) :
  forall (g g' : Gateway) (out : list Effect),
  run g evs = Some (g', out) ->
  (tid < nextTask g)%nat -> inflight g !! tid = None ->
  runs_ended tid evs = 0%nat.
Proof.
  induction evs as [|ev evs IH]; intros g g' out Hrun Hlt Hnone;
    [reflexivity|].
  cbn [run] in Hrun.
  destruct (step g ev) as [[g1 out1]|] eqn:Hstep; [|discriminate Hrun].
  destruct (run g1 evs) as [[g2 out2]|] eqn:Hrest; [|discriminate Hrun].
  destruct (turn_retired tid g ev g1 out1 (step_turn _ _ _ _ Hstep) Hlt Hnone)
    as (Hlt1 & Hnone1 & Hev).
  cbn [runs_ended]. rewrite Hev, (IH g1 g2 out2 Hrest Hlt1 Hnone1).
  reflexivity.
Qed.

Lemma turn_numbered (g : Gateway) (ev : Event) (g' : Gateway)
    (out : list Effect) :
  Turn g ev g' out -> tasks_numbered g -> tasks_numbered g'.
Proof.
  intros Hturn Hnum.
  destruct Hturn as [ev g' out _ _ Hi Hn _
                    |rid raw now uuid p opts ph g' out _ _ _ _ Hi Hn _
                    |tid' t path store now Ht Hph
                    |ev tid' o now t Hterm Ht]; intros tid t0 Ht0.
  - rewrite Hi in Ht0. rewrite Hn. exact (Hnum tid t0 Ht0).
  - rewrite Hi in Ht0. rewrite Hn.
    destruct (decide (tid = nextTask g)) as [->|Hne]; [lia|].
    rewrite lookup_insert_ne in Ht0 by congruence.
    pose proof (Hnum tid t0 Ht0). lia.
  - cbn [inflight nextTask savedGateway] in *.
    destruct (decide (tid = tid')) as [->|Hne]; [exact (Hnum tid' t Ht)|].
    rewrite lookup_insert_ne in Ht0 by congruence. exact (Hnum tid t0 Ht0).
  - cbn [inflight nextTask settledGateway] in *.
    apply lookup_delete_Some in Ht0 as [_ Ht0]. exact (Hnum tid t0 Ht0).
Qed.

Lemma run_numbered (evs : list Event) :
  forall (g g' : Gateway) (out : list Effect),
  tasks_numbered g -> run g evs = Some (g', out) -> tasks_numbered g'.
Proof.
  induction evs as [|ev evs IH]; intros g g' out Hnum Hrun.
  - injection Hrun as <- <-. exact Hnum.
  - cbn [run] in Hrun.
    destruct (step g ev) as [[g1 out1]|] eqn:Hstep; [|discriminate Hrun].
    destruct (run g1 evs) as [[g2 out2]|] eqn:Hrest; [|discriminate Hrun].
    injection Hrun as <- <-.
    apply (IH g1 g2 out2); [|exact Hrest].
    exact (turn_numbered g ev g1 out1 (step_turn _ _ _ _ Hstep) Hnum).
Qed.

(** No schedule ends the same run twice. *)
Lemma run_ended_once (tid : nat) (evs : list Event) :
  forall (g g' : Gateway) (out : list Effect),
  tasks_numbered g ->
  run g evs = Some (g', out) ->
  (runs_ended tid evs <= 1)%nat.
Proof.
  induction evs as [|ev evs IH]; intros g g' out Hnum Hrun; [simpl; lia|].
  cbn [run] in Hrun.
  destruct (step g ev) as [[g1 out1]|] eqn:Hstep; [|discriminate Hrun].
  destruct (run g1 evs) as [[g2 out2]|] eqn:Hrest; [|discriminate Hrun].
  pose proof (step_turn _ _ _ _ Hstep) as Hturn.
  pose proof (turn_numbered g ev g1 out1 Hturn Hnum) as Hnum1.
  cbn [runs_ended].
  destruct (ends_run tid ev) eqn:Hends.
  - unfold ends_run in Hends.
    destruct (terminal_of ev) as [[[tid' o] now]|] eqn:Hterm;
      [|discriminate Hends].
    apply Nat.eqb_eq in Hends as ->.
    destruct (step_terminal g ev tid o now g1 out1 Hterm Hstep)
      as (t & Ht & -> & _).
    rewrite (run_retired tid evs _ g2 out2 Hrest); [lia| |].
    + cbn [nextTask settledGateway]. exact (Hnum tid t Ht).
    + cbn [inflight settledGateway]. apply lookup_delete_eq.
  - pose proof (IH g1 g2 out2 Hnum1 Hrest). lia.
Qed.

(** ** The idempotency cache *)

(** C1 (as amended): every chat.send request that reaches the dedup check
    (valid parameters, attachments merged, policy allow) and whose
    idempotency key has a cached terminal result is answered with exactly
    the cached ok/payload/error, flagged cached, without invoking the
    executor, parking a call or writing the session store (only the run
    context is registered), whether or not a call under that key is still
    in flight.  And once a terminal result is cached under a key and no
    call under that key is in flight, then along every schedule the
    executor is never invoked for that key again, the cached entry stays as
    it is, and every such request is answered with that same entry. *)
Theorem chat_send_replays_cached (g : Gateway) (k : string)
    (c : DedupeEntry) :
  dedupe g !! dedupeKey k = Some c ->
  let replayed (g0 : Gateway) :=
    forall rid raw now uuid p message,
      validateChatSendParams raw = inl p ->
      s_idempotencyKey p = k ->
      messageWithAttachments p = inl message ->
      (let entry := l_entry (loadSessionEntry (disk g0) (s_sessionKey p)) in
       resolveSendPolicy loadConfig entry (s_sessionKey p)
         entry?.provider entry?.chatType = allow) ->
      exec (chat_send rid raw now uuid) g0 =
      (set_runContexts (registerAgentRunContext k (s_sessionKey p)) g0,
       [LoadSessionEntry (s_sessionKey p);
        Respond rid (d_ok c) (d_payload c) (d_error c) MetaCached]) in
  replayed g /\
  (no_run_in_flight k g ->
   forall evs g' out,
     run g evs = Some (g', out) ->
     invocations k out = 0%nat /\
     dedupe g' !! dedupeKey k = Some c /\
     no_run_in_flight k g' /\
     replayed g').
Proof.
  intros Hc replayed.
  assert (Hreplay : forall g0, dedupe g0 !! dedupeKey k = Some c -> replayed g0).
  { intros g0 Hc0 rid raw now uuid p message Hv Hk Hm Hpol. subst k.
    apply (chat_send_cached g0 rid raw now uuid p message c Hv Hm Hpol Hc0). }
  split; [exact (Hreplay g Hc)|].
  intros Hfree evs g' out Hrun.
  destruct (run_cached k c evs g g' out Hrun Hc Hfree) as (Hc' & Hfree' & Hinv).
  split; [exact Hinv|]. split; [exact Hc'|].
  split; [exact Hfree' | exact (Hreplay g' Hc')].
Qed.

(** C10 (as amended): along any schedule the dedup cache is written only
    by the turn that ends a run, which writes exactly the run's terminal
    entry under
    the run's idempotency key ([{runId, status:"ok"}] on success,
    [{runId, status:"error", summary}] with an UNAVAILABLE error when the
    executor or the store write fails) and answers the request with it; a
    run in flight can always take that turn, and no schedule ends the same
    run twice, so each run writes the cache exactly once; a request bearing
    a key that is already cached leaves the cache and the calls in flight
    as they are. *)
Theorem chat_send_dedupe_written_once (g : Gateway) :
  tasks_numbered g ->
  (forall ev g' out, step g ev = Some (g', out) ->
     match terminal_of ev with
     | Some (tid, o, now) =>
         exists t, inflight g !! tid = Some t /\
           dedupe g' =
             <[dedupeKey (t_runId t) := terminalEntry (t_runId t) o now]>
               (dedupe g) /\
           inflight g' = delete tid (inflight g) /\
           out = [terminalResponse (t_rid t) (t_runId t) o now]
     | None => dedupe g' = dedupe g
     end) /\
  (forall tid t o now, inflight g !! tid = Some t -> t_phase t = Running ->
     is_Some (step g (AgentSettled tid o now))) /\
  (forall tid t path store err now, inflight g !! tid = Some t ->
     t_phase t = Saving path store ->
     is_Some (step g (SaveSettled tid (Rejected err) now))) /\
  (forall evs g' out tid, run g evs = Some (g', out) ->
     tasks_numbered g' /\ (runs_ended tid evs <= 1)%nat) /\
  (forall rid raw now uuid p c g' out,
     validateChatSendParams raw = inl p ->
     dedupe g !! dedupeKey (s_idempotencyKey p) = Some c ->
     exec (chat_send rid raw now uuid) g = (g', out) ->
     dedupe g' = dedupe g /\ inflight g' = inflight g).
Proof.
  intros Hnum. split; [|split; [|split; [|split]]].
  - intros ev g' out Hstep.
    destruct (terminal_of ev) as [[[tid o] now]|] eqn:Hterm.
    + destruct (step_terminal g ev tid o now g' out Hterm Hstep)
        as (t & Ht & -> & ->).
      exists t. auto.
    + destruct (step_turn g ev g' out Hstep)
        as [ev g' out _ Hd _ _ _
           |rid raw now uuid p opts ph g' out _ _ _ Hd _ _ _
           |tid t path store now Ht Hph
           |ev tid o now t Hterm' Ht]; try assumption; try reflexivity.
      congruence.
  - intros tid t o now Ht Hph.
    rewrite (step_agent_settled g tid t o now Ht Hph). eauto.
  - intros tid t path store err now Ht Hph. unfold step. rewrite Ht, Hph.
    eauto.
  - intros evs g' out tid Hrun. split.
    + exact (run_numbered evs g g' out Hnum Hrun).
    + exact (run_ended_once tid evs g g' out Hnum Hrun).
  - intros rid raw now uuid p c g' out Hv Hc Hexec.
    destruct (chat_send_frame g rid raw now uuid g' out Hexec)
      as (Hd & _ & [(Hi & _ & _)|(p' & opts & ph & Hv' & _ & Hnc & _)]).
    + auto.
    + rewrite Hv in Hv'. injection Hv' as <-. congruence.
Qed.

(** ** The session store write *)

(** C6: for every chat.send request on a session whose stored entry has
    lastProvider and lastTo set.  The first turn of the handler never
    invokes the executor and leaves the session file alone.  A request
    that is accepted (attachments merged, policy allow, key not cached)
    hands saveSessionStore, in that turn, a store that holds for that
    session an entry with the same lastProvider and lastTo and every other
    session as loaded, and parks the call on that write; the executor is
    invoked only in the turn in which the write has completed, when the
    file holds the persisted store, and not at all when the write fails;
    when the request has completed the file still holds the persisted
    store, so both fields are unchanged.  A request that is not accepted
    (merge failure, policy deny, cached key) is answered in its first
    turn, writes nothing and invokes nothing. *)
Theorem chat_send_keeps_delivery_route (g : Gateway) (rid : nat) (raw : Raw)
    (now : Z) (uuid : string) (p : ChatSendParams) (path : string)
    (store : SessionStore) (e : SessionEntry) (lp lt : string) :
  validateChatSendParams raw = inl p ->
  loadSessionEntry (disk g) (s_sessionKey p) =
    {| l_storePath := Some path; l_store := Some store; l_entry := Some e |} ->
  path <> "" ->
  lastProvider e = Some lp -> lastTo e = Some lt ->
  let tid := nextTask g in
  let persisted :=
    <[s_sessionKey p := sessionEntryFor (Some e) (sessionId e) now]> store in
  let policy :=
    resolveSendPolicy loadConfig (Some e) (s_sessionKey p)
      (provider e) (chatType e) in
  let cached := dedupe g !! dedupeKey (s_idempotencyKey p) in
  (exists e', persisted !! s_sessionKey p = Some e' /\
     lastProvider e' = Some lp /\ lastTo e' = Some lt) /\
  (forall key, key <> s_sessionKey p -> persisted !! key = store !! key) /\
  exists g1 out,
    step g (ChatSend rid raw now uuid) = Some (g1, out) /\
    disk g1 = disk g /\
    (forall opts, ~ In (AgentCommand opts) out) /\
    (((exists err, messageWithAttachments p = inr err) \/ policy = deny \/
      is_Some cached) ->
     inflight g1 = inflight g /\ answers out = 1%nat /\
     forall path' store', ~ In (SaveSessionStore path' store') out) /\
    (forall message,
       messageWithAttachments p = inl message -> policy = allow ->
       cached = None ->
       let opts := agentOptsFor p message (sessionId e) (nextController g) in
       out = [LoadSessionEntry (s_sessionKey p);
              SaveSessionStore path persisted] /\
       inflight g1 =
         <[tid := {| t_rid := rid; t_opts := opts;
                     t_phase := Saving path persisted |}]> (inflight g) /\
       (forall now1, exists g2,
          step g1 (SaveSettled tid Resolved now1) =
            Some (g2, [AgentCommand opts]) /\
          disk g2 = <[path := persisted]> (disk g)) /\
       (forall o now1, step g1 (AgentSettled tid o now1) = None) /\
       (forall err now1, exists g2,
          step g1 (SaveSettled tid (Rejected err) now1) =
            Some (g2, [terminalResponse rid (s_idempotencyKey p)
                         (Rejected err) now1]) /\
          disk g2 = disk g /\ inflight g2 !! tid = None) /\
       (forall now1 o now2, exists g3,
          run g [ChatSend rid raw now uuid; SaveSettled tid Resolved now1;
                 AgentSettled tid o now2] =
            Some (g3, [LoadSessionEntry (s_sessionKey p);
                       SaveSessionStore path persisted; AgentCommand opts;
                       terminalResponse rid (s_idempotencyKey p) o now2]) /\
          disk g3 = <[path := persisted]> (disk g))).
Proof.
  intros Hv Hload Hpath Hlp Hlt tid persisted policy cached.
  split.
  { exists (sessionEntryFor (Some e) (sessionId e) now).
    split; [apply lookup_insert_eq|]. split; assumption. }
  split.
  { intros key Hkey. apply lookup_insert_ne. congruence. }
  assert (Hquiet : forall (g1 : Gateway) (r : Effect),
            is_response r = true ->
            step g (ChatSend rid raw now uuid) =
              Some (g1, [r]) \/
            step g (ChatSend rid raw now uuid) =
              Some (g1, [LoadSessionEntry (s_sessionKey p); r]) ->
            disk g1 = disk g -> inflight g1 = inflight g ->
            (exists err, messageWithAttachments p = inr err) \/
              policy = deny \/ is_Some cached ->
            exists g1 out,
              step g (ChatSend rid raw now uuid) = Some (g1, out) /\
              disk g1 = disk g /\
              (forall opts, ~ In (AgentCommand opts) out) /\
              (((exists err, messageWithAttachments p = inr err) \/
                policy = deny \/ is_Some cached) ->
               inflight g1 = inflight g /\ answers out = 1%nat /\
               forall path' store', ~ In (SaveSessionStore path' store') out) /\
              (forall message,
                 messageWithAttachments p = inl message -> policy = allow ->
                 cached = None -> False)).
  { intros g1 r Hr Hstep Hdisk Hfl Hwhy.
    assert (Hnot : forall message,
              messageWithAttachments p = inl message -> policy = allow ->
              cached = None -> False).
    { intros message Hm Hpol Hc.
      destruct Hwhy as [(err & Herr)|[Hdeny|[c Hsome]]]; congruence. }
    destruct r as [rid' ok payload error meta| | | | |]; try discriminate Hr.
    destruct Hstep as [Hstep|Hstep]; eexists _, _;
      (split; [exact Hstep|]); (split; [exact Hdisk|]);
      (split; [intros opts Hin; simpl in Hin; intuition discriminate|]);
      (split; [|exact Hnot]); intros _;
      (split; [exact Hfl|]); (split; [reflexivity|]);
      intros path' store' Hin; simpl in Hin; intuition discriminate. }
  destruct (messageWithAttachments p) as [message|err] eqn:Hm.
  2:{ destruct (Hquiet g (Respond rid false None
                            (Some (errorShape INVALID_REQUEST (String_ err)))
                            NoMeta) eq_refl)
        as (g1 & out & Hstep & Hdisk & Hno & Hrej & Hnot);
        [left; unfold step;
         rewrite (chat_send_merge_failed g rid raw now uuid p err Hv Hm);
         reflexivity
        | reflexivity | reflexivity | left; eauto |].
      exists g1, out. split; [exact Hstep|]. split; [exact Hdisk|].
      split; [exact Hno|]. split; [exact Hrej|].
      intros message Hm'. discriminate Hm'. }
  destruct policy eqn:Hpol.
  2:{ destruct (Hquiet (set_runContexts
                          (registerAgentRunContext (s_idempotencyKey p)
                             (s_sessionKey p)) g)
                  (Respond rid false None
                     (Some (errorShape INVALID_REQUEST
                              "send blocked by session policy")) NoMeta)
                  eq_refl)
        as (g1 & out & Hstep & Hdisk & Hno & Hrej & Hnot);
        [right; unfold step;
         rewrite (chat_send_denied g rid raw now uuid p message Hv Hm);
         [reflexivity | rewrite Hload; exact Hpol]
        | reflexivity | reflexivity | right; left; reflexivity |].
      exists g1, out. split; [exact Hstep|]. split; [exact Hdisk|].
      split; [exact Hno|]. split; [exact Hrej|].
      intros message' _ Hallow. discriminate Hallow. }
  destruct cached as [c|] eqn:Hc.
  { destruct (Hquiet (set_runContexts
                        (registerAgentRunContext (s_idempotencyKey p)
                           (s_sessionKey p)) g)
                (Respond rid (d_ok c) (d_payload c) (d_error c) MetaCached)
                eq_refl)
      as (g1 & out & Hstep & Hdisk & Hno & Hrej & Hnot);
      [right; unfold step;
       rewrite (chat_send_cached g rid raw now uuid p message c Hv Hm);
       [reflexivity | rewrite Hload; exact Hpol | exact Hc]
      | reflexivity | reflexivity | right; right; eauto |].
    exists g1, out. split; [exact Hstep|]. split; [exact Hdisk|].
    split; [exact Hno|]. split; [exact Hrej|].
    intros message' _ _ Hnone. discriminate Hnone. }
  set (opts := agentOptsFor p message (sessionId e) (nextController g)).
  assert (Htruthy : truthy (Some path) = true).
  { simpl. apply negb_true_iff. apply String.eqb_neq. exact Hpath. }
  assert (Hstep : step g (ChatSend rid raw now uuid) =
            Some (acceptedGateway g rid p (sessionId e) opts
                    (Saving path persisted),
                  [LoadSessionEntry (s_sessionKey p);
                   SaveSessionStore path persisted])).
  { unfold step.
    rewrite (chat_send_accepted g rid raw now uuid p message Hv Hm).
    - rewrite Hload. cbn [l_store l_storePath l_entry]. cbn zeta.
      rewrite Htruthy. reflexivity.
    - rewrite Hload. exact Hpol.
    - exact Hc. }
  set (g1 := acceptedGateway g rid p (sessionId e) opts
               (Saving path persisted)) in *.
  set (t := {| t_rid := rid; t_opts := opts;
               t_phase := Saving path persisted |}).
  assert (Ht : inflight g1 !! tid = Some t).
  { unfold g1. cbn [inflight acceptedGateway]. apply lookup_insert_eq. }
  assert (Hsaved : forall now1,
            step g1 (SaveSettled tid Resolved now1) =
            Some (savedGateway g1 tid t path persisted, [AgentCommand opts])).
  { intros now1. unfold step. rewrite Ht. reflexivity. }
  exists g1, [LoadSessionEntry (s_sessionKey p);
              SaveSessionStore path persisted].
  split; [exact Hstep|]. split; [reflexivity|].
  split; [intros o Hin; simpl in Hin; intuition discriminate|].
  split.
  { intros [(err & Herr)|[Hdeny|[c' Hsome]]]; discriminate. }
  intros message' Hm' _ _ opts'.
  assert (message' = message) as -> by congruence.
  split; [reflexivity|]. split; [reflexivity|].
  split; [|split; [|split]].
  - intros now1. eexists. split; [apply Hsaved | reflexivity].
  - intros o now1. unfold step. rewrite Ht. reflexivity.
  - intros err now1. eexists. split; [|split].
    + unfold step. rewrite Ht. reflexivity.
    + reflexivity.
    + cbn [inflight settledGateway]. apply lookup_delete_eq.
  - intros now1 o now2. eexists. split.
    + cbn [run]. rewrite Hstep, Hsaved.
      rewrite (step_agent_settled _ tid
                 {| t_rid := rid; t_opts := opts; t_phase := Running |}
                 o now2);
        [reflexivity | apply lookup_insert_eq | reflexivity].
    + reflexivity.
Qed.

(** ** The paths of chat.send *)

Lemma truthy_Some (o : option string) :
  truthy o = true -> exists s, o = Some s /\ s <> "".
Proof.
  destruct o as [s|]; simpl; [|discriminate].
  intros H. exists s. split; [reflexivity|].
  apply negb_true_iff in H. apply String.eqb_neq. exact H.
Qed.

Lemma chat_send_outcome (g : Gateway) (rid : nat) (raw : Raw) (now : Z)
    (uuid : string) (g' : Gateway) (out : list Effect) :
  exec (chat_send rid raw now uuid) g = (g', out) ->
  SendOutcome g rid raw now uuid g' out.
Proof.
  destruct (validateChatSendParams raw) as [p|errors] eqn:Hv.
  2:{ rewrite (chat_send_invalid g rid raw now uuid errors Hv).
      intros H; injection H as <- <-. apply send_invalid. exact Hv. }
  destruct (messageWithAttachments p) as [message|err] eqn:Hm.
  2:{ rewrite (chat_send_merge_failed g rid raw now uuid p err Hv Hm).
      intros H; injection H as <- <-. eapply send_merge_failed; eauto. }
  destruct (resolveSendPolicy loadConfig
              (l_entry (loadSessionEntry (disk g) (s_sessionKey p)))
              (s_sessionKey p)
              (l_entry (loadSessionEntry (disk g) (s_sessionKey p)))?.provider
              (l_entry (loadSessionEntry (disk g) (s_sessionKey p)))?.chatType)
    eqn:Hpol.
  2:{ rewrite (chat_send_denied g rid raw now uuid p message Hv Hm Hpol).
      intros H; injection H as <- <-. eapply send_denied; eauto. }
  destruct (dedupe g !! dedupeKey (s_idempotencyKey p)) as [c|] eqn:Hc.
  { rewrite (chat_send_cached g rid raw now uuid p message c Hv Hm Hpol Hc).
    intros H; injection H as <- <-. eapply send_replayed; eauto. }
  rewrite (chat_send_accepted g rid raw now uuid p message Hv Hm Hpol Hc).
  cbn zeta.
  destruct (l_store (loadSessionEntry (disk g) (s_sessionKey p)))
    as [store|] eqn:Hstore.
  - destruct (truthy (l_storePath (loadSessionEntry (disk g) (s_sessionKey p))))
      eqn:Htr.
    + intros H; injection H as <- <-.
      destruct (truthy_Some _ Htr) as (path & Hpath & Hne).
      eapply send_accepted; eauto. left. exists store, path.
      rewrite Hpath. simpl. auto.
    + intros H; injection H as <- <-.
      eapply send_accepted; eauto.
  - intros H; injection H as <- <-.
    eapply send_accepted; eauto.
Qed.

Lemma run_enabled (g : Gateway) (evs : list Event) :
  enabled g evs = true ->
  run g evs = Some (after g evs, outputs g evs).
Proof.
  unfold enabled, after, outputs.
  destruct (run g evs) as [[g' out]|]; [reflexivity | discriminate].
Qed.

(** ** Every turn, case by case *)

Lemma step_cases (g : Gateway) (ev : Event) (g' : Gateway)
    (out : list Effect) :
  step g ev = Some (g', out) -> Step g ev g' out.
Proof.
  intros Hstep.
  destruct ev as [rid raw|rid raw|rid raw now uuid|tid o now|tid o now].
  - injection Hstep as Hstep.
    destruct (chat_history_frame g rid raw g' out Hstep) as [-> _].
    apply step_history. exact Hstep.
  - injection Hstep as Hstep.
    destruct (validateChatAbortParams raw) as [p|errors] eqn:Hv.
    2:{ unfold chat_abort in Hstep. rewrite Hv in Hstep.
        injection Hstep as <- <-. apply step_abort_refused.
        unfold chat_abort. rewrite Hv. reflexivity. }
    destruct (chatAbortControllers g !! a_runId p) as [active|] eqn:Hact.
    2:{ pose proof (chat_abort_missing g rid raw p Hv Hact) as He.
        rewrite He in Hstep. injection Hstep as <- <-.
        apply step_abort_refused. exact He. }
    destruct (decide (ab_sessionKey active = a_sessionKey p)) as [Hkey|Hkey].
    2:{ pose proof (chat_abort_mismatch g rid raw p active Hv Hact Hkey) as He.
        rewrite He in Hstep. injection Hstep as <- <-.
        apply step_abort_refused. exact He. }
    rewrite (chat_abort_owner g rid raw p active Hv Hact Hkey) in Hstep.
    cbn zeta in Hstep. injection Hstep as <- <-.
    exact (step_abort_owner g rid raw p active Hv Hact Hkey).
  - injection Hstep as Hstep. apply step_send.
    apply chat_send_outcome. exact Hstep.
  - destruct o as [|err].
    + unfold step in Hstep.
      destruct (inflight g !! tid) as [t|] eqn:Ht; [|discriminate Hstep].
      destruct (t_phase t) as [path store|] eqn:Hph; [|discriminate Hstep].
      rewrite chat_send_saved_resolved in Hstep. injection Hstep as <- <-.
      eapply step_saved; eauto.
    + destruct (step_terminal g (SaveSettled tid (Rejected err) now) tid
                  (Rejected err) now g' out eq_refl Hstep)
        as (t & Ht & -> & ->).
      eapply step_ended; [reflexivity | exact Ht].
  - destruct (step_terminal g (AgentSettled tid o now) tid o now g' out
                eq_refl Hstep)
      as (t & Ht & -> & ->).
    eapply step_ended; [reflexivity | exact Ht].
Qed.

(** An invariant of every turn is an invariant of every schedule. *)
Lemma run_invariant (P : Gateway -> Prop) :
  (forall g ev g' out, P g -> step g ev = Some (g', out) -> P g') ->
  forall evs g g' out, P g -> run g evs = Some (g', out) -> P g'.
Proof.
  intros Hstep. induction evs as [|ev evs IH]; intros g g' out HP Hrun.
  - injection Hrun as <- <-. exact HP.
  - cbn [run] in Hrun.
    destruct (step g ev) as [[g1 out1]|] eqn:Hs; [|discriminate Hrun].
    destruct (run g1 evs) as [[g2 out2]|] eqn:Hrest; [|discriminate Hrun].
    injection Hrun as <- <-.
    exact (IH g1 g2 out2 (Hstep g ev g1 out1 HP Hs) Hrest).
Qed.

(** ** Schedules, piecewise *)



(** ** Requests that fail validation *)

(** X2: a request frame whose parameters fail the method's validator is
    answered, whatever the method, with one INVALID_REQUEST error whose
    message is "invalid <method> params: " followed by the validator's
    errors; the gateway state is left exactly as it was and nothing else is
    emitted: no session is loaded, no run context registered, no event
    broadcast, no call parked. *)
Theorem invalid_params_rejected (g : Gateway) (ev : Event) (method : string)
    (rid : nat) (errors : string) :
  method_of ev = Some method ->
  request_id ev = Some rid ->
  validation_errors ev = Some errors ->
  step g ev =
  Some (g, [Respond rid false None
              (Some {| code := INVALID_REQUEST;
                       message := "invalid " +:+ method +:+ " params: "
                                  +:+ errors |}) NoMeta]).
Proof.
  intros Hm Hr He.
  destruct ev as [rid' raw|rid' raw|rid' raw now uuid|tid o now|tid o now];
    try discriminate Hm; injection Hm as <-; injection Hr as ->;
    cbn [validation_errors] in He; cbn [step].
  - destruct (validateChatHistoryParams raw) as [p|e] eqn:Hv;
      [discriminate He | injection He as ->].
    unfold chat_history. rewrite Hv. reflexivity.
  - destruct (validateChatAbortParams raw) as [p|e] eqn:Hv;
      [discriminate He | injection He as ->].
    unfold chat_abort. rewrite Hv. reflexivity.
  - destruct (validateChatSendParams raw) as [p|e] eqn:Hv;
      [discriminate He | injection He as ->].
    rewrite (chat_send_invalid g rid raw now uuid errors Hv). reflexivity.
Qed.

(** ** chat.history: the window for every limit *)

(** X6: whatever the limit, the count-capped window of chat.history is a
    suffix of the stored transcript.  With a requested size of at least 1
    (the limit, or 200 when none is given) it has at most 1000 messages and
    at most the requested number, and a transcript within the cap is
    returned whole; with a limit of 0 or less the window is not empty but
    the transcript without its first |limit| messages. *)
Theorem historySliced_suffix {A} (limit : option Z) (raw : list A) :
  let requested := default 200 limit in
  let window := historySliced limit raw in
  window `suffix_of` raw /\
  (1 <= requested ->
   (length window <= 1000)%nat /\ Z.of_nat (length window) <= requested /\
   length window = Nat.min (length raw) (Z.to_nat (Z.min 1000 requested))) /\
  (Z.of_nat (length raw) <= Z.min 1000 requested -> window = raw) /\
  (requested <= 0 -> window = drop (Z.to_nat (- requested)) raw).
Proof.
  intros requested window.
  assert (Hreq : match limit with Some n => n | None => 200 end = requested)
    by (unfold requested; destruct limit; reflexivity).
  assert (Hw : window =
               if Z.of_nat (length raw) >? Z.min 1000 requested
               then js_slice (- Z.min 1000 requested) raw else raw).
  { unfold window, historySliced, hardMax, defaultLimit. rewrite Hreq.
    reflexivity. }
  split; [|split; [|split]].
  - rewrite Hw. destruct (_ >? _); [apply suffix_drop | reflexivity].
  - intros H1. rewrite Hw.
    destruct (Z.gtb_spec (Z.of_nat (length raw)) (Z.min 1000 requested))
      as [Hgt|Hle].
    + rewrite js_slice_last by lia. rewrite length_drop. lia.
    + lia.
  - intros Hle. rewrite Hw.
    destruct (Z.gtb_spec (Z.of_nat (length raw)) (Z.min 1000 requested));
      [lia | reflexivity].
  - intros H0. rewrite Hw. replace (Z.min 1000 requested) with requested by lia.
    destruct (Z.gtb_spec (Z.of_nat (length raw)) requested) as [Hgt|Hle].
    + unfold js_slice.
      destruct (Z.ltb_spec (- requested) 0) as [Hlt|Hge]; [lia|].
      destruct (Z.min_spec (- requested) (Z.of_nat (length raw)))
        as [[_ ->]|[Hlen ->]]; [reflexivity|].
      rewrite Nat2Z.id, drop_all. symmetry. apply drop_ge. lia.
    + assert (length raw = 0%nat) as Hnil by lia.
      destruct raw; [|discriminate Hnil]. rewrite drop_nil. reflexivity.
Qed.

(** ** chat.history: sessions without a transcript *)

Lemma historySliced_nil {A} (limit : option Z) :
  historySliced limit (@nil A) = [].
Proof.
  unfold historySliced. destruct (_ >? _); [|reflexivity].
  unfold js_slice. apply drop_nil.
Qed.

(** X4: chat.history on a session that has no entry, whose entry has an
    empty session id, or for which no store path is known reads no
    transcript: it answers ok with the session key, the session id as
    loaded, an empty message list and the resolved thinking level, and
    changes nothing. *)
Theorem chat_history_without_transcript (g : Gateway) (rid : nat) (raw : Raw)
    (p : ChatHistoryParams) :
  validateChatHistoryParams raw = inl p ->
  let ld := loadSessionEntry (disk g) (h_sessionKey p) in
  (l_entry ld = None \/
   (exists e, l_entry ld = Some e /\ sessionId e = "") \/
   l_storePath ld = None \/ l_storePath ld = Some "") ->
  exec (chat_history rid raw) g =
  (g, [LoadSessionEntry (h_sessionKey p);
       Respond rid true
         (Some (HistoryResult (h_sessionKey p) (sessionId <$> l_entry ld) []
                  (historyThinkingLevel (l_entry ld))))
         None NoMeta]).
Proof.
  intros Hv ld Hcase.
  rewrite (chat_history_valid g rid raw p Hv). fold ld.
  assert (Hraw : historyRawMessages ld = []).
  { unfold historyRawMessages.
    destruct Hcase as [He|[(e & He & Hsid)|[Hp|Hp]]].
    - rewrite He. reflexivity.
    - rewrite He. simpl. rewrite Hsid.
      destruct (l_storePath ld); reflexivity.
    - rewrite Hp. destruct (sessionId <$> l_entry ld); reflexivity.
    - rewrite Hp. destruct (sessionId <$> l_entry ld) as [sid|];
        [|reflexivity].
      simpl. rewrite andb_false_r. reflexivity. }
  rewrite Hraw, historySliced_nil. reflexivity.
Qed.

(** ** chat.history: the thinking level *)

(** X5: every ok chat.history response carries a thinking level, resolved
    in this order: the level stored on the session entry when it is a
    non-empty string; else the configured default when that is a non-empty
    string; else what resolveThinkingDefault gives for the session's
    provider and model and the gateway's model catalog. *)
Theorem chat_history_thinking_level (g : Gateway) (rid : nat) (raw : Raw)
    (p : ChatHistoryParams) :
  validateChatHistoryParams raw = inl p ->
  let entry := l_entry (loadSessionEntry (disk g) (h_sessionKey p)) in
  exists (messages : list Msg) (level : string),
    exec (chat_history rid raw) g =
      (g, [LoadSessionEntry (h_sessionKey p);
           Respond rid true
             (Some (HistoryResult (h_sessionKey p) (sessionId <$> entry)
                      messages (Some level)))
             None NoMeta]) /\
    (forall stored, entry?.thinkingLevel = Some stored -> stored <> "" ->
       level = stored) /\
    (truthy entry?.thinkingLevel = false ->
     forall configured, thinkingDefault loadConfig = Some configured ->
       configured <> "" -> level = configured) /\
    (truthy entry?.thinkingLevel = false ->
     truthy (thinkingDefault loadConfig) = false ->
     level = resolveThinkingDefault loadConfig
               (resolveSessionModelRef loadConfig entry).1
               (resolveSessionModelRef loadConfig entry).2
               loadGatewayModelCatalog).
Proof.
  intros Hv entry.
  rewrite (chat_history_valid g rid raw p Hv). fold entry.
  assert (Hne : forall s : string, s <> "" -> truthy (Some s) = true).
  { intros s Hs. simpl. apply negb_true_iff, String.eqb_neq. exact Hs. }
  unfold historyThinkingLevel.
  destruct (truthy entry?.thinkingLevel) eqn:Hstored.
  - destruct (truthy_Some _ Hstored) as (lv & Hlv & Hnz).
    eexists _, lv. rewrite Hlv. split; [reflexivity|].
    split; [|split]; try discriminate.
    intros stored Heq _. congruence.
  - destruct (truthy (thinkingDefault loadConfig)) eqn:Hconf.
    + destruct (truthy_Some _ Hconf) as (c & Hc & Hnz).
      eexists _, c. rewrite Hc. split; [reflexivity|].
      split; [|split]; try discriminate.
      * intros stored Heq Hs. rewrite Heq, (Hne stored Hs) in Hstored.
        discriminate Hstored.
      * intros _ configured Heq _. congruence.
    + destruct (resolveSessionModelRef loadConfig entry) as [prov model] eqn:Href.
      eexists _, _. split; [reflexivity|].
      split; [|split].
      * intros stored Heq Hs. rewrite Heq, (Hne stored Hs) in Hstored.
        discriminate Hstored.
      * intros _ configured Heq Hc. rewrite Heq, (Hne configured Hc) in Hconf.
        discriminate Hconf.
      * intros _ _. reflexivity.
Qed.

(** ** chat.history: a read that nobody notices *)



(** ** Every request is answered once *)

Ltac step_kinds H :=
  destruct H as [rid raw out0 He
                |rid raw ok payload error He
                |rid raw p active Hv Hact Hkey
                |rid raw now uuid g1 out1 Hso
                |tid t path store now Ht Hph
                |ev tid o now t Hterm Ht].

Ltac send_outcomes H :=
  destruct H as [errors Hv
                |p err Hv Hm
                |p message Hv Hm Hpol
                |p message c Hv Hm Hpol Hc
                |p message ph out0 Hv Hm Hpol Hc ld sid opts Hout].




(** ** The idempotency cache only grows *)

Lemma turn_dedupe (g : Gateway) (ev : Event) (g' : Gateway)
    (out : list Effect) :
  Turn g ev g' out ->
  dedupe g' = dedupe g \/
  exists tid o now r,
    terminal_of ev = Some (tid, o, now) /\
    dedupe g' = <[dedupeKey r := terminalEntry r o now]> (dedupe g).
Proof.
  intros Hturn.
  destruct Hturn as [ev g' out _ Hd _ _ _
                    |rid raw now uuid p opts ph g' out _ _ _ Hd _ _ _
                    |tid t path store now Ht Hph
                    |ev tid o now t Hterm Ht].
  - left. exact Hd.
  - left. exact Hd.
  - left. reflexivity.
  - right. exists tid, o, now, (t_runId t). split; [exact Hterm | reflexivity].
Qed.

(** X14: the chat handlers never remove an entry of the idempotency cache
    and write only keys of the form "chat:<runId>": along every schedule a
    key that was cached stays cached, every other key is left exactly as it
    was, and an entry that is new or has changed is the terminal result
    (ok, or error UNAVAILABLE) of a run that one of the schedule's events
    ended. *)
Theorem dedupe_only_grows (evs : list Event) (g g' : Gateway)
    (out : list Effect) :
  run g evs = Some (g', out) ->
  (forall k, is_Some (dedupe g !! k) -> is_Some (dedupe g' !! k)) /\
  (forall k, (forall r, k <> "chat:" +:+ r) ->
     dedupe g' !! k = dedupe g !! k) /\
  (forall k c, dedupe g' !! k = Some c ->
     dedupe g !! k = Some c \/
     exists r tid o now ev,
       k = "chat:" +:+ r /\ c = terminalEntry r o now /\
       In ev evs /\ terminal_of ev = Some (tid, o, now)).
Proof.
  revert g g' out.
  induction evs as [|ev evs IH]; intros g g' out Hrun.
  - injection Hrun as <- <-. repeat split; auto.
  - cbn [run] in Hrun.
    destruct (step g ev) as [[g1 out1]|] eqn:Hstep; [|discriminate Hrun].
    destruct (run g1 evs) as [[g2 out2]|] eqn:Hrest; [|discriminate Hrun].
    injection Hrun as <- <-.
    destruct (IH g1 g2 out2 Hrest) as (Hkeep & Hother & Hnew).
    destruct (turn_dedupe g ev g1 out1 (step_turn _ _ _ _ Hstep))
      as [Hd|(tid & o & now & r & Hterm & Hd)].
    + rewrite Hd in *. split; [exact Hkeep|]. split; [exact Hother|].
      intros k c Hk. destruct (Hnew k c Hk)
        as [Hold|(r & tid & o & now & ev' & Hk' & Hc & Hin & Hterm)];
        [left; exact Hold|].
      right. exists r, tid, o, now, ev'. repeat split; auto. right. exact Hin.
    + split; [|split].
      * intros k Hk. apply Hkeep. rewrite Hd.
        destruct (decide (dedupeKey r = k)) as [<-|Hne].
        -- rewrite lookup_insert_eq. eauto.
        -- rewrite lookup_insert_ne by exact Hne. exact Hk.
      * intros k Hk. rewrite (Hother k Hk), Hd.
        apply lookup_insert_ne. intros Heq. exact (Hk r (eq_sym Heq)).
      * intros k c Hk. destruct (Hnew k c Hk)
          as [Hold|(r' & tid' & o' & now' & ev' & Hk' & Hc & Hin & Hterm')].
        -- rewrite Hd in Hold.
           destruct (decide (dedupeKey r = k)) as [<-|Hne].
           ++ rewrite lookup_insert_eq in Hold. injection Hold as <-.
              right. exists r, tid, o, now, ev. repeat split; auto.
              left. reflexivity.
           ++ rewrite lookup_insert_ne in Hold by exact Hne.
              left. exact Hold.
        -- right. exists r', tid', o', now', ev'. repeat split; auto.
           right. exact Hin.
Qed.

(** ** Run contexts *)

Lemma insert_is_Some_mono {V} (m : gmap string V) (k r : string) (v : V) :
  is_Some (m !! r) -> is_Some (<[k := v]> m !! r).
Proof.
  intros H. destruct (decide (k = r)) as [->|Hne].
  - rewrite lookup_insert_eq. eauto.
  - rewrite lookup_insert_ne by exact Hne. exact H.
Qed.

Lemma step_contexts (g : Gateway) (ev : Event) (g' : Gateway)
    (out : list Effect) :
  Step g ev g' out ->
  (forall r, is_Some (runContexts g !! r) -> is_Some (runContexts g' !! r)) /\
  (contexts_cover g ->
   contexts_cover g' /\
   forall opts, In (AgentCommand opts) out ->
     is_Some (runContexts g' !! o_runId opts)).
Proof.
  intros Hs. step_kinds Hs.
  - split; [auto|]. intros Hcov. split; [exact Hcov|].
    intros opts Hin.
    destruct (chat_history_frame g rid raw g out0 He) as [_ Hno].
    destruct (Hno opts Hin).
  - split; [auto|]. intros Hcov. split; [exact Hcov|].
    intros opts Hin. simpl in Hin. intuition discriminate.
  - split; [auto|]. intros Hcov. split; [exact Hcov|].
    intros opts Hin. simpl in Hin. intuition discriminate.
  - send_outcomes Hso.
    + split; [auto|]. intros Hcov. split; [exact Hcov|].
      intros opts Hin. simpl in Hin. intuition discriminate.
    + split; [auto|]. intros Hcov. split; [exact Hcov|].
      intros opts Hin. simpl in Hin. intuition discriminate.
    + split; [intros r; apply insert_is_Some_mono|]. intros Hcov. split.
      * intros tid t Ht. apply insert_is_Some_mono. exact (Hcov tid t Ht).
      * intros opts Hin. simpl in Hin. intuition discriminate.
    + split; [intros r; apply insert_is_Some_mono|]. intros Hcov. split.
      * intros tid t Ht. apply insert_is_Some_mono. exact (Hcov tid t Ht).
      * intros opts Hin. simpl in Hin. intuition discriminate.
    + split; [intros r; apply insert_is_Some_mono|]. intros Hcov. split.
      * intros tid t Ht. cbn [inflight runContexts acceptedGateway] in *.
        unfold registerAgentRunContext.
        destruct (decide (tid = nextTask g)) as [->|Hne].
        -- rewrite lookup_insert_eq in Ht. injection Ht as <-.
           unfold t_runId. cbn [t_opts]. unfold opts. cbn [o_runId agentOptsFor].
           rewrite lookup_insert_eq. eauto.
        -- rewrite lookup_insert_ne in Ht by congruence.
           apply insert_is_Some_mono. exact (Hcov tid t Ht).
      * intros o Hin. cbn [runContexts acceptedGateway].
        unfold registerAgentRunContext.
        destruct Hout as [(store & path & _ & _ & _ & _ & ->)|(_ & _ & ->)];
          simpl in Hin.
        -- intuition discriminate.
        -- destruct Hin as [Hin|[Hin|[]]]; [discriminate Hin|].
           injection Hin as <-. unfold opts. cbn [o_runId agentOptsFor].
           rewrite lookup_insert_eq. eauto.
  - split; [auto|]. intros Hcov. split.
    + intros tid' t' Ht'. cbn [inflight runContexts savedGateway] in *.
      destruct (decide (tid' = tid)) as [->|Hne].
      * rewrite lookup_insert_eq in Ht'. injection Ht' as <-.
        exact (Hcov tid t Ht).
      * rewrite lookup_insert_ne in Ht' by congruence. exact (Hcov tid' t' Ht').
    + intros opts [Hin|[]]. injection Hin as <-. exact (Hcov tid t Ht).
  - split; [auto|]. intros Hcov. split.
    + intros tid' t' Ht'. cbn [inflight runContexts settledGateway] in *.
      apply lookup_delete_Some in Ht' as [_ Ht']. exact (Hcov tid' t' Ht').
    + intros opts Hin. simpl in Hin. destruct Hin as [Hin|[]].
      unfold terminalResponse in Hin. discriminate Hin.
Qed.

(** X10: chat.send registers the run context (run id -> session key)
    before it evaluates the send policy and before it consults the cache,
    so a valid request whose attachments merged leaves its id registered
    under its session key even when it is denied or replayed, replacing any
    earlier registration of that id; and along every schedule run contexts
    are never unregistered, every call in flight runs under a registered
    id, and every executor invocation is for a registered id. *)
Theorem run_contexts_registered (evs : list Event) (g g' : Gateway)
    (out : list Effect) :
  contexts_cover g ->
  run g evs = Some (g', out) ->
  contexts_cover g' /\
  (forall r, is_Some (runContexts g !! r) -> is_Some (runContexts g' !! r)) /\
  (forall opts, In (AgentCommand opts) out ->
     is_Some (runContexts g' !! o_runId opts)) /\
  (forall rid raw now uuid p message g'' out',
     validateChatSendParams raw = inl p ->
     messageWithAttachments p = inl message ->
     step g' (ChatSend rid raw now uuid) = Some (g'', out') ->
     runContexts g'' =
       <[s_idempotencyKey p := s_sessionKey p]> (runContexts g')).
Proof.
  intros Hcov Hrun. split; [|split; [|split]].
  - revert g g' out Hcov Hrun.
    induction evs as [|ev evs IH]; intros g g' out Hcov Hrun.
    + injection Hrun as <- <-. exact Hcov.
    + cbn [run] in Hrun.
      destruct (step g ev) as [[g1 out1]|] eqn:Hstep; [|discriminate Hrun].
      destruct (run g1 evs) as [[g2 out2]|] eqn:Hrest; [|discriminate Hrun].
      injection Hrun as <- <-.
      destruct (step_contexts g ev g1 out1 (step_cases _ _ _ _ Hstep))
        as (_ & Hc).
      apply (IH g1 g2 out2); [exact (proj1 (Hc Hcov)) | exact Hrest].
  - revert g g' out Hcov Hrun.
    induction evs as [|ev evs IH]; intros g g' out Hcov Hrun r Hr.
    + injection Hrun as <- <-. exact Hr.
    + cbn [run] in Hrun.
      destruct (step g ev) as [[g1 out1]|] eqn:Hstep; [|discriminate Hrun].
      destruct (run g1 evs) as [[g2 out2]|] eqn:Hrest; [|discriminate Hrun].
      injection Hrun as <- <-.
      destruct (step_contexts g ev g1 out1 (step_cases _ _ _ _ Hstep))
        as (Hmono & Hc).
      apply (IH g1 g2 out2 (proj1 (Hc Hcov)) Hrest). apply Hmono. exact Hr.
  - revert g g' out Hcov Hrun.
    induction evs as [|ev evs IH]; intros g g' out Hcov Hrun opts Hin.
    + injection Hrun as <- <-. destruct Hin.
    + cbn [run] in Hrun.
      destruct (step g ev) as [[g1 out1]|] eqn:Hstep; [|discriminate Hrun].
      destruct (run g1 evs) as [[g2 out2]|] eqn:Hrest; [|discriminate Hrun].
      injection Hrun as <- <-.
      destruct (step_contexts g ev g1 out1 (step_cases _ _ _ _ Hstep))
        as (Hmono & Hc).
      destruct (Hc Hcov) as (Hcov1 & Hreg).
      apply in_app_or in Hin as [Hin|Hin].
      * assert (Hmono' : forall r, is_Some (runContexts g1 !! r) ->
                                   is_Some (runContexts g2 !! r)).
        { clear -Hrest. revert g1 g2 out2 Hrest.
          induction evs as [|ev evs IH]; intros g1 g2 out2 Hrest r Hr.
          - injection Hrest as <- <-. exact Hr.
          - cbn [run] in Hrest.
            destruct (step g1 ev) as [[g3 out3]|] eqn:Hstep;
              [|discriminate Hrest].
            destruct (run g3 evs) as [[g4 out4]|] eqn:Hrest';
              [|discriminate Hrest].
            injection Hrest as <- <-.
            apply (IH g3 g4 out4 Hrest').
            apply (step_contexts g1 ev g3 out3 (step_cases _ _ _ _ Hstep)).
            exact Hr. }
        apply Hmono'. exact (Hreg opts Hin).
      * exact (IH g1 g2 out2 Hcov1 Hrest opts Hin).
  - intros rid raw now uuid p0 message0 g'' out' Hv0 Hm0 Hstep.
    injection Hstep as Hstep.
    pose proof (chat_send_outcome _ _ _ _ _ _ _ Hstep) as Hso.
    send_outcomes Hso; try congruence;
      rewrite Hv0 in Hv; injection Hv as <-; try congruence; reflexivity.
Qed.

(** ** Cancellation tokens *)

Lemma step_controllers (g : Gateway) (ev : Event) (g' : Gateway)
    (out : list Effect) :
  controllers_allocated g -> Step g ev g' out -> controllers_allocated g'.
Proof.
  intros (HA & HB & HC & HD) Hs. step_kinds Hs.
  - repeat split; assumption.
  - repeat split; assumption.
  - unfold controllers_allocated.
    cbn [abortedSignals chatAbortControllers nextController inflight
         abortedGateway].
    split; [|split; [|split]]; [| |exact HC|exact HD].
    + intros c Hc. apply elem_of_union in Hc as [Hc|Hc]; [|exact (HA c Hc)].
      apply elem_of_singleton in Hc as ->. exact (HB _ _ Hact).
    + intros r a Ha. apply lookup_delete_Some in Ha as [_ Ha].
      exact (HB r a Ha).
  - send_outcomes Hso; try (repeat split; assumption).
    unfold controllers_allocated.
    cbn [abortedSignals chatAbortControllers nextController inflight
         acceptedGateway].
    assert (Hsig : o_abortSignal opts = nextController g) by reflexivity.
    split; [|split; [|split]].
    + intros c0 Hc0. pose proof (HA c0 Hc0). lia.
    + intros r a Ha. destruct (decide (s_idempotencyKey p = r)) as [<-|Hne].
      * rewrite lookup_insert_eq in Ha. injection Ha as <-. simpl. lia.
      * rewrite lookup_insert_ne in Ha by exact Hne.
        pose proof (HB r a Ha). lia.
    + intros tid t Ht. destruct (decide (nextTask g = tid)) as [<-|Hne].
      * rewrite lookup_insert_eq in Ht. injection Ht as <-.
        cbn [t_opts]. rewrite Hsig. lia.
      * rewrite lookup_insert_ne in Ht by exact Hne.
        pose proof (HC tid t Ht). lia.
    + intros tid1 tid2 t1 t2 Ht1 Ht2 Heq.
      destruct (decide (nextTask g = tid1)) as [<-|Hne1];
        destruct (decide (nextTask g = tid2)) as [<-|Hne2]; [reflexivity| | |].
      * rewrite lookup_insert_eq in Ht1. injection Ht1 as <-.
        rewrite lookup_insert_ne in Ht2 by exact Hne2.
        pose proof (HC tid2 t2 Ht2). cbn [t_opts] in Heq.
        rewrite Hsig in Heq. lia.
      * rewrite lookup_insert_eq in Ht2. injection Ht2 as <-.
        rewrite lookup_insert_ne in Ht1 by exact Hne1.
        pose proof (HC tid1 t1 Ht1). cbn [t_opts] in Heq.
        rewrite Hsig in Heq. lia.
      * rewrite lookup_insert_ne in Ht1 by exact Hne1.
        rewrite lookup_insert_ne in Ht2 by exact Hne2.
        exact (HD tid1 tid2 t1 t2 Ht1 Ht2 Heq).
  - unfold controllers_allocated.
    cbn [abortedSignals chatAbortControllers nextController inflight
         savedGateway].
    assert (Hold : forall tid' t', <[tid := {| t_rid := t_rid t;
                                               t_opts := t_opts t;
                                               t_phase := Running |}]>
                                     (inflight g) !! tid' = Some t' ->
                   exists t0, inflight g !! tid' = Some t0 /\
                              t_opts t0 = t_opts t').
    { intros tid' t' Ht'. destruct (decide (tid = tid')) as [<-|Hne].
      - rewrite lookup_insert_eq in Ht'. injection Ht' as <-.
        exists t. split; [exact Ht | reflexivity].
      - rewrite lookup_insert_ne in Ht' by exact Hne. exists t'. auto. }
    split; [exact HA|]. split; [exact HB|]. split.
    + intros tid' t' Ht'. destruct (Hold tid' t' Ht') as (t0 & Ht0 & <-).
      exact (HC tid' t0 Ht0).
    + intros tid1 tid2 t1 t2 Ht1 Ht2 Heq.
      destruct (Hold tid1 t1 Ht1) as (u1 & Hu1 & Ho1).
      destruct (Hold tid2 t2 Ht2) as (u2 & Hu2 & Ho2).
      apply (HD tid1 tid2 u1 u2 Hu1 Hu2). rewrite Ho1, Ho2. exact Heq.
  - unfold controllers_allocated.
    cbn [abortedSignals chatAbortControllers nextController inflight
         settledGateway].
    split; [exact HA|]. split; [|split].
    + intros r a Ha. apply lookup_delete_Some in Ha as [_ Ha].
      exact (HB r a Ha).
    + intros tid' t' Ht'. apply lookup_delete_Some in Ht' as [_ Ht'].
      exact (HC tid' t' Ht').
    + intros tid1 tid2 t1 t2 Ht1 Ht2 Heq.
      apply lookup_delete_Some in Ht1 as [_ Ht1].
      apply lookup_delete_Some in Ht2 as [_ Ht2].
      exact (HD tid1 tid2 t1 t2 Ht1 Ht2 Heq).
Qed.

(** X7: cancellation tokens are never shared and never reused.  Starting
    from a gateway whose tokens were all allocated by the handlers, every
    schedule keeps it so: no two calls in flight hold the same token, so a
    chat.abort can cancel at most one of them; and the call a chat.send
    parks holds a token that no other call in flight holds and that is not
    aborted yet, however many aborts came before. *)
Theorem controllers_never_shared (evs : list Event) (g g' : Gateway)
    (out : list Effect) :
  controllers_allocated g ->
  run g evs = Some (g', out) ->
  controllers_allocated g' /\
  (forall tid1 tid2 t1 t2,
     inflight g' !! tid1 = Some t1 -> inflight g' !! tid2 = Some t2 ->
     tid1 <> tid2 -> o_abortSignal (t_opts t1) <> o_abortSignal (t_opts t2)) /\
  (forall rid raw now uuid g'' out' tid t,
     step g' (ChatSend rid raw now uuid) = Some (g'', out') ->
     inflight g'' !! tid = Some t -> inflight g' !! tid <> Some t ->
     (o_abortSignal (t_opts t) ∉ abortedSignals g'') /\
     forall tid' t', inflight g' !! tid' = Some t' ->
       o_abortSignal (t_opts t') <> o_abortSignal (t_opts t)).
Proof.
  intros Hinv Hrun.
  assert (Hinv' : controllers_allocated g').
  { apply (run_invariant controllers_allocated) with (evs := evs) (g := g)
      (out := out); [|exact Hinv|exact Hrun].
    intros g0 ev g1 out1 H0 Hstep.
    exact (step_controllers g0 ev g1 out1 H0 (step_cases _ _ _ _ Hstep)). }
  split; [exact Hinv'|].
  destruct Hinv' as (HA & HB & HC & HD). split.
  - intros tid1 tid2 t1 t2 Ht1 Ht2 Hne Heq.
    exact (Hne (HD tid1 tid2 t1 t2 Ht1 Ht2 Heq)).
  - intros rid raw now uuid g'' out' tid t Hstep Ht Hnew.
    injection Hstep as Hstep.
    pose proof (chat_send_outcome _ _ _ _ _ _ _ Hstep) as Hso.
    send_outcomes Hso; try (exfalso; exact (Hnew Ht)).
    cbn [inflight abortedSignals acceptedGateway] in *.
    destruct (decide (nextTask g' = tid)) as [<-|Hne].
    2:{ rewrite lookup_insert_ne in Ht by exact Hne.
        exfalso; exact (Hnew Ht). }
    rewrite lookup_insert_eq in Ht. injection Ht as <-. cbn [t_opts].
    assert (Hsig : o_abortSignal opts = nextController g') by reflexivity.
    rewrite Hsig. split.
    + intros Hin. pose proof (HA _ Hin). lia.
    + intros tid' t' Ht' Heq. pose proof (HC tid' t' Ht'). lia.
Qed.

(** ** chat.send: what the executor is handed *)

Lemma ceil_div_bound (a : Z) :
  1000 * (ceil_div a 1000 - 1) < a <= 1000 * ceil_div a 1000.
Proof.
  unfold ceil_div.
  pose proof (Z.div_mod (- a) 1000 ltac:(lia)) as Hdm.
  pose proof (Z.mod_pos_bound (- a) 1000 ltac:(lia)) as Hmod.
  lia.
Qed.

Lemma messageWithAttachments_none (p : ChatSendParams) (message : string) :
  default [] (s_attachments p) = [] ->
  messageWithAttachments p = inl message -> message = s_message p.
Proof.
  unfold messageWithAttachments, normalizedAttachments.
  destruct (s_attachments p) as [[|a l]|]; simpl; intros Hnil Hm;
    try discriminate Hnil; injection Hm as <-; reflexivity.
Qed.

(** X8: the call a chat.send parks is handed to the executor with exactly
    these options: the run id is the request's idempotency key, the session
    key, thinking and deliver are the request's, the session id is the
    loaded entry's (a fresh uuid for a new session), the message is the
    outcome of the attachment merge (the request's own message when there
    are no attachments), the provider is "webchat", the timeout is the
    resolved timeout in whole seconds, rounded up, as a decimal string, and
    the abort signal is that of the controller registered under the run id.
    The executor is invoked with these options at once when nothing is to be
    saved, and otherwise in the turn in which the store write completes. *)
Theorem chat_send_executor_options (g : Gateway) (rid : nat) (raw : Raw)
    (now : Z) (uuid : string) (p : ChatSendParams) (g' : Gateway)
    (out : list Effect) (tid : nat) (t : Task) :
  validateChatSendParams raw = inl p ->
  step g (ChatSend rid raw now uuid) = Some (g', out) ->
  inflight g' !! tid = Some t ->
  inflight g !! tid <> Some t ->
  let entry := l_entry (loadSessionEntry (disk g) (s_sessionKey p)) in
  let timeoutMs := resolveAgentTimeoutMs loadConfig (s_timeoutMs p) in
  let options := t_opts t in
  tid = nextTask g /\ t_rid t = rid /\
  o_runId options = s_idempotencyKey p /\
  o_sessionKey options = s_sessionKey p /\
  o_sessionId options =
    match entry with Some e => sessionId e | None => uuid end /\
  o_thinking options = s_thinking p /\
  o_deliver options = s_deliver p /\
  o_messageProvider options = "webchat" /\
  messageWithAttachments p = inl (o_message options) /\
  (default [] (s_attachments p) = [] -> o_message options = s_message p) /\
  o_timeout options = number_toString (ceil_div timeoutMs 1000) /\
  1000 * (ceil_div timeoutMs 1000 - 1) < timeoutMs
    <= 1000 * ceil_div timeoutMs 1000 /\
  chatAbortControllers g' !! s_idempotencyKey p =
    Some {| controller := o_abortSignal options;
            ab_sessionId := o_sessionId options;
            ab_sessionKey := s_sessionKey p |} /\
  (forall o, In (AgentCommand o) out -> o = options) /\
  (t_phase t = Running -> In (AgentCommand options) out) /\
  (forall path store now', t_phase t = Saving path store ->
     step g' (SaveSettled tid Resolved now') =
     Some (savedGateway g' tid t path store, [AgentCommand options])).
Proof.
  intros Hv0 Hstep Ht Hnew entry timeoutMs options. rename p into p0.
  injection Hstep as Hstep.
  pose proof (chat_send_outcome _ _ _ _ _ _ _ Hstep) as Hso. clear Hstep.
  send_outcomes Hso; try (exfalso; exact (Hnew Ht)).
  rewrite Hv0 in Hv. injection Hv as <-.
  cbn [inflight acceptedGateway] in Ht.
  destruct (decide (nextTask g = tid)) as [<-|Hne].
  2:{ rewrite lookup_insert_ne in Ht by exact Hne. exfalso; exact (Hnew Ht). }
  rewrite lookup_insert_eq in Ht. injection Ht as Ht.
  subst options. rewrite <- Ht. cbn [t_opts t_rid t_phase].
  split; [reflexivity|]. split; [reflexivity|]. split; [reflexivity|].
  split; [reflexivity|]. split; [reflexivity|]. split; [reflexivity|].
  split; [reflexivity|]. split; [reflexivity|]. split; [exact Hm|].
  split; [intros Hnil; exact (messageWithAttachments_none p0 message Hnil Hm)|].
  split; [reflexivity|]. split; [apply ceil_div_bound|].
  split; [cbn [chatAbortControllers acceptedGateway];
          rewrite lookup_insert_eq; reflexivity|].
  split; [|split].
  - intros o Hin.
    destruct Hout as [(store & path & _ & _ & _ & _ & ->)|(_ & _ & ->)];
      simpl in Hin.
    + intuition discriminate.
    + destruct Hin as [Hin|[Hin|[]]]; [discriminate Hin|].
      injection Hin as <-. reflexivity.
  - intros Hph.
    destruct Hout as [(store & path & _ & _ & _ & -> & _)|(_ & _ & ->)];
      [discriminate Hph|].
    right. left. reflexivity.
  - intros path store now' Hph. unfold step.
    cbn [inflight acceptedGateway]. rewrite lookup_insert_eq.
    cbn [t_phase]. rewrite Hph. rewrite chat_send_saved_resolved.
    reflexivity.
Qed.

(** ** chat.send: what is written to the session store *)

(** X9: when chat.send writes the session store, the document it hands to
    saveSessionStore is the loaded store with the request's session key
    set to a rebuilt entry and every other key as loaded.  The rebuilt
    entry keeps the loaded entry's session id, thinking, verbose and
    reasoning levels, systemSent, send policy, last provider and last
    recipient, stamps updatedAt with the current time, and carries no
    provider and no chat type; for a session without an entry it has the
    fresh uuid as session id and nothing else.  The executor is later
    handed the same session id, and the file itself is untouched until the
    write completes. *)
Theorem chat_send_persisted_entry (g : Gateway) (rid : nat) (raw : Raw)
    (now : Z) (uuid : string) (p : ChatSendParams) (g' : Gateway)
    (out : list Effect) (path : string) (written : SessionStore) :
  validateChatSendParams raw = inl p ->
  step g (ChatSend rid raw now uuid) = Some (g', out) ->
  In (SaveSessionStore path written) out ->
  let ld := loadSessionEntry (disk g) (s_sessionKey p) in
  exists (store : SessionStore) (e' : SessionEntry) (t : Task),
    l_store ld = Some store /\ l_storePath ld = Some path /\ path <> "" /\
    written = <[s_sessionKey p := e']> store /\
    (forall k, k <> s_sessionKey p -> written !! k = store !! k) /\
    updatedAt e' = now /\ provider e' = None /\ chatType e' = None /\
    match l_entry ld with
    | Some e =>
        sessionId e' = sessionId e /\
        thinkingLevel e' = thinkingLevel e /\
        verboseLevel e' = verboseLevel e /\
        reasoningLevel e' = reasoningLevel e /\
        systemSent e' = systemSent e /\
        sendPolicy e' = sendPolicy e /\
        lastProvider e' = lastProvider e /\
        lastTo e' = lastTo e
    | None =>
        sessionId e' = uuid /\
        thinkingLevel e' = None /\ verboseLevel e' = None /\
        reasoningLevel e' = None /\ systemSent e' = None /\
        sendPolicy e' = None /\ lastProvider e' = None /\ lastTo e' = None
    end /\
    disk g' = disk g /\
    inflight g' !! nextTask g = Some t /\
    t_phase t = Saving path written /\
    o_sessionId (t_opts t) = sessionId e'.
Proof.
  intros Hv0 Hstep Hin ld0. rename p into p0.
  injection Hstep as Hstep.
  pose proof (chat_send_outcome _ _ _ _ _ _ _ Hstep) as Hso. clear Hstep.
  send_outcomes Hso;
    try (exfalso; simpl in Hin; intuition discriminate).
  rewrite Hv0 in Hv. injection Hv as <-.
  destruct Hout as [(store & path' & Hstore & Hpath & Hne & -> & ->)
                   |(_ & _ & ->)];
    [|exfalso; simpl in Hin; intuition discriminate].
  destruct Hin as [Hin|[Hin|[]]]; [discriminate Hin|].
  injection Hin as <- <-.
  exists store, (sessionEntryFor (l_entry ld) sid now),
    {| t_rid := rid; t_opts := opts;
       t_phase := Saving path'
                    (<[s_sessionKey p0 :=
                         sessionEntryFor (l_entry ld) sid now]> store) |}.
  split; [exact Hstore|]. split; [exact Hpath|]. split; [exact Hne|].
  split; [reflexivity|].
  split; [intros k Hk; apply lookup_insert_ne; congruence|].
  split; [reflexivity|]. split; [reflexivity|]. split; [reflexivity|].
  split.
  { unfold ld0. fold ld. subst sid. destruct (l_entry ld) as [e|];
      repeat split; reflexivity. }
  split; [reflexivity|].
  split; [cbn [inflight acceptedGateway]; apply lookup_insert_eq|].
  split; reflexivity.
Qed.

(** ** chat.send without a session store *)

(** X15: when the session loader returns no store, or no store path (an
    empty one counts as none), an accepted chat.send persists nothing: it
    invokes the executor in the same turn, no store write is requested,
    and the session file is as it was when the run has ended, however the
    executor settles. *)
Theorem chat_send_without_store (g : Gateway) (rid : nat) (raw : Raw)
    (now : Z) (uuid : string) (p : ChatSendParams) (message : string) :
  validateChatSendParams raw = inl p ->
  messageWithAttachments p = inl message ->
  (let entry := l_entry (loadSessionEntry (disk g) (s_sessionKey p)) in
   resolveSendPolicy loadConfig entry (s_sessionKey p)
     (entry?.provider) (entry?.chatType) = allow) ->
  dedupe g !! dedupeKey (s_idempotencyKey p) = None ->
  (let ld := loadSessionEntry (disk g) (s_sessionKey p) in
   l_store ld = None \/ truthy (l_storePath ld) = false) ->
  exists (g' : Gateway) (options : AgentOpts),
    step g (ChatSend rid raw now uuid) =
      Some (g', [LoadSessionEntry (s_sessionKey p); AgentCommand options]) /\
    disk g' = disk g /\
    inflight g' =
      <[nextTask g := {| t_rid := rid; t_opts := options;
                         t_phase := Running |}]> (inflight g) /\
    forall o now',
      exists g'',
        step g' (AgentSettled (nextTask g) o now') =
          Some (g'', [terminalResponse rid (s_idempotencyKey p) o now']) /\
        disk g'' = disk g.
Proof.
  intros Hv Hm Hpol Hc Hnostore.
  pose proof (chat_send_accepted g rid raw now uuid p message Hv Hm Hpol Hc)
    as Hexec.
  cbn zeta in Hexec, Hnostore.
  set (ld := loadSessionEntry (disk g) (s_sessionKey p)) in *.
  set (sid := match l_entry ld with Some e => sessionId e | None => uuid end)
    in *.
  set (opts := agentOptsFor p message sid (nextController g)) in *.
  assert (Hrun : exec (chat_send rid raw now uuid) g =
                 (acceptedGateway g rid p sid opts Running,
                  [LoadSessionEntry (s_sessionKey p); AgentCommand opts])).
  { rewrite Hexec. destruct Hnostore as [Hnone|Hpath].
    - rewrite Hnone. reflexivity.
    - rewrite Hpath. destruct (l_store ld); reflexivity. }
  exists (acceptedGateway g rid p sid opts Running), opts.
  split; [cbn [step]; rewrite Hrun; reflexivity|].
  split; [reflexivity|]. split; [reflexivity|].
  intros o now'. eexists. split.
  - rewrite (step_agent_settled _ (nextTask g)
               {| t_rid := rid; t_opts := opts; t_phase := Running |} o now');
      [reflexivity | cbn [inflight acceptedGateway]; apply lookup_insert_eq
      | reflexivity].
  - reflexivity.
Qed.

(** ** chat.send: a store write that fails *)

(** X16: when the store write of an accepted chat.send fails, the request
    is answered with error UNAVAILABLE carrying the failure as text, the
    same failure is cached as the run's terminal result, the run's
    cancellation entry is removed, the session file is left as it was, and
    the executor is never invoked for that call: nothing is pending for it
    any more.  A retry under the same idempotency key that reaches the
    cache is answered with the cached failure instead of running. *)
Theorem store_write_failure (g : Gateway) (tid : nat) (t : Task)
    (path : string) (store : SessionStore) (err : Exn) (now : Z)
    (g' : Gateway) (out : list Effect) :
  inflight g !! tid = Some t ->
  t_phase t = Saving path store ->
  step g (SaveSettled tid (Rejected err) now) = Some (g', out) ->
  let r := t_runId t in
  let payload := RunResult r status_error (Some (String_ err)) in
  let error := {| code := UNAVAILABLE; message := String_ err |} in
  out = [Respond (t_rid t) false (Some payload) (Some error)
           (MetaRun r (Some (formatForLog err)))] /\
  disk g' = disk g /\
  dedupe g' !! dedupeKey r =
    Some {| ts := now; d_ok := false; d_payload := Some payload;
            d_error := Some error |} /\
  chatAbortControllers g' !! r = None /\
  inflight g' !! tid = None /\
  (forall o now', step g' (SaveSettled tid o now') = None /\
                  step g' (AgentSettled tid o now') = None) /\
  (forall rid raw now' uuid p message,
     validateChatSendParams raw = inl p ->
     s_idempotencyKey p = r ->
     messageWithAttachments p = inl message ->
     (let entry := l_entry (loadSessionEntry (disk g) (s_sessionKey p)) in
      resolveSendPolicy loadConfig entry (s_sessionKey p)
        (entry?.provider) (entry?.chatType) = allow) ->
     step g' (ChatSend rid raw now' uuid) =
     Some (set_runContexts (registerAgentRunContext r (s_sessionKey p)) g',
           [LoadSessionEntry (s_sessionKey p);
            Respond rid false (Some payload) (Some error) MetaCached])).
Proof.
  intros Ht Hph Hstep r payload error.
  destruct (step_terminal g (SaveSettled tid (Rejected err) now) tid
              (Rejected err) now g' out eq_refl Hstep)
    as (t' & Ht' & -> & ->).
  rewrite Ht in Ht'. injection Ht' as <-.
  split; [reflexivity|]. split; [reflexivity|].
  split; [cbn [dedupe settledGateway]; apply lookup_insert_eq|].
  split; [cbn [chatAbortControllers settledGateway]; apply lookup_delete_eq|].
  assert (Hgone : inflight (settledGateway g tid (t_runId t) (Rejected err) now)
                    !! tid = None)
    by (cbn [inflight settledGateway]; apply lookup_delete_eq).
  split; [exact Hgone|]. split.
  - intros o now'. unfold step. rewrite Hgone. split; reflexivity.
  - intros rid raw now' uuid p message Hv Hkey Hm Hpol. cbn [step].
    rewrite (chat_send_cached
               (settledGateway g tid (t_runId t) (Rejected err) now)
               rid raw now' uuid p message
               (terminalEntry r (Rejected err) now) Hv Hm Hpol).
    + rewrite Hkey. reflexivity.
    + rewrite Hkey. cbn [dedupe settledGateway]. apply lookup_insert_eq.
Qed.

(** ** chat.abort signals, it does not end the call *)

(** X12: a successful chat.abort only triggers the run's cancellation
    token: every call stays in flight, and the cache and the session file
    are untouched.  The aborted call still answers its own request and
    caches its terminal result when the executor settles; and a call
    aborted while its store write is pending still goes on to invoke the
    executor once the write completes, handing it the signal that is
    already aborted. *)
Theorem chat_abort_cooperative (g : Gateway) (rid : nat) (raw : Raw)
    (p : ChatAbortParams) (active : AbortEntry) (g' : Gateway)
    (out : list Effect) :
  validateChatAbortParams raw = inl p ->
  chatAbortControllers g !! a_runId p = Some active ->
  ab_sessionKey active = a_sessionKey p ->
  step g (ChatAbort rid raw) = Some (g', out) ->
  inflight g' = inflight g /\ dedupe g' = dedupe g /\ disk g' = disk g /\
  (forall tid t, inflight g !! tid = Some t ->
     o_abortSignal (t_opts t) = controller active ->
     o_abortSignal (t_opts t) ∈ abortedSignals g') /\
  (forall tid t o now, inflight g !! tid = Some t -> t_phase t = Running ->
     step g' (AgentSettled tid o now) =
     Some (settledGateway g' tid (t_runId t) o now,
           [terminalResponse (t_rid t) (t_runId t) o now])) /\
  (forall tid t path store now,
     inflight g !! tid = Some t -> t_phase t = Saving path store ->
     step g' (SaveSettled tid Resolved now) =
     Some (savedGateway g' tid t path store, [AgentCommand (t_opts t)])).
Proof.
  intros Hv Hact Hkey Hstep. cbn [step] in Hstep.
  rewrite (chat_abort_owner g rid raw p active Hv Hact Hkey) in Hstep.
  cbn zeta in Hstep. injection Hstep as <- <-.
  split; [reflexivity|]. split; [reflexivity|]. split; [reflexivity|].
  split; [|split].
  - intros tid t Ht Hsig. cbn [abortedSignals]. rewrite Hsig.
    apply elem_of_union_l, elem_of_singleton. reflexivity.
  - intros tid t o now Ht Hph. apply step_agent_settled; assumption.
  - intros tid t path store now Ht Hph. unfold step. cbn [inflight].
    rewrite Ht, Hph, chat_send_saved_resolved. reflexivity.
Qed.

(** ** The end of a run unregisters its id *)

(** X11: when a run ends, the finally block removes the cancellation entry
    registered under its run id, whichever call registered it.  If another
    call under the same id is still in flight (a key reused while the
    first run was running), that call stays in flight but can no longer be
    aborted: chat.abort for the id answers ok with aborted false and
    changes nothing.  Entries of other run ids are left alone. *)
Theorem run_end_unregisters_id (g : Gateway) (ev : Event) (tid : nat)
    (o : Outcome) (now : Z) (t : Task) (g' : Gateway) (out : list Effect) :
  terminal_of ev = Some (tid, o, now) ->
  inflight g !! tid = Some t ->
  step g ev = Some (g', out) ->
  chatAbortControllers g' !! t_runId t = None /\
  (forall r, r <> t_runId t ->
     chatAbortControllers g' !! r = chatAbortControllers g !! r) /\
  (forall tid' t', tid' <> tid -> inflight g !! tid' = Some t' ->
     inflight g' !! tid' = Some t') /\
  (forall rid raw p,
     validateChatAbortParams raw = inl p -> a_runId p = t_runId t ->
     step g' (ChatAbort rid raw) =
     Some (g', [Respond rid true (Some (AbortResult true false)) None
                  NoMeta])).
Proof.
  intros Hterm Ht Hstep.
  destruct (step_terminal g ev tid o now g' out Hterm Hstep)
    as (t' & Ht' & -> & ->).
  rewrite Ht in Ht'. injection Ht' as <-.
  assert (Hnone : chatAbortControllers
                    (settledGateway g tid (t_runId t) o now) !! t_runId t
                  = None)
    by (cbn [chatAbortControllers settledGateway]; apply lookup_delete_eq).
  split; [exact Hnone|]. split; [|split].
  - intros r Hr. cbn [chatAbortControllers settledGateway].
    apply lookup_delete_ne. congruence.
  - intros tid' t' Hne Ht'. cbn [inflight settledGateway].
    rewrite lookup_delete_ne by congruence. exact Ht'.
  - intros rid raw p Hv Hrun. cbn [step].
    rewrite (chat_abort_missing _ rid raw p Hv); [reflexivity|].
    rewrite Hrun. exact Hnone.
Qed.

(** ** The executor runs once per call *)

Lemma invocations_with_app (c : nat) (a b : list Effect) :
  invocations_with c (a ++ b)
  = (invocations_with c a + invocations_with c b)%nat.
Proof. induction a as [|e a IH]; simpl; [reflexivity | rewrite IH; lia]. Qed.

Lemma invocations_with_none (c : nat) (out : list Effect) :
  (forall opts, ~ In (AgentCommand opts) out) ->
  invocations_with c out = 0%nat.
Proof.
  induction out as [|e out IH]; intros H; simpl; [reflexivity|].
  rewrite IH by (intros opts Hin; apply (H opts); right; exact Hin).
  destruct e as [| | | | |opts]; simpl; try reflexivity.
  exfalso. apply (H opts). left. reflexivity.
Qed.

Lemma step_invoked_once (c : nat) (g : Gateway) (ev : Event) (g' : Gateway)
    (out : list Effect) (n : nat) :
  controllers_allocated g ->
  (n <= 1)%nat ->
  (n = 1%nat -> awaits_executor c g /\ (c < nextController g)%nat) ->
  Step g ev g' out ->
  (n + invocations_with c out <= 1)%nat /\
  ((n + invocations_with c out)%nat = 1%nat ->
   awaits_executor c g' /\ (c < nextController g')%nat).
Proof.
  intros (HA & HB & HC & HD) Hn Hone Hs. rename c into sig. step_kinds Hs.
  - destruct (chat_history_frame g rid raw g out0 He) as [_ Hno].
    rewrite (invocations_with_none sig out0 Hno), Nat.add_0_r.
    split; [exact Hn | exact Hone].
  - simpl. rewrite Nat.add_0_r. split; [exact Hn | exact Hone].
  - simpl. rewrite Nat.add_0_r. split; [exact Hn | exact Hone].
  - send_outcomes Hso;
      try (simpl; rewrite Nat.add_0_r; split; [exact Hn | exact Hone]).
    assert (Hsig : o_abortSignal opts = nextController g) by reflexivity.
    destruct Hout as [(store & path & _ & _ & _ & -> & ->)|(_ & -> & ->)].
    + simpl. rewrite Nat.add_0_r. split; [exact Hn|].
      intros H1. destruct (Hone H1) as [Hrun Hlt].
      split; [|cbn [nextController acceptedGateway]; lia].
      intros tid t Ht Hc0. cbn [inflight acceptedGateway] in Ht.
      destruct (decide (nextTask g = tid)) as [<-|Hne].
      * rewrite lookup_insert_eq in Ht. injection Ht as <-.
        cbn [t_opts] in Hc0. rewrite Hsig in Hc0. lia.
      * rewrite lookup_insert_ne in Ht by exact Hne. exact (Hrun tid t Ht Hc0).
    + cbn [invocations_with is_invocation_with]. rewrite Hsig.
      destruct (Nat.eqb_spec (nextController g) sig) as [Heq|Hneq].
      * assert (n = 0%nat) as ->.
        { destruct n as [|[|n]]; [reflexivity| |lia].
          destruct (Hone eq_refl) as [_ Hlt]. lia. }
        split; [simpl; lia|]. intros _.
        split; [|cbn [nextController acceptedGateway]; lia].
        intros tid t Ht Hc0. cbn [inflight acceptedGateway] in Ht.
        destruct (decide (nextTask g = tid)) as [<-|Hne].
        -- rewrite lookup_insert_eq in Ht. injection Ht as <-. reflexivity.
        -- rewrite lookup_insert_ne in Ht by exact Hne.
           pose proof (HC tid t Ht). lia.
      * simpl. rewrite Nat.add_0_r. split; [exact Hn|].
        intros H1. destruct (Hone H1) as [Hrun Hlt].
        split; [|cbn [nextController acceptedGateway]; lia].
        intros tid t Ht Hc0. cbn [inflight acceptedGateway] in Ht.
        destruct (decide (nextTask g = tid)) as [<-|Hne].
        -- rewrite lookup_insert_eq in Ht. injection Ht as <-. reflexivity.
        -- rewrite lookup_insert_ne in Ht by exact Hne.
           exact (Hrun tid t Ht Hc0).
  - cbn [invocations_with is_invocation_with].
    destruct (Nat.eqb_spec (o_abortSignal (t_opts t)) sig) as [Heq|Hneq].
    + assert (n = 0%nat) as ->.
      { destruct n as [|[|n]]; [reflexivity| |lia].
        destruct (Hone eq_refl) as [Hrun _].
        pose proof (Hrun tid t Ht Heq) as Hr. rewrite Hph in Hr.
        discriminate Hr. }
      split; [simpl; lia|]. intros _. split.
      * intros tid' t' Ht' Hc0. cbn [inflight savedGateway] in Ht'.
        destruct (decide (tid = tid')) as [<-|Hne].
        -- rewrite lookup_insert_eq in Ht'. injection Ht' as <-. reflexivity.
        -- rewrite lookup_insert_ne in Ht' by exact Hne. exfalso. apply Hne.
           apply (HD tid tid' t t' Ht Ht'). congruence.
      * cbn [nextController savedGateway]. rewrite <- Heq.
        exact (HC tid t Ht).
    + simpl. rewrite Nat.add_0_r. split; [exact Hn|].
      intros H1. destruct (Hone H1) as [Hrun Hlt]. split; [|exact Hlt].
      intros tid' t' Ht' Hc0. cbn [inflight savedGateway] in Ht'.
      destruct (decide (tid = tid')) as [<-|Hne].
      * rewrite lookup_insert_eq in Ht'. injection Ht' as <-. reflexivity.
      * rewrite lookup_insert_ne in Ht' by exact Hne.
        exact (Hrun tid' t' Ht' Hc0).
  - unfold terminalResponse. simpl. rewrite Nat.add_0_r.
    split; [exact Hn|].
    intros H1. destruct (Hone H1) as [Hrun Hlt]. split; [|exact Hlt].
    intros tid' t' Ht' Hc0. cbn [inflight settledGateway] in Ht'.
    apply lookup_delete_Some in Ht' as [_ Ht']. exact (Hrun tid' t' Ht' Hc0).
Qed.

Lemma run_invoked_once (c : nat) (evs : list Event) :
  forall (g g' : Gateway) (out : list Effect) (n : nat),
  controllers_allocated g ->
  (n <= 1)%nat ->
  (n = 1%nat -> awaits_executor c g /\ (c < nextController g)%nat) ->
  run g evs = Some (g', out) ->
  (n + invocations_with c out <= 1)%nat /\
  ((n + invocations_with c out)%nat = 1%nat ->
   awaits_executor c g' /\ (c < nextController g')%nat).
Proof.
  induction evs as [|ev evs IH]; intros g g' out n Hinv Hn Hone Hrun.
  - injection Hrun as <- <-. simpl. rewrite Nat.add_0_r. auto.
  - cbn [run] in Hrun.
    destruct (step g ev) as [[g1 out1]|] eqn:Hstep; [|discriminate Hrun].
    destruct (run g1 evs) as [[g2 out2]|] eqn:Hrest; [|discriminate Hrun].
    injection Hrun as <- <-.
    pose proof (step_cases _ _ _ _ Hstep) as Hs.
    destruct (step_invoked_once c g ev g1 out1 n Hinv Hn Hone Hs)
      as (Hn1 & Hone1).
    pose proof (step_controllers g ev g1 out1 Hinv Hs) as Hinv1.
    rewrite invocations_with_app, Nat.add_assoc.
    exact (IH g1 g2 out2 _ Hinv1 Hn1 Hone1 Hrest).
Qed.

(** X17: no call's executor is invoked twice.  Along every schedule, and
    for every cancellation token, the executor is handed that token at
    most once: a call whose store write completes is invoked once in that
    turn, a call without a store write once at acceptance, and no turn
    invokes it again, even when the same idempotency key is sent again
    while the call is in flight (that request becomes a call of its own,
    with its own token).  Once invoked, the call waits for the executor
    until its run ends. *)
Theorem executor_invoked_once (evs : list Event) (g g' : Gateway)
    (out : list Effect) (c : nat) :
  controllers_allocated g ->
  run g evs = Some (g', out) ->
  (invocations_with c out <= 1)%nat /\
  (invocations_with c out = 1%nat ->
   forall tid t, inflight g' !! tid = Some t ->
     o_abortSignal (t_opts t) = c -> t_phase t = Running).
Proof.
  intros Hinv Hrun.
  destruct (run_invoked_once c evs g g' out 0 Hinv ltac:(lia)
              ltac:(discriminate) Hrun) as (Hle & Hone).
  simpl in Hle, Hone. split; [exact Hle|].
  intros H1. exact (proj1 (Hone H1)).
Qed.

(** ** The empty gateway *)

Lemma step_after (g : Gateway) (ev : Event) :
  enabled g [ev] = true ->
  step g ev = Some (after g [ev], outputs g [ev]).
Proof.
  unfold enabled, after, outputs. cbn [run].
  destruct (step g ev) as [[g' out]|]; [|discriminate].
  rewrite app_nil_r. reflexivity.
Qed.


Lemma emptyGateway_covered (runs : ChatRuns) (d : Disk) :
  contexts_cover (emptyGateway runs d).
Proof.
  intros tid t Ht. cbn [inflight emptyGateway] in Ht.
  rewrite lookup_empty in Ht. discriminate Ht.
Qed.

Lemma emptyGateway_allocated (runs : ChatRuns) (d : Disk) :
  controllers_allocated (emptyGateway runs d).
Proof.
  unfold controllers_allocated.
  cbn [abortedSignals chatAbortControllers inflight nextController
       emptyGateway].
  split; [|split; [|split]].
  - intros c Hc. apply elem_of_empty in Hc. destruct Hc.
  - intros r a Ha. rewrite lookup_empty in Ha. discriminate Ha.
  - intros tid t Ht. rewrite lookup_empty in Ht. discriminate Ht.
  - intros tid1 tid2 t1 t2 Ht1. rewrite lookup_empty in Ht1. discriminate Ht1.
Qed.

End Properties.

(** ** Local media roots *)

Section MediaRootsProperties.
Context `{ME : MediaEnv}.

Lemma set_add_elem (x y : string) (s : list string) :
  x ∈ set_add y s <-> x = y \/ x ∈ s.
Proof.
  unfold set_add. case_bool_decide as Hin.
  - split; [auto | intros [->|H]; assumption].
  - rewrite elem_of_app, list_elem_of_singleton. tauto.
Qed.

Lemma set_add_NoDup (y : string) (s : list string) :
  NoDup s -> NoDup (set_add y s).
Proof.
  intros Hs. unfold set_add. case_bool_decide as Hin; [exact Hs|].
  apply NoDup_app. split; [exact Hs|]. split.
  - intros x Hx Hy. apply list_elem_of_singleton in Hy as ->. exact (Hin Hx).
  - apply NoDup_singleton.
Qed.

Lemma set_add_prefix (y : string) (s : list string) :
  s `prefix_of` set_add y s.
Proof.
  unfold set_add. case_bool_decide; [reflexivity | apply prefix_app_r].
  reflexivity.
Qed.

Lemma set_add_length (y : string) (s : list string) :
  (length (set_add y s) <= S (length s))%nat.
Proof.
  unfold set_add. case_bool_decide; [lia|]. rewrite length_app. simpl. lia.
Qed.

Lemma addAgentRoots_spec (cfg : MediaCfg) (roots : list string)
    (agentId : string) :
  NoDup roots ->
  NoDup (addAgentRoots cfg roots agentId) /\
  roots `prefix_of` addAgentRoots cfg roots agentId /\
  (length (addAgentRoots cfg roots agentId) <= 2 + length roots)%nat /\
  forall x, x ∈ addAgentRoots cfg roots agentId <->
    x ∈ roots \/ x = resolveAgentWorkspaceDir cfg agentId \/
    sandbox_root_of cfg agentId x.
Proof.
  intros Hnd. unfold addAgentRoots, sandbox_root_of.
  pose proof (set_add_NoDup (resolveAgentWorkspaceDir cfg agentId) roots Hnd)
    as Hnd1.
  pose proof (set_add_prefix (resolveAgentWorkspaceDir cfg agentId) roots)
    as Hp1.
  pose proof (set_add_length (resolveAgentWorkspaceDir cfg agentId) roots)
    as Hl1.
  destruct (sandboxWorkspaceRoot cfg agentId) as [root|] eqn:Hroot; simpl.
  - destruct (String.eqb_spec root "") as [->|Hne]; simpl.
    + split; [exact Hnd1|]. split; [exact Hp1|]. split; [lia|].
      intros x. rewrite set_add_elem. split.
      * intros [->|H]; auto.
      * intros [H|[->|(root & Heq & Hne & _)]]; auto.
        injection Heq as <-. congruence.
    + split; [apply set_add_NoDup; exact Hnd1|].
      split; [etransitivity; [exact Hp1 | apply set_add_prefix]|].
      split.
      { pose proof (set_add_length (resolveUserPath root)
                      (set_add (resolveAgentWorkspaceDir cfg agentId) roots)).
        lia. }
      intros x. rewrite !set_add_elem. split.
      * intros [->|[->|H]]; eauto 6.
      * intros [H|[->|(root' & Heq & _ & ->)]]; auto.
        injection Heq as <-. auto.
  - split; [exact Hnd1|]. split; [exact Hp1|]. split; [lia|].
    intros x. rewrite set_add_elem. split.
    + intros [->|H]; auto.
    + intros [H|[->|(root & Heq & _)]]; auto. discriminate Heq.
Qed.

Lemma foldl_addAgentRoots_spec (cfg : MediaCfg) (ids : list string) :
  forall roots : list string,
  NoDup roots ->
  NoDup (foldl (addAgentRoots cfg) roots ids) /\
  roots `prefix_of` foldl (addAgentRoots cfg) roots ids /\
  (length (foldl (addAgentRoots cfg) roots ids)
   <= length roots + 2 * length ids)%nat /\
  forall x, x ∈ foldl (addAgentRoots cfg) roots ids <->
    x ∈ roots \/
    exists agentId, agentId ∈ ids /\
      (x = resolveAgentWorkspaceDir cfg agentId \/
       sandbox_root_of cfg agentId x).
Proof.
  induction ids as [|agentId ids IH]; intros roots Hnd; simpl.
  - split; [exact Hnd|]. split; [reflexivity|]. split; [lia|].
    intros x. split; [auto|]. intros [H|(a & Ha & _)]; [exact H|].
    apply elem_of_nil in Ha. destruct Ha.
  - destruct (addAgentRoots_spec cfg roots agentId Hnd)
      as (Hnd1 & Hp1 & Hl1 & Hin1).
    destruct (IH _ Hnd1) as (Hnd2 & Hp2 & Hl2 & Hin2).
    split; [exact Hnd2|].
    split; [etransitivity; [exact Hp1 | exact Hp2]|].
    split; [lia|].
    intros x. rewrite Hin2, Hin1. split.
    + intros [[H|H]|(a & Ha & H)].
      * auto.
      * right. exists agentId. split; [left | exact H].
      * right. exists a. split; [right; exact Ha | exact H].
    + intros [H|(a & Ha & H)]; [auto|].
      apply elem_of_cons in Ha as [->|Ha]; [auto|].
      right. exists a. auto.
Qed.

(** X1: resolveMediaLocalRoots returns a list without repeats that starts
    with the media directory of the configuration directory, holds at most
    one entry plus two per listed agent, and contains exactly the media
    directory, every listed agent's workspace, and the resolved sandbox
    root of every listed agent that has a non-empty one. *)
Theorem resolveMediaLocalRoots_roots (cfg : MediaCfg) :
  let media := path_join resolveConfigDir "media" in
  NoDup (resolveMediaLocalRoots cfg) /\
  head (resolveMediaLocalRoots cfg) = Some media /\
  (length (resolveMediaLocalRoots cfg)
   <= 1 + 2 * length (listAgentIds cfg))%nat /\
  forall x, x ∈ resolveMediaLocalRoots cfg <->
    x = media \/
    exists agentId, agentId ∈ listAgentIds cfg /\
      (x = resolveAgentWorkspaceDir cfg agentId \/
       exists root, sandboxWorkspaceRoot cfg agentId = Some root /\
         root <> "" /\ x = resolveUserPath root).
Proof.
  intros media. unfold resolveMediaLocalRoots. fold media.
  assert (Hinit : set_add media [] = [media]) by reflexivity.
  rewrite Hinit.
  destruct (foldl_addAgentRoots_spec cfg (listAgentIds cfg) [media])
    as (Hnd & Hp & Hl & Hin).
  { apply NoDup_singleton. }
  split; [exact Hnd|]. split.
  - destruct Hp as [k ->]. reflexivity.
  - split; [simpl in Hl; lia|].
    intros x. rewrite Hin, list_elem_of_singleton. reflexivity.
Qed.

End MediaRootsProperties.

(** ** The handlers on the concrete gateway *)

Example base64_Man : base64 ["M"%byte; "a"%byte; "n"%byte] = "TWFu".
Proof. reflexivity. Qed.

Example base64_Ma : base64 ["M"%byte; "a"%byte] = "TWE=".
Proof. reflexivity. Qed.

Example base64_M : base64 ["M"%byte] = "TQ==".
Proof. reflexivity. Qed.

Example timeout_seconds : number_toString (ceil_div 29001 1000) = "30".
Proof. reflexivity. Qed.

Example slice_last_two : js_slice (-2) [1; 2; 3; 4; 5] = [4; 5].
Proof. reflexivity. Qed.

Lemma chat_history_count_cap_witness :
  let stored := cfg_transcript testCfg "sess-main" in
  length stored = 300%nat /\
  length (historySliced (Some 5) stored) = 5%nat /\
  historySliced (Some 5) stored = drop 295 stored /\
  historySliced (Some 5) stored !! 0%nat = Some "m295".
Proof.
  pose proof (chat_history_count_cap (X := testX) testGateway 1
                (testHistory "main" (Some 5))
                {| h_sessionKey := "main"; h_limit := Some 5 |} eq_refl) as H.
  assert (Hlim : forall L : Z, Some 5 = Some L -> 1 <= L)
    by (intros L [= <-]; lia).
  specialize (H Hlim). cbn zeta in H.
  destruct H as (Hlen & Hwin & Hidx & _).
  split; [reflexivity|].
  split; [exact Hlen|].
  split; [exact Hwin|].
  etransitivity; [exact (Hidx 0%nat) | vm_compute; reflexivity].
Defined.

Lemma chat_abort_active_run_witness :
  let ev := {| e_runId := "idem-1"; e_sessionKey := "main"; e_seq := 1;
               e_state := aborted |} in
  chatAbortControllers liveGateway !! "idem-1" =
    Some {| controller := 0; ab_sessionId := "sess-main";
            ab_sessionKey := "main" |} /\
  exists g' : @Gateway testX,
    exec (chat_abort (X := testX) 5 (RawAbort {| a_sessionKey := "main";
                                    a_runId := "idem-1" |})) liveGateway =
      (g', [Broadcast "chat" ev; BridgeSendToSession "main" "chat" ev;
            Respond 5 true (Some (AbortResult true true)) None NoMeta]) /\
    0%nat ∈ abortedSignals g' /\
    chatAbortControllers g' !! "idem-1" = None /\
    (o_abortSignal ∘ t_opts) <$> inflight liveGateway !! 0%nat = Some 0%nat.
Proof.
  assert (Hact : chatAbortControllers liveGateway !! "idem-1" =
                 Some {| controller := 0; ab_sessionId := "sess-main";
                         ab_sessionKey := "main" |})
    by (vm_compute; reflexivity).
  split; [exact Hact|].
  destruct (chat_abort_active_run (X := testX) liveGateway 5
              (RawAbort {| a_sessionKey := "main"; a_runId := "idem-1" |})
              {| a_sessionKey := "main"; a_runId := "idem-1" |}
              _ eq_refl Hact eq_refl)
    as (g' & Hexec & Hsig & _ & _ & _ & _ & _ & Hnone & _).
  exists g'. split; [exact Hexec|]. split; [exact Hsig|].
  split; [exact Hnone | reflexivity].
Defined.

Lemma chat_abort_session_mismatch_witness :
  exec (chat_abort (X := testX) 5 (RawAbort {| a_sessionKey := "other";
                                  a_runId := "idem-1" |})) liveGateway =
  (liveGateway,
   [Respond 5 false None
      (Some {| code := INVALID_REQUEST;
               message := "runId does not match sessionKey" |}) NoMeta]).
Proof.
  assert (Hact : chatAbortControllers liveGateway !! "idem-1" =
                 Some {| controller := 0; ab_sessionId := "sess-main";
                         ab_sessionKey := "main" |})
    by (vm_compute; reflexivity).
  refine (chat_abort_session_mismatch (X := testX) liveGateway 5
            (RawAbort {| a_sessionKey := "other"; a_runId := "idem-1" |})
            {| a_sessionKey := "other"; a_runId := "idem-1" |}
            _ eq_refl Hact _).
  simpl. intros H. discriminate H.
Defined.



Lemma chat_send_policy_deny_witness :
  exists (g' : @Gateway testX) (out : list Effect),
    exec (chat_send (X := testX) 1 (RawSend (sendParams "discord:group:dev" "hello"
                                  "idem-1")) 10 "u1") testGateway =
      (g', out) /\
    out = [LoadSessionEntry "discord:group:dev";
           Respond 1 false None
             (Some {| code := INVALID_REQUEST;
                      message := "send blocked by session policy" |})
             NoMeta] /\
    disk g' = disk testGateway /\ inflight g' = inflight testGateway.
Proof.
  destruct (chat_send_policy_deny (X := testX) testGateway 1
              (RawSend (sendParams "discord:group:dev" "hello" "idem-1"))
              10 "u1" (sendParams "discord:group:dev" "hello" "idem-1")
              eq_refl)
    as (g' & out & msg & Hexec & _ & _ & _ & _ & Hdisk & _ & Hfl & _ & _
        & Hcase).
  - vm_compute. reflexivity.
  - exists g', out. split; [exact Hexec|].
    split; [exact (proj2 Hcase)|]. split; [exact Hdisk | exact Hfl].
Defined.

Lemma chat_send_attachment_cap_witness :
  exec (chat_send (X := testX) 1 (RawSend sendBig) 10 "u1") testGateway =
  (testGateway,
   [Respond 1 false None
      (Some {| code := INVALID_REQUEST;
               message := "Error: attachments exceed size limit" |})
      NoMeta]).
Proof.
  assert (Hb : @buildMessageWithAttachments testX (s_message sendBig)
                 (normalizedAttachments sendBig) 5000000 =
               inr "Error: attachments exceed size limit")
    by (vm_compute; reflexivity).
  refine (proj2 (chat_send_attachment_cap (X := testX) testGateway 1
                   (RawSend sendBig) 10 "u1" sendBig
                   "Error: attachments exceed size limit" eq_refl _ Hb)).
  simpl. intros H. discriminate H.
Defined.

Lemma chat_send_keeps_delivery_route_witness :
  let persisted :=
    <["routed" := sessionEntryFor (Some routedEntry) "sess-routed" 10]>
      testStore in
  outputs testGateway
    [testSend 1 (sendParams "routed" "hello" "idem-route") 10 "u1"] =
    [LoadSessionEntry "routed"; SaveSessionStore "sessions.json" persisted] /\
  (exists e', persisted !! "routed" = Some e' /\
     lastProvider e' = Some "whatsapp" /\ lastTo e' = Some "+1555") /\
  exists (g3 : @Gateway testX) (opts : AgentOpts),
    run testGateway
      [testSend 1 (sendParams "routed" "hello" "idem-route") 10 "u1";
       SaveSettled 0 Resolved 11; AgentSettled 0 Resolved 12] =
      Some (g3, [LoadSessionEntry "routed";
                 SaveSessionStore "sessions.json" persisted;
                 AgentCommand opts;
                 terminalResponse 1 "idem-route" Resolved 12]) /\
    disk g3 = <["sessions.json" := persisted]> testDisk.
Proof.
  intros persisted.
  assert (Hload : @loadSessionEntry testX (disk testGateway) "routed" =
                  {| l_storePath := Some "sessions.json";
                     l_store := Some testStore;
                     l_entry := Some routedEntry |})
    by (vm_compute; reflexivity).
  destruct (chat_send_keeps_delivery_route (X := testX) testGateway 1
              (RawSend (sendParams "routed" "hello" "idem-route")) 10 "u1"
              (sendParams "routed" "hello" "idem-route")
              "sessions.json" testStore routedEntry "whatsapp" "+1555"
              eq_refl Hload)
    as (Hentry & _ & g1 & out & Hstep & _ & _ & _ & Hacc).
  - intros H. discriminate H.
  - reflexivity.
  - reflexivity.
  - destruct (Hacc "hello" eq_refl eq_refl eq_refl)
      as (Hout & _ & _ & _ & _ & Hrun).
    split.
    + unfold outputs, testSend. cbn [run]. rewrite Hstep, app_nil_r.
      exact Hout.
    + split; [exact Hentry|].
      destruct (Hrun 11 Resolved 12) as (g3 & Hrun3 & Hdisk3).
      exists g3, (agentOptsFor (X := testX)
                    (sendParams "routed" "hello" "idem-route") "hello"
                    "sess-routed" 0).
      split; [exact Hrun3 | exact Hdisk3].
Defined.

Lemma chat_send_dedupe_written_once_witness :
  tasks_numbered testGateway /\
  enabled testGateway duplicateSchedule = true /\
  (runs_ended 0 duplicateSchedule <= 1)%nat /\
  (runs_ended 1 duplicateSchedule <= 1)%nat.
Proof.
  assert (Hnum : tasks_numbered testGateway).
  { intros tid t Ht. unfold testGateway, emptyGateway in Ht.
    cbn [inflight] in Ht. rewrite lookup_empty in Ht. discriminate Ht. }
  assert (Hen : enabled testGateway duplicateSchedule = true)
    by (vm_compute; reflexivity).
  split; [exact Hnum|]. split; [exact Hen|].
  destruct (chat_send_dedupe_written_once (X := testX) testGateway Hnum)
    as (_ & _ & _ & Honce & _).
  pose proof (run_enabled testGateway duplicateSchedule Hen) as Hrun.
  split; [exact (proj2 (Honce _ _ _ 0%nat Hrun))
         | exact (proj2 (Honce _ _ _ 1%nat Hrun))].
Defined.

Lemma chat_send_replays_cached_witness :
  let g5 := after testGateway (take 5 duplicateSchedule) in
  dedupe g5 !! dedupeKey "idem-1" =
    Some (terminalEntry "idem-1" (@Rejected testX "boom") 20) /\
  inflight g5 !! 1%nat = Some (runningTask 2 1) /\
  exec (chat_send (X := testX) 3
          (RawSend (sendParams "main" "hello" "idem-1")) 30 "u3") g5 =
  (set_runContexts (registerAgentRunContext "idem-1" "main") g5,
   [LoadSessionEntry "main";
    Respond 3 false
      (Some (RunResult "idem-1" status_error (Some "boom")))
      (Some {| code := UNAVAILABLE; message := "boom" |}) MetaCached]).
Proof.
  intros g5.
  assert (Hc : dedupe g5 !! dedupeKey "idem-1" =
               Some (terminalEntry "idem-1" (@Rejected testX "boom") 20))
    by reflexivity.
  split; [exact Hc|].
  split; [vm_compute; reflexivity|].
  refine (proj1 (chat_send_replays_cached (X := testX) g5 "idem-1"
                   (terminalEntry "idem-1" (@Rejected testX "boom") 20) Hc)
            3%nat (RawSend (sendParams "main" "hello" "idem-1")) 30 "u3"
            (sendParams "main" "hello" "idem-1") "hello"
            eq_refl eq_refl eq_refl _).
  vm_compute. reflexivity.
Defined.

(** C1 does not hold in two situations.  A request whose key is
    cached but whose session the policy denies is answered INVALID_REQUEST,
    not with the cached result, because the policy check comes first.  And
    when a key is reused while its first run is still in flight, no
    terminal result is cached yet, so the second request is accepted as
    well: the executor is invoked twice for the one key and the two
    requests are answered with different terminal payloads. *)
Lemma chat_send_duplicate_in_flight :
  (dedupe cachedGateway !! dedupeKey "idem-1" =
     Some (terminalEntry "idem-1" Resolved 12) /\
   snd (exec (chat_send (X := testX) 3
                (RawSend (sendParams "discord:group:dev" "hello" "idem-1"))
                30 "u3") cachedGateway) =
     [LoadSessionEntry "discord:group:dev";
      Respond 3 false None
        (Some {| code := INVALID_REQUEST;
                 message := "send blocked by session policy" |}) NoMeta]) /\
  enabled testGateway duplicateSchedule = true /\
  invocations "idem-1" (outputs testGateway duplicateSchedule) = 2%nat /\
  responses (outputs testGateway duplicateSchedule) =
    [Respond 1 false
       (Some (RunResult "idem-1" status_error (Some "boom")))
       (Some {| code := UNAVAILABLE; message := "boom" |})
       (MetaRun "idem-1" (Some "boom"));
     Respond 2 true (Some (RunResult "idem-1" status_ok None)) None
       (MetaRun "idem-1" None)] /\
  dedupe (after testGateway duplicateSchedule) !! dedupeKey "idem-1" =
    Some (terminalEntry "idem-1" Resolved 21).
Proof.
  split; [split; reflexivity|].
  split; [vm_compute; reflexivity|].
  split; [vm_compute; reflexivity|].
  split; reflexivity.
Qed.

(** C5 does not hold for a request whose attachments exceed
    the cap: the merge is attempted before the policy is evaluated, so on a
    session the policy denies the request is answered INVALID_REQUEST with
    the merge error, not with "send blocked by session policy". *)
Lemma chat_send_denied_session_oversized :
  (let entry :=
     l_entry (@loadSessionEntry testX (disk testGateway)
                (s_sessionKey sendBigDenied)) in
   @resolveSendPolicy testX loadConfig entry (s_sessionKey sendBigDenied)
     entry?.provider entry?.chatType = deny) /\
  exec (chat_send (X := testX) 1 (RawSend sendBigDenied) 10 "u1")
    testGateway =
  (testGateway,
   [Respond 1 false None
      (Some {| code := INVALID_REQUEST;
               message := "Error: attachments exceed size limit" |})
      NoMeta]).
Proof.
  split; [vm_compute; reflexivity|].
  apply (chat_send_merge_failed (X := testX) testGateway 1
           (RawSend sendBigDenied) 10 "u1" sendBigDenied
           "Error: attachments exceed size limit" eq_refl).
  vm_compute. reflexivity.
Qed.

(** C10 does not hold when a key is reused while its first
    run is still in flight: both runs end, each writes the entry under the
    shared key, and the second write replaces the first. *)
Lemma chat_send_dedupe_overwritten :
  enabled testGateway duplicateSchedule = true /\
  runs_ended 0 duplicateSchedule = 1%nat /\
  runs_ended 1 duplicateSchedule = 1%nat /\
  dedupe (after testGateway (take 5 duplicateSchedule))
    !! dedupeKey "idem-1" =
    Some (terminalEntry "idem-1" (@Rejected testX "boom") 20) /\
  dedupe (after testGateway duplicateSchedule) !! dedupeKey "idem-1" =
    Some (terminalEntry "idem-1" Resolved 21).
Proof.
  split; [vm_compute; reflexivity|].
  split; [reflexivity|]. split; [reflexivity|].
  split; reflexivity.
Qed.

(** ** The scenarios of server.chat.test.ts on the concrete gateway *)

(** "chat.abort cancels while saving the session store": the abort is
    answered and the aborted event broadcast while the store write is
    still pending; the call resolves once the executor returns. *)
Example abort_while_saving :
  let evs :=
    [testSend 1 (sendParams "main" "hello" "idem-abort-save-1") 10 "u1";
     testAbort 2 "main" "idem-abort-save-1";
     SaveSettled 0 Resolved 11;
     AgentSettled 0 Resolved 12] in
  enabled testGateway evs = true /\
  aborted_events "idem-abort-save-1" (outputs testGateway evs) = 1%nat /\
  responses (outputs testGateway evs) =
    [Respond 2 true (Some (AbortResult true true)) None NoMeta;
     Respond 1 true (Some (RunResult "idem-abort-save-1" status_ok None))
       None (MetaRun "idem-abort-save-1" None)] /\
  abortedSignals (after testGateway evs) = {[ 0%nat ]}.
Proof.
  split; [vm_compute; reflexivity|].
  split; [vm_compute; reflexivity|].
  split; [reflexivity | vm_compute; reflexivity].
Qed.

(** "chat.abort is a no-op after chat.send completes". *)
Example abort_after_completion :
  responses (outputs cachedGateway [testAbort 2 "main" "idem-1"]) =
    [Respond 2 true (Some (AbortResult true false)) None NoMeta] /\
  after cachedGateway [testAbort 2 "main" "idem-1"] = cachedGateway.
Proof. split; reflexivity. Qed.

(** "chat.abort rejects mismatched sessionKey", then accepts the owner. *)
Example abort_mismatch_then_owner :
  responses (outputs liveGateway
               [testAbort 2 "other" "idem-1"; testAbort 3 "main" "idem-1"]) =
    [Respond 2 false None
       (Some {| code := INVALID_REQUEST;
                message := "runId does not match sessionKey" |}) NoMeta;
     Respond 3 true (Some (AbortResult true true)) None NoMeta].
Proof. reflexivity. Qed.

(** "chat.history caps large histories and honors limit": 300 stored
    messages, no limit. *)
Example history_default_limit :
  let stored := cfg_transcript testCfg "sess-main" in
  length (historySliced None stored) = 200%nat /\
  historySliced None stored !! 0%nat = Some "m100" /\
  historySliced (Some 1000) stored = stored.
Proof. vm_compute. repeat split. Qed.

(** ** The further properties on the concrete gateway *)

(** Two agents with the same workspace contribute it once; the sandbox
    root of the second comes last. *)
Example media_roots_shared_workspace :
  resolveMediaLocalRoots (ME := testMediaEnv) tt =
  ["/home/u/.openclaw/media"; "/home/u/workspace"; "/home/u/sandboxes"].
Proof. vm_compute. reflexivity. Qed.

Lemma invalid_params_rejected_witness :
  step testGateway (@ChatSend testX 7 RawMalformed 10 "u1") =
  Some (testGateway,
        [Respond 7 false None
           (Some {| code := INVALID_REQUEST;
                    message := "invalid chat.send params: must be object" |})
           NoMeta]).
Proof.
  exact (invalid_params_rejected (X := testX) testGateway
           (@ChatSend testX 7 RawMalformed 10 "u1") "chat.send" 7
           "must be object" eq_refl eq_refl eq_refl).
Defined.

Lemma chat_history_without_transcript_witness :
  exec (chat_history (X := testX) 3 (testHistory "unknown" None))
    testGateway =
  (testGateway,
   [LoadSessionEntry "unknown";
    Respond 3 true (Some (HistoryResult "unknown" None [] (Some "off")))
      None NoMeta]).
Proof.
  refine (chat_history_without_transcript (X := testX) testGateway 3
            (testHistory "unknown" None)
            {| h_sessionKey := "unknown"; h_limit := None |} eq_refl _).
  left. reflexivity.
Defined.

Lemma chat_history_thinking_level_witness :
  exists messages : list (@Msg testX),
    exec (chat_history (X := testX) 1 (testHistory "main" (Some 2)))
      testGateway =
    (testGateway,
     [LoadSessionEntry "main";
      Respond 1 true
        (Some (HistoryResult "main" (Some "sess-main") messages (Some "off")))
        None NoMeta]).
Proof.
  destruct (chat_history_thinking_level (X := testX) testGateway 1
              (testHistory "main" (Some 2))
              {| h_sessionKey := "main"; h_limit := Some 2 |} eq_refl)
    as (messages & level & Hexec & _ & _ & Hres).
  pose proof (Hres eq_refl eq_refl) as Hlevel.
  exists messages. rewrite Hlevel in Hexec. exact Hexec.
Defined.

Lemma chat_send_executor_options_witness :
  let g' :=
    after testGateway
      [testSend 1 (sendParams "main" "hello" "idem-1") 10 "u1"] in
  inflight g' !! 0%nat = Some (savingTask 1 10 0) /\
  o_runId (t_opts (savingTask 1 10 0)) = "idem-1" /\
  o_sessionId (t_opts (savingTask 1 10 0)) = "sess-main" /\
  o_message (t_opts (savingTask 1 10 0)) = "hello" /\
  o_timeout (t_opts (savingTask 1 10 0)) = "600" /\
  chatAbortControllers g' !! "idem-1" =
    Some {| controller := 0; ab_sessionId := "sess-main";
            ab_sessionKey := "main" |}.
Proof.
  intros g'.
  assert (Hstep : step testGateway
                    (testSend 1 (sendParams "main" "hello" "idem-1") 10 "u1")
                  = Some (g', outputs testGateway
                                [testSend 1 (sendParams "main" "hello" "idem-1")
                                   10 "u1"]))
    by (apply (step_after (X := testX)); vm_compute; reflexivity).
  assert (Ht : inflight g' !! 0%nat = Some (savingTask 1 10 0))
    by (vm_compute; reflexivity).
  assert (Hnew : inflight testGateway !! 0%nat <> Some (savingTask 1 10 0)).
  { unfold testGateway, emptyGateway. cbn [inflight].
    rewrite lookup_empty. discriminate. }
  destruct (chat_send_executor_options (X := testX) testGateway 1
              (RawSend (sendParams "main" "hello" "idem-1")) 10 "u1"
              (sendParams "main" "hello" "idem-1") g' _ 0%nat
              (savingTask 1 10 0) eq_refl Hstep Ht Hnew)
    as (_ & _ & Hrun & _ & Hsid & _ & _ & _ & _ & Hmsg & Htime & _ & Hreg & _).
  split; [exact Ht|]. split; [exact Hrun|]. split; [exact Hsid|].
  split; [exact (Hmsg eq_refl)|]. split; [exact Htime | exact Hreg].
Defined.

Lemma chat_send_persisted_entry_witness :
  let written :=
    <["routed" := sessionEntryFor (Some routedEntry) "sess-routed" 10]>
      testStore in
  exists (store : SessionStore) (e' : SessionEntry),
    written = <["routed" := e']> store /\
    updatedAt e' = 10 /\ provider e' = None /\ chatType e' = None /\
    lastProvider e' = Some "whatsapp" /\ lastTo e' = Some "+1555".
Proof.
  intros written.
  assert (Hstep : step testGateway
                    (testSend 1 (sendParams "routed" "hello" "idem-r") 10 "u1")
                  = Some (after testGateway
                            [testSend 1 (sendParams "routed" "hello" "idem-r")
                               10 "u1"],
                          outputs testGateway
                            [testSend 1 (sendParams "routed" "hello" "idem-r")
                               10 "u1"]))
    by (apply (step_after (X := testX)); vm_compute; reflexivity).
  assert (Hload : @loadSessionEntry testX (disk testGateway) "routed" =
                  {| l_storePath := Some "sessions.json";
                     l_store := Some testStore;
                     l_entry := Some routedEntry |})
    by (vm_compute; reflexivity).
  destruct (chat_send_persisted_entry (X := testX) testGateway 1
              (RawSend (sendParams "routed" "hello" "idem-r")) 10 "u1"
              (sendParams "routed" "hello" "idem-r") _ _
              "sessions.json" written eq_refl Hstep)
    as (store & e' & t & _ & _ & _ & Hw & _ & Hup & Hprov & Hct & Hfields & _).
  - right. left. reflexivity.
  - cbn [s_sessionKey sendParams] in Hfields, Hw. rewrite Hload in Hfields.
    cbn [l_entry] in Hfields.
    destruct Hfields as (_ & _ & _ & _ & _ & _ & Hlp & Hlt).
    exists store, e'. split; [exact Hw|]. split; [exact Hup|].
    split; [exact Hprov|]. split; [exact Hct|].
    split; [exact Hlp | exact Hlt].
Defined.

Lemma run_contexts_registered_witness :
  let g' := after testGateway (take 3 duplicateSchedule) in
  contexts_cover g' /\ is_Some (runContexts g' !! "idem-1").
Proof.
  intros g'.
  assert (Hen : enabled testGateway (take 3 duplicateSchedule) = true)
    by (vm_compute; reflexivity).
  destruct (run_contexts_registered (X := testX) (take 3 duplicateSchedule)
              testGateway g' (outputs testGateway (take 3 duplicateSchedule))
              (emptyGateway_covered ∅ testDisk)
              (run_enabled testGateway _ Hen))
    as (Hcov & _ & Hreg & _).
  split; [exact Hcov|].
  apply (Hreg (t_opts (runningTask 1 0))).
  do 4 right. left. reflexivity.
Defined.

Lemma run_end_unregisters_id_witness :
  let g := after testGateway (take 4 duplicateSchedule) in
  let g' := after g [@AgentSettled testX 0 (@Rejected testX "boom") 20] in
  inflight g' !! 1%nat = Some (runningTask 2 1) /\
  chatAbortControllers g' !! "idem-1" = None /\
  step g' (testAbort 9 "main" "idem-1") =
    Some (g', [Respond 9 true (Some (AbortResult true false)) None NoMeta]).
Proof.
  intros g g'.
  assert (Hstep : step g (@AgentSettled testX 0 (@Rejected testX "boom") 20)
                  = Some (g', outputs g [@AgentSettled testX 0
                                           (@Rejected testX "boom") 20]))
    by (apply (step_after (X := testX)); vm_compute; reflexivity).
  assert (Ht : inflight g !! 0%nat = Some (runningTask 1 0))
    by (vm_compute; reflexivity).
  assert (Ht1 : inflight g !! 1%nat = Some (runningTask 2 1))
    by (vm_compute; reflexivity).
  destruct (run_end_unregisters_id (X := testX) g
              (@AgentSettled testX 0 (@Rejected testX "boom") 20) 0%nat
              (@Rejected testX "boom") 20
              (runningTask 1 0) g' _ eq_refl Ht Hstep)
    as (Hnone & _ & Hstay & Habort).
  split; [apply (Hstay 1%nat); [discriminate | exact Ht1]|].
  split; [exact Hnone|].
  exact (Habort 9%nat (RawAbort {| a_sessionKey := "main";
                                   a_runId := "idem-1" |})
           {| a_sessionKey := "main"; a_runId := "idem-1" |}
           eq_refl eq_refl).
Defined.

Lemma chat_abort_cooperative_witness :
  let g' := after liveGateway [testAbort 5 "main" "idem-1"] in
  inflight g' = inflight liveGateway /\
  0%nat ∈ abortedSignals g' /\
  step g' (AgentSettled 0 Resolved 12) =
    Some (settledGateway g' 0 "idem-1" Resolved 12,
          [terminalResponse 1 "idem-1" Resolved 12]).
Proof.
  intros g'.
  assert (Hstep : step liveGateway (testAbort 5 "main" "idem-1")
                  = Some (g', outputs liveGateway
                                [testAbort 5 "main" "idem-1"]))
    by (apply (step_after (X := testX)); vm_compute; reflexivity).
  assert (Hact : chatAbortControllers liveGateway !! "idem-1" =
                 Some {| controller := 0; ab_sessionId := "sess-main";
                         ab_sessionKey := "main" |})
    by (vm_compute; reflexivity).
  assert (Ht : inflight liveGateway !! 0%nat = Some (runningTask 1 0))
    by (vm_compute; reflexivity).
  destruct (chat_abort_cooperative (X := testX) liveGateway 5
              (RawAbort {| a_sessionKey := "main"; a_runId := "idem-1" |})
              {| a_sessionKey := "main"; a_runId := "idem-1" |}
              _ g' _ eq_refl Hact eq_refl Hstep)
    as (Hfl & _ & _ & Hsig & Hend & _).
  split; [exact Hfl|].
  split; [exact (Hsig 0%nat (runningTask 1 0) Ht eq_refl)|].
  exact (Hend 0%nat (runningTask 1 0) Resolved 12 Ht eq_refl).
Defined.


Lemma dedupe_only_grows_witness :
  let evs :=
    [testSend 3 (sendParams "main" "again" "idem-2") 30 "u3";
     SaveSettled 1 Resolved 31; AgentSettled 1 Resolved 32] in
  enabled cachedGateway evs = true /\
  is_Some (dedupe (after cachedGateway evs) !! dedupeKey "idem-1") /\
  dedupe (after cachedGateway evs) !! "agent:idem-1" =
    dedupe cachedGateway !! "agent:idem-1".
Proof.
  intros evs.
  assert (Hen : enabled cachedGateway evs = true) by (vm_compute; reflexivity).
  split; [exact Hen|].
  destruct (dedupe_only_grows (X := testX) evs cachedGateway _ _
              (run_enabled cachedGateway evs Hen))
    as (Hkeep & Hother & _).
  split.
  - apply Hkeep. eexists. reflexivity.
  - apply Hother. intros r Heq. discriminate Heq.
Defined.

Lemma chat_send_without_store_witness :
  exists (g' : @Gateway detachedX) (options : AgentOpts),
    step detachedGateway
      (@ChatSend detachedX 1 (RawSend (sendParams "main" "hello" "idem-1"))
         10 "u1") =
    Some (g', [LoadSessionEntry "main"; AgentCommand options]) /\
    disk g' = disk detachedGateway.
Proof.
  destruct (chat_send_without_store (X := detachedX) detachedGateway 1
              (RawSend (sendParams "main" "hello" "idem-1")) 10 "u1"
              (sendParams "main" "hello" "idem-1") "hello"
              eq_refl eq_refl)
    as (g' & options & Hstep & Hdisk & _).
  - reflexivity.
  - reflexivity.
  - right. reflexivity.
  - exists g', options. split; [exact Hstep | exact Hdisk].
Defined.

Lemma store_write_failure_witness :
  let g :=
    after testGateway
      [testSend 1 (sendParams "main" "hello" "idem-1") 10 "u1"] in
  let failed := @SaveSettled testX 0 (@Rejected testX "disk full") 11 in
  outputs g [failed] =
    [Respond 1 false
       (Some (RunResult "idem-1" status_error (Some "disk full")))
       (Some {| code := UNAVAILABLE; message := "disk full" |})
       (MetaRun "idem-1" (Some "disk full"))] /\
  disk (after g [failed]) = testDisk /\
  step (after g [failed]) (AgentSettled 0 Resolved 12) = None.
Proof.
  intros g failed.
  assert (Hstep : step g failed = Some (after g [failed], outputs g [failed]))
    by (apply (step_after (X := testX)); vm_compute; reflexivity).
  assert (Ht : inflight g !! 0%nat = Some (savingTask 1 10 0))
    by (vm_compute; reflexivity).
  destruct (store_write_failure (X := testX) g 0%nat (savingTask 1 10 0)
              "sessions.json" _ "disk full" 11 _ _ Ht eq_refl Hstep)
    as (Hout & Hdisk & _ & _ & _ & Hdead & _).
  split; [exact Hout|]. split; [exact Hdisk|].
  exact (proj2 (Hdead Resolved 12)).
Defined.

Lemma controllers_never_shared_witness :
  let g' := after testGateway (take 2 duplicateSchedule) in
  controllers_allocated g' /\
  inflight g' !! 0%nat = Some (savingTask 1 10 0) /\
  inflight g' !! 1%nat = Some (savingTask 2 11 1) /\
  o_abortSignal (t_opts (savingTask 1 10 0))
    <> o_abortSignal (t_opts (savingTask 2 11 1)).
Proof.
  intros g'.
  assert (Hen : enabled testGateway (take 2 duplicateSchedule) = true)
    by (vm_compute; reflexivity).
  assert (Ht0 : inflight g' !! 0%nat = Some (savingTask 1 10 0))
    by (vm_compute; reflexivity).
  assert (Ht1 : inflight g' !! 1%nat = Some (savingTask 2 11 1))
    by (vm_compute; reflexivity).
  destruct (controllers_never_shared (X := testX) (take 2 duplicateSchedule)
              testGateway g' _ (emptyGateway_allocated ∅ testDisk)
              (run_enabled testGateway _ Hen))
    as (Hinv & Hdistinct & _).
  split; [exact Hinv|]. split; [exact Ht0|]. split; [exact Ht1|].
  apply (Hdistinct 0%nat 1%nat _ _ Ht0 Ht1). discriminate.
Defined.

Lemma executor_invoked_once_witness :
  enabled testGateway duplicateSchedule = true /\
  (invocations_with 0 (outputs testGateway duplicateSchedule) <= 1)%nat /\
  (invocations_with 1 (outputs testGateway duplicateSchedule) <= 1)%nat /\
  invocations "idem-1" (outputs testGateway duplicateSchedule) = 2%nat.
Proof.
  assert (Hen : enabled testGateway duplicateSchedule = true)
    by (vm_compute; reflexivity).
  split; [exact Hen|].
  pose proof (run_enabled testGateway duplicateSchedule Hen) as Hrun.
  split; [|split].
  - exact (proj1 (executor_invoked_once (X := testX) duplicateSchedule
                    testGateway _ _ 0%nat
                    (emptyGateway_allocated ∅ testDisk) Hrun)).
  - exact (proj1 (executor_invoked_once (X := testX) duplicateSchedule
                    testGateway _ _ 1%nat
                    (emptyGateway_allocated ∅ testDisk) Hrun)).
  - vm_compute. reflexivity.
Defined.
